(** * Echo state networks of Chapter 8 (LearningAlgorithmsTemporal.py)

    A shallow embedding of the reservoir computing engine of
    [TemporalClassificationAlgorithms]: normalisation, weight initialisation,
    the teacher forced training recurrence, the two prediction modes and the
    grid search harness around them.  Beside it stand the grid searches of
    the recurrent neural network and of the time series models, the
    regression variant of the reservoir, and the evaluator of the dynamical
    systems models (dynsys/Evaluator.py); what these call in pybrain, pyflux
    and dynsys/Model.py is a parameter of their sections.

    Conventions of the embedding.
    - Floating point numbers are idealised as the elements of an ordered
      field; rounding, infinities and NaN are outside the model.  A quotient
      with a zero divisor is the field's [x / 0 = 0], where IEEE arithmetic
      gives an infinity or NaN: every statement that depends on a quotient
      says that its divisor is not zero.  One product is not idealised: the
      split point [int(gridsearch_training_frac * n)] of the grid searches
      truncates a rounded product of doubles, and a rounding just below an
      integer moves the split by one row; that product is the parameter
      [float_mul] of the grid searches.
    - A pandas DataFrame with [m] numeric columns is the list of its rows,
      each a row vector of width [m]; column labels are column positions.
      numpy arrays of a fixed shape are matrices of that shape.
    - Python exceptions are the [Raised] outcomes of an error monad.
    - The global numpy random generator is an explicit state that is passed
      along.  What the functions print is not part of the model.
    - The routines of numpy and scipy that the code calls ([np.tanh],
      [np.arctanh], [linalg.pinv], [linalg.eig], [np.random.rand]) and the
      scorers of Chapter7.Evaluation are parameters of the sections below. *)

From HB Require Import structures.
From Stdlib Require Import String.
From mathcomp Require Import boot order algebra.
From mathcomp Require Import closed_field algC.

Set Implicit Arguments.
Unset Strict Implicit.
Unset Printing Implicit Defensive.

Import Order.Theory GRing.Theory Num.Theory.

Local Open Scope ring_scope.

(** ** Python outcomes *)

Inductive exn : Type :=
  | ValueError
  | IndexError
  | KeyError
  | AttributeError
  | TypeError
  | UnboundLocalError.

Inductive outcome (T : Type) : Type :=
  | Returned of T
  | Raised of exn.

Arguments Raised {T} e.

Definition bind {A B : Type} (c : outcome A) (k : A -> outcome B) : outcome B :=
  match c with
  | Returned v => k v
  | Raised e => Raised e
  end.

Notation "x <- c ;; k" := (bind c (fun x => k))
  (at level 100, c at next level, right associativity).

Notation "' p <- c ;; k" := (bind c (fun x => let p := x in k))
  (at level 100, p pattern, c at next level, right associativity).

Definition returns {T : Type} (c : outcome T) : bool :=
  if c is Returned _ then true else false.

Definition raises {T : Type} (c : outcome T) : bool :=
  if c is Raised _ then true else false.

(** Keys of parameter dictionaries are Python strings. *)
HB.instance Definition _ := hasDecEq.Build string String.eqb_spec.

(** ** Tables and slices *)

Section Frames.

Variable F : numFieldType.

(** A DataFrame with [m] numeric columns, as the list of its rows. *)
Definition frame (m : nat) : Type := seq 'rV[F]_m.

(** [df.iloc[t, :].values] for [t >= 0]: the row at position [t], or an
    IndexError past the end. *)
Definition iloc_row {m : nat} (df : frame m) (t : nat) : outcome 'rV[F]_m :=
  if (t < size df)%N then Returned (nth 0 df t) else Raised IndexError.

(** A slice bound of Python: a negative bound counts from the end, and both
    kinds are clamped to [0 .. n]. *)
Definition slice_bound (n : nat) (i : int) : nat :=
  match i with
  | Posz k => minn k n
  | Negz k => (n - k.+1)%N
  end.

(** [df.iloc[lo:hi, ]]: the rows from bound [lo] up to bound [hi]. *)
Definition iloc_rows {m : nat} (df : frame m) (lo hi : int) : frame m :=
  let l := slice_bound (size df) lo in
  let h := slice_bound (size df) hi in
  take (h - l) (drop l df).

(** [pd.get_dummies] expands categorical columns and leaves numeric columns
    as they are; the tables of this embedding hold numeric columns only. *)
Definition get_dummies {m : nat} (df : frame m) : frame m := df.

Definition create_numerical_single_dataset {m : nat} (dataset : frame m)
  : frame m :=
  get_dummies dataset.

Definition create_numerical_multiple_dataset {m : nat} (train test : frame m)
  : frame m * frame m :=
  let total_dataset := train ++ test in
  let total_dataset := get_dummies total_dataset in
  let new_train := iloc_rows total_dataset 0 (Posz (size train)) in
  let new_test :=
    iloc_rows total_dataset (Posz (size train))
      (Posz (size train + size test)) in
  (new_train, new_test).

(** ** Normalisation *)

(** The values of column [j], top to bottom. *)
Definition column {m : nat} (df : frame m) (j : 'I_m) : seq F :=
  [seq (r : 'rV[F]_m) 0 j | r <- df].

(** Maximum and minimum of a list of values.  pandas gives NaN for a column
    without rows; NaN is outside the model and [0] stands in its place. *)
Definition seq_max (s : seq F) : F :=
  if s is x :: s' then foldl Order.max x s' else 0.

Definition seq_min (s : seq F) : F :=
  if s is x :: s' then foldl Order.min x s' else 0.

(** [df.max()] and [df.min()]: one value per column. *)
Definition frame_max {m : nat} (df : frame m) : 'rV[F]_m :=
  \row_j seq_max (column df j).

Definition frame_min {m : nat} (df : frame m) : 'rV[F]_m :=
  \row_j seq_min (column df j).

(** [series.replace(0, 1)] *)
Definition replace_0_1 {m : nat} (v : 'rV[F]_m) : 'rV[F]_m :=
  \row_j (if v 0 j == 0 then 1 else v 0 j).

(** [((row - minimum) / difference) * (range_max - range_min) + range_min],
    column by column. *)
Definition scale_row {m : nat} (minimum difference : 'rV[F]_m)
    (range_min range_max : F) (r : 'rV[F]_m) : 'rV[F]_m :=
  \row_j ((r 0 j - minimum 0 j) / difference 0 j * (range_max - range_min)
          + range_min).

Definition normalize {m : nat} (train test : frame m) (range_min range_max : F)
  : frame m * frame m * 'rV[F]_m * 'rV[F]_m :=
  let total := train ++ test in
  let maximum := frame_max total in
  let minimum := frame_min total in
  let difference := maximum - minimum in
  let difference := replace_0_1 difference in
  let new_train :=
    [seq scale_row minimum difference range_min range_max r | r <- train] in
  let new_test :=
    [seq scale_row minimum difference range_min range_max r | r <- test] in
  (new_train, new_test, minimum, maximum).

(** [((y - range_min) / (range_max - range_min)) * difference + minimum] *)
Definition unscale_row {m : nat} (minimum difference : 'rV[F]_m)
    (range_min range_max : F) (r : 'rV[F]_m) : 'rV[F]_m :=
  \row_j ((r 0 j - range_min) / (range_max - range_min) * difference 0 j
          + minimum 0 j).

Definition denormalize {m : nat} (y : frame m) (minimum maximum : 'rV[F]_m)
    (range_min range_max : F) : frame m :=
  let difference := maximum - minimum in
  let difference := replace_0_1 difference in
  [seq unscale_row minimum difference range_min range_max r | r <- y].

End Frames.

(** ** Loops *)

(** [for t in ts: st = body(st, t)], stopping at the first exception. *)
Fixpoint for_each {S T : Type} (body : S -> T -> outcome S) (ts : seq T)
    (st : S) : outcome S :=
  if ts is t :: ts' then (st' <- body st t ;; for_each body ts' st')
  else Returned st.

(** [range(0, n)] *)
Definition range (n : nat) : seq nat := iota 0 n.

(** ** The echo state network *)

Section EchoStateNetwork.

Variable F : numFieldType.

(** State of numpy's global random generator, and [np.random.rand(r, c)]:
    an [r] x [c] matrix of draws from [0, 1) and the next state. *)
Variable rng : Type.
Variable np_random_rand : forall r c : nat, rng -> 'M[F]_(r, c) * rng.

(** [abs(linalg.eig(W)[0])]: the absolute values of the eigenvalues that
    scipy computes for the square matrix [W]. *)
Variable eig_abs : forall N : nat, 'M[F]_N -> seq F.

(** [np.tanh], [np.arctanh] on one number, and [scipy.linalg.pinv]. *)
Variable np_tanh : F -> F.
Variable np_arctanh : F -> F.
Variable linalg_pinv : forall m n : nat, 'M[F]_(m, n) -> 'M[F]_(n, m).

(** The builtin [max] of Python over a sequence: the first item is kept
    until a strictly larger one comes; no item at all is a ValueError. *)
Definition py_max (s : seq F) : outcome F :=
  if s is x :: s' then Returned (foldl (fun m y => if m < y then y else m) x s')
  else Raised ValueError.

Definition initialize_echo_state_network (inputs outputs reservoir : nat)
    (g : rng)
  : outcome ('M[F]_(reservoir, 1 + inputs) * 'M[F]_reservoir
             * 'M[F]_(reservoir, outputs) * rng) :=
  (* Create random matrices *)
  let: (r_in, g) := np_random_rand reservoir (1 + inputs) g in
  let Win := 1 *: (r_in - const_mx 2^-1) in
  let: (r_w, g) := np_random_rand reservoir reservoir g in
  let W := r_w - const_mx 2^-1 in
  let: (r_back, g) := np_random_rand reservoir outputs g in
  let Wback := 1 *: (r_back - const_mx 2^-1) in
  (* Adjust W to "guarantee" the echo state property *)
  rhoW <- py_max (eig_abs W) ;;
  let W := (5%:R / 4%:R / rhoW) *: W in
  Returned (Win, W, Wback, g).

Section Network.

Variables inputs outputs reservoir_size : nat.

Variable Win : 'M[F]_(reservoir_size, 1 + inputs).
Variable W : 'M[F]_reservoir_size.
Variable Wback : 'M[F]_(reservoir_size, outputs).
Variable a : F.

(** [np.vstack(np.insert(u, 0, 1))]: the column [1; u]. *)
Definition esn_input (u : 'rV[F]_inputs) : 'cV[F]_(1 + inputs) :=
  col_mx (1%:M : 'M_1) u^T.

(** [np.vstack(y_prev)]: the entries of [y_prev], stacked into a column.
    numpy needs at least one entry to stack, and raises a ValueError for a
    [y_prev] without entries. *)
Definition np_vstack {n : nat} (y_prev : 'rV[F]_n) : outcome 'cV[F]_n :=
  if (0 < n)%N then Returned y_prev^T else Raised ValueError.

(** [(1 - a) * x + a * np.tanh(np.dot(Win, [1; u]) + np.dot(W, x)
                                + np.dot(Wback, y_prev))] for the column
    [y_prev] that [np.vstack] returned. *)
Definition esn_update (x : 'cV[F]_reservoir_size) (u : 'rV[F]_inputs)
    (y_prev : 'cV[F]_outputs) : 'cV[F]_reservoir_size :=
  (1 - a) *: x
  + a *: map_mx np_tanh (Win *m esn_input u + W *m x + Wback *m y_prev).

(** [np.hstack(np.insert(np.insert(x, 0, u), 0, 1))]: the entries
    [1; u; x], here as a column. *)
Definition esn_features (u : 'rV[F]_inputs) (x : 'cV[F]_reservoir_size)
  : 'cV[F]_(1 + (inputs + reservoir_size)) :=
  col_mx (1%:M : 'M_1) (col_mx u^T x).

(** [np.tanh(np.dot(Wout, [1; u; x]))] *)
Definition esn_output (Wout : 'M[F]_(outputs, 1 + (inputs + reservoir_size)))
    (u : 'rV[F]_inputs) (x : 'cV[F]_reservoir_size) : 'rV[F]_outputs :=
  (map_mx np_tanh (Wout *m esn_features u x))^T.

(** [row.idxmax()]: the position of the first largest entry of a row (of a
    table with at least one column). *)
Definition idxmax {m : nat} (r : 'rV[F]_m) : nat :=
  let values := [seq r 0 j | j <- enum 'I_m] in
  index (seq_max values) values.

(** One pass of the loop body of [predict_values_echo_state_network]; the
    loop state is the activation [x], the last output [y] (not bound, and not
    read, before the first pass) and the list [Y]. *)
Definition predict_step (Wout : 'M[F]_(outputs, 1 + (inputs + reservoir_size)))
    (X : frame F inputs) (y_true : option (frame F outputs))
    (per_time_step : bool)
    (st : 'cV[F]_reservoir_size * 'rV[F]_outputs * seq 'rV[F]_outputs)
    (t : nat)
  : outcome ('cV[F]_reservoir_size * 'rV[F]_outputs * seq 'rV[F]_outputs) :=
  let: (x, y, Y) := st in
  (* Set the input according to X *)
  u <- iloc_row X t ;;
  y_prev <-
    (* If we have a previous time point *)
    (if (t > 0)%N then
       (* the true previous value, read from [y_true] *)
       if per_time_step then
         if y_true is Some y_true then iloc_row y_true (t - 1)
         else Raised AttributeError
       (* or the predicted value *)
       else Returned y
     (* [np.array([0] * len(cols))] *)
     else Returned 0) ;;
  (* Compute the activation of the reservoir *)
  y_prev <- np_vstack y_prev ;;
  let x := esn_update x u y_prev in
  (* And the output *)
  let y := esn_output Wout u x in
  Returned (x, y, rcons Y y).

Definition predict_values_echo_state_network
    (Wout : 'M[F]_(outputs, 1 + (inputs + reservoir_size)))
    (X : frame F inputs) (y_true : option (frame F outputs))
    (per_time_step : bool)
  : outcome (seq nat * frame F outputs) :=
  (* Set the initial activation to zero *)
  let x := 0 in
  let Y := [::] in
  (* Predict all time points *)
  st <- for_each (predict_step Wout X y_true per_time_step)
          (range (size X)) (x, 0, Y) ;;
  let y_result := st.2 in
  Returned ([seq idxmax r | r <- y_result], y_result).

(** [np.zeros((k, w))]: [k] rows of zeros; a negative [k] is a ValueError. *)
Definition np_zeros {w : nat} (k : int) : outcome (seq 'rV[F]_w) :=
  if k is Posz k' then Returned (nseq k' 0) else Raised ValueError.

(** [X[i, :] = r] for [i >= 0]; past the last row it is an IndexError. *)
Definition set_row {w : nat} (X : seq 'rV[F]_w) (i : nat) (r : 'rV[F]_w)
  : outcome (seq 'rV[F]_w) :=
  if (i < size X)%N then Returned (set_nth 0 X i r) else Raised IndexError.

(** A list of rows as a matrix with [k] rows. *)
Definition mx_of_rows {w : nat} (k : nat) (s : seq 'rV[F]_w) : 'M[F]_(k, w) :=
  \matrix_(i < k) nth 0 s i.

(** [np.dot(linalg.pinv(X), Yt)] for the rows [X].  scipy's [pinv] raises a
    ValueError for a matrix without rows; the product needs as many rows in
    [Yt] as in [X], and is a ValueError otherwise. *)
Definition dot_pinv {w c : nat} (X : seq 'rV[F]_w) (Yt : seq 'rV[F]_c)
  : outcome 'M[F]_(w, c) :=
  if size X == 0%N then Raised ValueError
  else if size X == size Yt then
    Returned (linalg_pinv (mx_of_rows (size X) X) *m mx_of_rows (size X) Yt)
  else Raised ValueError.

(** One pass of the training loop of [reservoir_computing]; the loop state
    is the activation [x] and the result matrix [X]. *)
Definition train_step (washout_period : nat) (new_train_X : frame F inputs)
    (new_train_y : frame F outputs)
    (st : 'cV[F]_reservoir_size
          * seq 'rV[F]_(1 + (inputs + reservoir_size)))
    (t : nat)
  : outcome ('cV[F]_reservoir_size
             * seq 'rV[F]_(1 + (inputs + reservoir_size))) :=
  let: (x, X) := st in
  (* Set the inputs according to the values seen in the training set *)
  u <- iloc_row new_train_X t ;;
  (* Set the previous target value to the real value if available *)
  y_prev <- (if (t > 0)%N then iloc_row new_train_y (t - 1)
             else Returned 0) ;;
  (* Determine the activation of the reservoir *)
  y_prev <- np_vstack y_prev ;;
  let x := esn_update x u y_prev in
  (* And store the values obtained after the washout period *)
  X <- (if (t >= washout_period)%N then
          set_row X (t - washout_period) (esn_features u x)^T
        else Returned X) ;;
  Returned (x, X).

(** Lines 243 to 270 of [reservoir_computing]: the result matrices, the
    training loop and the solve for [Wout]; [n_train] is
    [len(train_X.index)]. *)
Definition train_output_weights (washout_period : nat) (n_train : nat)
    (new_train_X : frame F inputs) (new_train_y : frame F outputs)
  : outcome 'M[F]_(outputs, 1 + (inputs + reservoir_size)) :=
  (* Allocate memory for result matrices *)
  X <- np_zeros (n_train%:Z - washout_period%:Z) ;;
  let Yt :=
    iloc_rows new_train_y washout_period%:Z (Posz (size new_train_y)) in
  let Yt := [seq map_mx np_arctanh r | r <- Yt] in
  let x := 0 in
  (* Train over all time points *)
  st <- for_each (train_step washout_period new_train_X new_train_y)
          (range (size new_train_X)) (x, X) ;;
  let X := st.2 in
  (* Train Wout *)
  XpYt <- dot_pinv X Yt ;;
  Returned XpYt^T.

End Network.

(** The body of [reservoir_computing] below its grid search (lines 222 to
    283), for a reservoir size that is an integer and a table [test_y]. *)
Definition reservoir_computing_body {inputs outputs : nat}
    (train_X : frame F inputs) (train_y : frame F outputs)
    (test_X : frame F inputs) (test_y : frame F outputs)
    (reservoir_size : nat) (a : F) (per_time_step : bool) (g : rng)
  : outcome (seq nat * seq nat * frame F outputs * frame F outputs * rng) :=
  (* We assume these parameters as fixed *)
  let washout_period := 10%N in
  (* Create a numerical dataset without categorical attributes *)
  let: (new_train_X, new_test_X) :=
    create_numerical_multiple_dataset train_X test_X in
  let: (new_train_y, new_test_y) :=
    create_numerical_multiple_dataset train_y test_y in
  (* Normalize the input *)
  let: (new_train_X, new_test_X, min_X, max_X) :=
    normalize new_train_X new_test_X 0 1 in
  let: (new_train_y, new_test_y, min_y, max_y) :=
    normalize new_train_y new_test_y (- (9%:R / 10%:R)) (9%:R / 10%:R) in
  (* Randomly initialize weight vectors *)
  init <- initialize_echo_state_network inputs outputs reservoir_size g ;;
  let: (Win, W, Wback, g) := init in
  Wout <- train_output_weights Win W Wback a washout_period (size train_X)
            new_train_X new_train_y ;;
  (* And predict for both training and test set *)
  pred_train <- predict_values_echo_state_network Win W Wback a Wout
                  new_train_X (Some new_train_y) per_time_step ;;
  pred_test <- predict_values_echo_state_network Win W Wback a Wout
                 new_test_X (Some new_test_y) per_time_step ;;
  let pred_train_y_prob :=
    denormalize pred_train.2 min_y max_y (- (9%:R / 10%:R)) (9%:R / 10%:R) in
  let pred_test_y_prob :=
    denormalize pred_test.2 min_y max_y (- (9%:R / 10%:R)) (9%:R / 10%:R) in
  Returned (pred_train.1, pred_test.1, pred_train_y_prob, pred_test_y_prob, g).

End EchoStateNetwork.

(** ** Parameter grids *)

Section Combinations.

Variable V : Type.

(** A Python dict from names to candidate lists, in insertion order. *)
Definition py_dict : Type := seq (string * seq V).

(** [d[k]] *)
Definition dict_get (d : py_dict) (k : string) : outcome (seq V) :=
  if [seq kv <- d | kv.1 == k] is kv :: _ then Returned kv.2
  else Raised KeyError.

(** [list(d.keys())] *)
Definition dict_keys (d : py_dict) : seq string := [seq kv.1 | kv <- d].

(** [l[i]] for [i >= 0] *)
Definition list_item {T : Type} (l : seq T) (i : nat) : outcome T :=
  if drop i l is x :: _ then Returned x else Raised IndexError.

(** [l.index(k)] *)
Definition list_index (l : seq string) (k : string) : outcome nat :=
  if k \in l then Returned (index k l) else Raised ValueError.

(** [generate_parameter_combinations(parameter_dict, params)].  [view] tells
    that [params] is a [dict_keys] view, which has a length and can be copied
    into a list but cannot be subscripted; the recursive call passes a list. *)
Fixpoint generate_parameter_combinations (parameter_dict : py_dict)
    (view : bool) (params : seq string) : outcome (seq (seq V)) :=
  match params with
  | [::] =>
      (* params_without_first_element.pop(0) on an empty list *)
      Raised IndexError
  | [:: p] =>
      if view then Raised TypeError
      else
        values <- dict_get parameter_dict p ;;
        for_each (fun combinations val => Returned (rcons combinations [:: val]))
          values [::]
  | p :: params_without_first_element =>
      params_without_first_element_combinations <-
        generate_parameter_combinations parameter_dict false
          params_without_first_element ;;
      values_first_element <- dict_get parameter_dict p ;;
      for_each (fun combinations i =>
          for_each (fun combinations j =>
              v <- list_item values_first_element i ;;
              c <- list_item params_without_first_element_combinations j ;;
              let list_obj := [:: v] in
              let list_obj := list_obj ++ c in
              Returned (rcons combinations list_obj))
            (range (size params_without_first_element_combinations))
            combinations)
        (range (size values_first_element)) [::]
  end.

(** The candidate list of a name, empty for a name that the dict lacks. *)
Definition dict_values (d : py_dict) (k : string) : seq V :=
  if dict_get d k is Returned values then values else [::].

(** The full cartesian product of a list of candidate lists, in the words of
    the specification: every choice of one candidate per list, enumerated
    with the first list varying slowest and the last varying fastest. *)
Definition cartesian_product (lists : seq (seq V)) : seq (seq V) :=
  foldr (fun values rest => [seq v :: c | v <- values, c <- rest]) [:: [::]]
    lists.

End Combinations.

(** ** Grid search *)

Section GridSearch.

Variable R : archiRealFieldType.
Variable rng : Type.
Variable np_random_rand : forall r c : nat, rng -> 'M[R]_(r, c) * rng.
Variable eig_abs : forall N : nat, 'M[R]_N -> seq R.
Variable np_tanh : R -> R.
Variable np_arctanh : R -> R.
Variable linalg_pinv : forall m n : nat, 'M[R]_(m, n) -> 'M[R]_(n, m).

Variables inputs outputs : nat.

(** The scorers of Chapter7.Evaluation, whose code is not part of these
    sources: [RegressionEvaluation().mean_squared_error(y_true, y_pred)] and
    [ClassificationEvaluation().accuracy(y_true, y_pred)]. *)
Variable mean_squared_error : frame R outputs -> frame R outputs -> R.
Variable accuracy : frame R outputs -> seq nat -> R.

(** [x * y] on two floats as Python computes it: the product, rounded to a
    double.  [int(0.7 * 90)] is 62: the double 0.7 is below 7/10, and the
    rounded product is below 63. *)
Variable float_mul : R -> R -> R.

(** A candidate value of the grid: a float or an int. *)
Inductive pyval : Type :=
  | PyFloat of R
  | PyInt of nat.

(** A candidate used as a number. *)
Definition py_number (v : pyval) : R :=
  match v with
  | PyFloat x => x
  | PyInt n => n%:R
  end.

(** [int(x)] on a float: truncation towards zero. *)
Definition py_int (x : R) : int :=
  if 0 <= x then Num.floor x else Num.ceil x.

(** [sys.float_info.max], the largest finite double. *)
Definition float_info_max : R := 2%:R ^+ 1024 - 2%:R ^+ 971.

Definition tuned_parameters : py_dict pyval :=
  [:: ("a"%string, [:: PyFloat (6%:R / 10%:R); PyFloat (8%:R / 10%:R)]);
      ("reservoir_size"%string, [:: PyInt 400; PyInt 700; PyInt 1000])].

(** [reservoir_computing(..., gridsearch=False)] on candidate values: a
    reservoir size that is a float is refused by [np.random.rand]. *)
Definition reservoir_computing_no_gridsearch
    (train_X : frame R inputs) (train_y : frame R outputs)
    (test_X : frame R inputs) (test_y : frame R outputs)
    (reservoir_size a : pyval) (per_time_step : bool) (g : rng)
  : outcome (seq nat * seq nat * frame R outputs * frame R outputs * rng) :=
  match reservoir_size with
  | PyInt N =>
      reservoir_computing_body np_random_rand eig_abs np_tanh np_arctanh
        linalg_pinv train_X train_y test_X test_y N (py_number a)
        per_time_step g
  | PyFloat _ => Raised TypeError
  end.

(** One pass of the loop over the combinations.  The loop state is
    [best_error] ([None] while the name is not bound), [best_combination]
    and the random generator. *)
Definition gridsearch_step
    (train_params_X : frame R inputs) (train_params_y : frame R outputs)
    (test_params_X : frame R inputs) (test_params_y : frame R outputs)
    (per_time_step : bool) (error : string)
    (st : option R * seq pyval * rng) (comb : seq pyval)
  : outcome (option R * seq pyval * rng) :=
  let: (best_error, best_combination, g) := st in
  (* Order of the keys might have changed. *)
  let keys := dict_keys tuned_parameters in
  i_size <- list_index keys "reservoir_size" ;;
  reservoir_size <- list_item comb i_size ;;
  i_a <- list_index keys "a" ;;
  a <- list_item comb i_a ;;
  pred <- reservoir_computing_no_gridsearch train_params_X train_params_y
            test_params_X test_params_y reservoir_size a per_time_step g ;;
  let: (pred_train_y, pred_test_y, pred_train_y_prob, pred_test_y_prob, g) :=
    pred in
  if error == "mse"%string then
    let mse := mean_squared_error test_params_y pred_test_y_prob in
    if best_error is Some best then
      if mse < best then Returned (Some mse, comb, g)
      else Returned (best_error, best_combination, g)
    else Raised UnboundLocalError
  else if error == "accuracy"%string then
    let acc := accuracy test_params_y pred_test_y in
    if best_error is Some best then
      if acc > best then Returned (Some acc, comb, g)
      else Returned (best_error, best_combination, g)
    else Raised UnboundLocalError
  else Returned (best_error, best_combination, g).

Definition gridsearch_reservoir_computing
    (train_X : frame R inputs) (train_y : frame R outputs)
    (per_time_step : bool) (error : string) (gridsearch_training_frac : R)
    (g : rng)
  : outcome (pyval * pyval * rng) :=
  let params := dict_keys tuned_parameters in
  combinations <-
    generate_parameter_combinations tuned_parameters true params ;;
  let split_point :=
    py_int (float_mul gridsearch_training_frac (size train_X)%:R) in
  let train_params_X := iloc_rows train_X 0 split_point in
  let test_params_X := iloc_rows train_X split_point (Posz (size train_X)) in
  let train_params_y := iloc_rows train_y 0 split_point in
  let test_params_y := iloc_rows train_y split_point (Posz (size train_X)) in
  let best_error :=
    if error == "mse"%string then Some float_info_max
    else if error == "accuracy"%string then Some 0
    else None in
  let best_combination := [::] in
  st <- for_each (gridsearch_step train_params_X train_params_y test_params_X
                    test_params_y per_time_step error)
          combinations (best_error, best_combination, g) ;;
  let: (best_error, best_combination, g) := st in
  (* [keys] is bound by the loop, which runs at least once *)
  let keys := dict_keys tuned_parameters in
  i_size <- list_index keys "reservoir_size" ;;
  reservoir_size <- list_item best_combination i_size ;;
  i_a <- list_index keys "a" ;;
  a <- list_item best_combination i_a ;;
  Returned (reservoir_size, a, g).

Definition reservoir_computing
    (train_X : frame R inputs) (train_y : frame R outputs)
    (test_X : frame R inputs) (test_y : frame R outputs)
    (reservoir_size a : pyval) (per_time_step gridsearch : bool)
    (gridsearch_training_frac : R) (error : string) (g : rng)
  : outcome (seq nat * seq nat * frame R outputs * frame R outputs * rng) :=
  tuned <-
    (if gridsearch then
       gridsearch_reservoir_computing train_X train_y per_time_step error
         gridsearch_training_frac g
     else Returned (reservoir_size, a, g)) ;;
  let: (reservoir_size, a, g) := tuned in
  reservoir_computing_no_gridsearch train_X train_y test_X test_y
    reservoir_size a per_time_step g.

(** *** The selection, spelled out *)

(** The grid of the search: the cartesian product of the candidate lists of
    [tuned_parameters], in the order of its keys. *)
Definition grid : seq (seq pyval) :=
  cartesian_product
    [seq dict_values tuned_parameters p | p <- dict_keys tuned_parameters].

(** The initial value of [best_error] for a metric name, if any. *)
Definition initial_best_error (error : string) : option R :=
  if error == "mse"%string then Some float_info_max
  else if error == "accuracy"%string then Some 0
  else None.

(** A score strictly improves on the best one so far: smaller for the mean
    squared error, larger for the accuracy. *)
Definition improves (error : string) (score best : R) : bool :=
  if error == "mse"%string then score < best else score > best.

(** The validation score of every combination, in the order of the loop; the
    runs of [reservoir_computing] follow one another through the random
    generator. *)
Fixpoint validation_scores
    (train_params_X : frame R inputs) (train_params_y : frame R outputs)
    (test_params_X : frame R inputs) (test_params_y : frame R outputs)
    (per_time_step : bool) (error : string) (combinations : seq (seq pyval))
    (g : rng) : outcome (seq R * rng) :=
  if combinations is comb :: combinations' then
    let keys := dict_keys tuned_parameters in
    i_size <- list_index keys "reservoir_size" ;;
    reservoir_size <- list_item comb i_size ;;
    i_a <- list_index keys "a" ;;
    a <- list_item comb i_a ;;
    pred <- reservoir_computing_no_gridsearch train_params_X train_params_y
              test_params_X test_params_y reservoir_size a per_time_step g ;;
    let: (pred_train_y, pred_test_y, pred_train_y_prob, pred_test_y_prob, g) :=
      pred in
    let score :=
      if error == "mse"%string
      then mean_squared_error test_params_y pred_test_y_prob
      else accuracy test_params_y pred_test_y in
    rest <- validation_scores train_params_X train_params_y test_params_X
              test_params_y per_time_step error combinations' g ;;
    Returned (score :: rest.1, rest.2)
  else Returned ([::], g).

(** Keeping the first best: a combination replaces the incumbent only when
    its score strictly improves on the incumbent's. *)
Fixpoint select_best (error : string) (best : R) (best_combination : seq pyval)
    (scored : seq (seq pyval * R)) : R * seq pyval :=
  if scored is (comb, score) :: scored' then
    if improves error score best then select_best error score comb scored'
    else select_best error best best_combination scored'
  else (best, best_combination).

(** [best_combination[keys.index('reservoir_size')],
     best_combination[keys.index('a')]] *)
Definition best_pair (best_combination : seq pyval) : outcome (pyval * pyval) :=
  let keys := dict_keys tuned_parameters in
  i_size <- list_index keys "reservoir_size" ;;
  reservoir_size <- list_item best_combination i_size ;;
  i_a <- list_index keys "a" ;;
  a <- list_item best_combination i_a ;;
  Returned (reservoir_size, a).

End GridSearch.

(** The matrix that [initialize_echo_state_network] draws for [W], before it
    is rescaled: the second draw, shifted by one half. *)
Definition drawn_reservoir_matrix {F : numFieldType} {rng : Type}
    (np_random_rand : forall r c : nat, rng -> 'M[F]_(r, c) * rng)
    (inputs reservoir : nat) (g : rng) : 'M[F]_reservoir :=
  let: (_, g) := np_random_rand reservoir (1 + inputs) g in
  let: (r_w, _) := np_random_rand reservoir reservoir g in
  r_w - const_mx 2^-1.

(** ** Eigenvalues *)

Section Spectrum.

Variable C : numClosedFieldType.

(** [linalg.eig(W)[0]] over an algebraically closed field: the roots of the
    characteristic polynomial of [W], each as often as its multiplicity. *)
Definition linalg_eig {N : nat} (W : 'M[C]_N) : seq C :=
  sval (closed_field_poly_normal (char_poly W)).

(** [abs(linalg.eig(W)[0])] *)
Definition eig_abs_closed (N : nat) (W : 'M[C]_N) : seq C :=
  [seq `|l| | l <- linalg_eig W].

(** [rho] is the spectral radius of [W]: the largest absolute value of an
    eigenvalue of [W]. *)
Definition is_spectral_radius {N : nat} (W : 'M[C]_N) (rho : C) : Prop :=
  (exists2 l, eigenvalue W l & `|l| = rho)
  /\ (forall l, eigenvalue W l -> `|l| <= rho).

End Spectrum.

(** ** The recurrence in the words of the specification *)

Section Recurrence.

Variable F : numFieldType.
Variable np_tanh : F -> F.
Variables inputs outputs reservoir_size : nat.
Variable Win : 'M[F]_(reservoir_size, 1 + inputs).
Variable W : 'M[F]_reservoir_size.
Variable Wback : 'M[F]_(reservoir_size, outputs).
Variable a : F.

(** [x_t = (1-a) x_{t-1} + a tanh(W_in [1; u_t] + W x_{t-1} + W_back y_{t-1})]
    for the inputs [u] and the targets [y], where the state and the target
    before the first step are zero vectors. *)
Fixpoint reservoir_state (u : nat -> 'rV[F]_inputs)
    (y : nat -> 'rV[F]_outputs) (t : nat) : 'cV[F]_reservoir_size :=
  let x_prev := if t is t'.+1 then reservoir_state u y t' else 0 in
  let y_prev := if t is t'.+1 then y t' else 0 in
  (1 - a) *: x_prev
  + a *: map_mx np_tanh
           (Win *m col_mx (1%:M : 'M_1) (u t)^T + W *m x_prev
            + Wback *m y_prev^T).

(** The row [1; u_t; x_t] of the design matrix. *)
Definition design_row (u : nat -> 'rV[F]_inputs) (y : nat -> 'rV[F]_outputs)
    (t : nat) : 'rV[F]_(1 + (inputs + reservoir_size)) :=
  (col_mx (1%:M : 'M_1) (col_mx (u t)^T (reservoir_state u y t)))^T.

(** [y_t = tanh(W_out [1; u_t; x_t])] when the true targets are fed back. *)
Definition forced_prediction
    (Wout : 'M[F]_(outputs, 1 + (inputs + reservoir_size)))
    (u : nat -> 'rV[F]_inputs) (y : nat -> 'rV[F]_outputs) (t : nat)
  : 'rV[F]_outputs :=
  (map_mx np_tanh (Wout *m (design_row u y t)^T))^T.

(** The row of a table at a position, as a function of the position. *)
Definition row_at {m : nat} (df : frame F m) : nat -> 'rV[F]_m := nth 0 df.

(** The result matrix after [k] passes of the training loop: the rows of the
    steps from the washout period up to [k] are filled, the others are still
    zero. *)
Definition design_upto (washout n : nat) (X : frame F inputs)
    (y : frame F outputs) (k : nat)
  : seq 'rV[F]_(1 + (inputs + reservoir_size)) :=
  mkseq (fun i => if (i + washout < k)%N
                  then design_row (row_at X) (row_at y) (i + washout) else 0)
        (n - washout).

End Recurrence.

(** ** The grid search of the recurrent neural network *)

(** A candidate value of the grid of the recurrent network: an int or a
    bool. *)
Inductive rnn_value : Type :=
  | RnnInt of nat
  | RnnBool of bool.

Section RecurrentNeuralNetwork.

Variable R : archiRealFieldType.
Variables inputs outputs : nat.

(** What the training of pybrain reads and changes besides its arguments
    (the random numbers of the initial weights). *)
Variable trainer : Type.

(** Lines 362 to 403 of [recurrent_neural_network], the part below its grid
    search: the network of pybrain built with [n_hidden_neurons] and
    [outputbias] and trained for [iterations] rounds, and its labels and
    numerical predictions for the training and the test data. *)
Variable rnn :
  frame R inputs -> frame R outputs -> frame R inputs -> frame R outputs ->
  rnn_value -> rnn_value -> rnn_value -> trainer ->
  outcome (seq nat * seq nat * frame R outputs * frame R outputs * trainer).

(** The scorers of Chapter7.Evaluation. *)
Variable mean_squared_error : frame R outputs -> frame R outputs -> R.
Variable accuracy : frame R outputs -> seq nat -> R.

(** The product of two floats, rounded to a double. *)
Variable float_mul : R -> R -> R.

Definition rnn_parameters : py_dict rnn_value :=
  [:: ("n_hidden_neurons"%string, [:: RnnInt 50; RnnInt 100]);
      ("iterations"%string, [:: RnnInt 250; RnnInt 500]);
      ("outputbias"%string, [:: RnnBool true])].

(** The combinations of these candidates, written out. *)
Definition rnn_grid : seq (seq rnn_value) :=
  [:: [:: RnnInt 50; RnnInt 250; RnnBool true];
      [:: RnnInt 50; RnnInt 500; RnnBool true];
      [:: RnnInt 100; RnnInt 250; RnnBool true];
      [:: RnnInt 100; RnnInt 500; RnnBool true]].

(** One pass of the loop over the combinations.  The loop state is
    [best_error] ([None] while the name is not bound), [best_combination]
    and the state of the training. *)
Definition gridsearch_recurrent_neural_network_step
    (train_params_X : frame R inputs) (train_params_y : frame R outputs)
    (test_params_X : frame R inputs) (test_params_y : frame R outputs)
    (error : string)
    (st : option R * seq rnn_value * trainer) (comb : seq rnn_value)
  : outcome (option R * seq rnn_value * trainer) :=
  let: (best_error, best_combination, s) := st in
  (* Order of the keys might have changed. *)
  let keys := dict_keys rnn_parameters in
  i_hidden <- list_index keys "n_hidden_neurons" ;;
  n_hidden_neurons <- list_item comb i_hidden ;;
  i_iterations <- list_index keys "iterations" ;;
  iterations <- list_item comb i_iterations ;;
  i_bias <- list_index keys "outputbias" ;;
  outputbias <- list_item comb i_bias ;;
  pred <- rnn train_params_X train_params_y test_params_X test_params_y
            n_hidden_neurons iterations outputbias s ;;
  let: (pred_train_y, pred_test_y, pred_train_y_prob, pred_test_y_prob, s) :=
    pred in
  if error == "mse"%string then
    let mse := mean_squared_error test_params_y pred_test_y_prob in
    if best_error is Some best then
      if mse < best then Returned (Some mse, comb, s)
      else Returned (best_error, best_combination, s)
    else Raised UnboundLocalError
  else if error == "accuracy"%string then
    let acc := accuracy test_params_y pred_test_y in
    if best_error is Some best then
      if acc > best then Returned (Some acc, comb, s)
      else Returned (best_error, best_combination, s)
    else Raised UnboundLocalError
  else Returned (best_error, best_combination, s).

Definition gridsearch_recurrent_neural_network
    (train_X : frame R inputs) (train_y : frame R outputs)
    (error : string) (gridsearch_training_frac : R) (s : trainer)
  : outcome (rnn_value * rnn_value * rnn_value * trainer) :=
  let params := dict_keys rnn_parameters in
  combinations <- generate_parameter_combinations rnn_parameters false params ;;
  let split_point :=
    py_int (float_mul gridsearch_training_frac (size train_X)%:R) in
  let train_params_X := iloc_rows train_X 0 split_point in
  let test_params_X := iloc_rows train_X split_point (Posz (size train_X)) in
  let train_params_y := iloc_rows train_y 0 split_point in
  let test_params_y := iloc_rows train_y split_point (Posz (size train_X)) in
  let best_error :=
    if error == "mse"%string then Some (float_info_max R)
    else if error == "accuracy"%string then Some 0
    else None in
  let best_combination := [::] in
  st <- for_each (gridsearch_recurrent_neural_network_step train_params_X
                    train_params_y test_params_X test_params_y error)
          combinations (best_error, best_combination, s) ;;
  let: (best_error, best_combination, s) := st in
  i_hidden <- list_index params "n_hidden_neurons" ;;
  n_hidden_neurons <- list_item best_combination i_hidden ;;
  i_iterations <- list_index params "iterations" ;;
  iterations <- list_item best_combination i_iterations ;;
  i_bias <- list_index params "outputbias" ;;
  outputbias <- list_item best_combination i_bias ;;
  Returned (n_hidden_neurons, iterations, outputbias, s).

Definition recurrent_neural_network
    (train_X : frame R inputs) (train_y : frame R outputs)
    (test_X : frame R inputs) (test_y : frame R outputs)
    (n_hidden_neurons iterations : rnn_value) (gridsearch : bool)
    (gridsearch_training_frac : R) (outputbias : rnn_value) (error : string)
    (s : trainer)
  : outcome (seq nat * seq nat * frame R outputs * frame R outputs * trainer) :=
  tuned <-
    (if gridsearch then
       gridsearch_recurrent_neural_network train_X train_y error
         gridsearch_training_frac s
     else Returned (n_hidden_neurons, iterations, outputbias, s)) ;;
  let: (n_hidden_neurons, iterations, outputbias, s) := tuned in
  rnn train_X train_y test_X test_y n_hidden_neurons iterations outputbias s.

End RecurrentNeuralNetwork.

(** ** The regression variant *)

Module TemporalRegressionAlgorithms.

Section ReservoirComputing.

Variable R : archiRealFieldType.
Variable rng : Type.
Variable np_random_rand : forall r c : nat, rng -> 'M[R]_(r, c) * rng.
Variable eig_abs : forall N : nat, 'M[R]_N -> seq R.
Variable np_tanh : R -> R.
Variable np_arctanh : R -> R.
Variable linalg_pinv : forall m n : nat, 'M[R]_(m, n) -> 'M[R]_(n, m).
Variables inputs outputs : nat.
Variable mean_squared_error : frame R outputs -> frame R outputs -> R.
Variable accuracy : frame R outputs -> seq nat -> R.
Variable float_mul : R -> R -> R.

(** [TemporalRegressionAlgorithms.reservoir_computing]: the classification
    variant with [error='mse'], of which only the numerical predictions are
    returned. *)
Definition reservoir_computing
    (train_X : frame R inputs) (train_y : frame R outputs)
    (test_X : frame R inputs) (test_y : frame R outputs)
    (reservoir_size a : pyval R) (per_time_step gridsearch : bool)
    (gridsearch_training_frac : R) (g : rng)
  : outcome (frame R outputs * frame R outputs * rng) :=
  pred <- reservoir_computing np_random_rand eig_abs np_tanh np_arctanh
            linalg_pinv mean_squared_error accuracy float_mul train_X train_y
            test_X test_y reservoir_size a per_time_step gridsearch
            gridsearch_training_frac "mse" g ;;
  let: (pred_train_y, pred_test_y, pred_train_y_val, pred_test_y_val, g) :=
    pred in
  Returned (pred_train_y_val, pred_test_y_val, g).

End ReservoirComputing.

End TemporalRegressionAlgorithms.

(** ** The grid search of the time series models *)

Section TimeSeries.

Variable R : archiRealFieldType.
Variable inputs : nat.

(** What the estimation of pyflux reads and changes besides its arguments
    (its random numbers). *)
Variable fitter : Type.

(** Lines 623 to 640 of [time_series], the part below its grid search: the
    ARIMAX model of pyflux, fitted on the training data with the orders [ar]
    and [ma], and its predictions for the training and the test data.  A
    Series is a table of one column. *)
Variable arimax :
  frame R inputs -> frame R 1 -> frame R inputs -> frame R 1 ->
  pyval R -> pyval R -> fitter -> outcome (frame R 1 * frame R 1 * fitter).

(** [RegressionEvaluation().mean_squared_error(y_true, y_pred)] *)
Variable mean_squared_error : frame R 1 -> frame R 1 -> R.

(** The product of two floats, rounded to a double. *)
Variable float_mul : R -> R -> R.

Definition time_series_parameters : py_dict (pyval R) :=
  [:: ("ar"%string, [:: PyInt R 0; PyInt R 5]);
      ("ma"%string, [:: PyInt R 0; PyInt R 5]);
      ("d"%string, [:: PyInt R 1])].

(** The combinations of these candidates, written out: the orders [ar] and
    [ma] are 0 or 5, and [d] is 1. *)
Definition time_series_grid : seq (seq (pyval R)) :=
  [:: [:: PyInt R 0; PyInt R 0; PyInt R 1];
      [:: PyInt R 0; PyInt R 5; PyInt R 1];
      [:: PyInt R 5; PyInt R 0; PyInt R 1];
      [:: PyInt R 5; PyInt R 5; PyInt R 1]].

(** One pass of the loop over the combinations.  The loop state is
    [best_error] ([None] while the name is not bound), [best_combination]
    and the state of the estimation. *)
Definition gridsearch_time_series_step
    (train_params_X : frame R inputs) (train_params_y : frame R 1)
    (test_params_X : frame R inputs) (test_params_y : frame R 1)
    (st : option R * seq (pyval R) * fitter) (comb : seq (pyval R))
  : outcome (option R * seq (pyval R) * fitter) :=
  let: (best_error, best_combination, s) := st in
  (* Order of the keys might have changed. *)
  let keys := dict_keys time_series_parameters in
  i_ar <- list_index keys "ar" ;;
  ar <- list_item comb i_ar ;;
  i_ma <- list_index keys "ma" ;;
  ma <- list_item comb i_ma ;;
  pred <- arimax train_params_X train_params_y test_params_X test_params_y
            ar ma s ;;
  let: (pred_train_y, pred_test_y, s) := pred in
  let mse := mean_squared_error test_params_y pred_test_y in
  if best_error is Some best then
    if mse < best then Returned (Some mse, comb, s)
    else Returned (best_error, best_combination, s)
  else Raised UnboundLocalError.

Definition gridsearch_time_series
    (train_X : frame R inputs) (train_y : frame R 1)
    (error : string) (gridsearch_training_frac : R) (s : fitter)
  : outcome (pyval R * pyval R * pyval R * fitter) :=
  let params := dict_keys time_series_parameters in
  combinations <-
    generate_parameter_combinations time_series_parameters false params ;;
  let split_point :=
    py_int (float_mul gridsearch_training_frac (size train_X)%:R) in
  let train_params_X := iloc_rows train_X 0 split_point in
  let test_params_X := iloc_rows train_X split_point (Posz (size train_X)) in
  let train_params_y := iloc_rows train_y 0 split_point in
  let test_params_y := iloc_rows train_y split_point (Posz (size train_X)) in
  let best_error :=
    if error == "mse"%string then Some (float_info_max R)
    else if error == "accuracy"%string then Some 0
    else None in
  let best_combination := [::] in
  st <- for_each (gridsearch_time_series_step train_params_X train_params_y
                    test_params_X test_params_y)
          combinations (best_error, best_combination, s) ;;
  let: (best_error, best_combination, s) := st in
  (* [keys] is bound by the loop, which runs at least once *)
  let keys := dict_keys time_series_parameters in
  i_ar <- list_index keys "ar" ;;
  ar <- list_item best_combination i_ar ;;
  i_ma <- list_index keys "ma" ;;
  ma <- list_item best_combination i_ma ;;
  i_d <- list_index keys "d" ;;
  d <- list_item best_combination i_d ;;
  Returned (ar, ma, d, s).

Definition time_series
    (train_X : frame R inputs) (train_y : frame R 1)
    (test_X : frame R inputs) (test_y : frame R 1)
    (ar ma : pyval R) (gridsearch : bool) (gridsearch_training_frac : R)
    (s : fitter)
  : outcome (frame R 1 * frame R 1 * fitter) :=
  tuned <-
    (if gridsearch then
       found <- gridsearch_time_series train_X train_y "mse"
                  gridsearch_training_frac s ;;
       let: (ar, ma, d, s) := found in
       Returned (ar, ma, s)
     else Returned (ar, ma, s)) ;;
  let: (ar, ma, s) := tuned in
  arimax train_X train_y test_X test_y ar ma s.

End TimeSeries.

(** * The evaluator of the dynamical systems models (dynsys/Evaluator.py) *)

Module Dynsys.

(** [Evaluator.default_start] *)
Definition default_start : string := "self.".

(** [s[n:]] for a string [s] and [n >= 0] *)
Fixpoint string_from (n : nat) (s : string) : string :=
  match n, s with
  | n'.+1, String _ s' => string_from n' s'
  | _, _ => s
  end.

(** [col[len(self.default_start):]] *)
Definition without_start (col : string) : string :=
  string_from (String.length default_start) col.

(** [l[-1]] *)
Definition last_item {T : Type} (l : seq T) : outcome T :=
  if l is x :: l' then Returned (last x l') else Raised IndexError.

Section Evaluator.

Variable F : numFieldType.

(** A DataFrame whose columns are read by their labels: the labels, which
    are distinct, and the rows, each the list of its values, one per column.
    The rows are indexed by their positions. *)
Record labelled_frame : Type :=
  LabelledFrame { columns : seq string; frame_rows : seq (seq F) }.

(** [len(df.index)] *)
Definition n_rows (df : labelled_frame) : nat := size (frame_rows df).

(** [df.columns.get_loc(label)] *)
Definition get_loc (df : labelled_frame) (label : string) : outcome nat :=
  if label \in columns df then Returned (index label (columns df))
  else Raised KeyError.

(** [df.iloc[t, j]] for [t >= 0] and the position [j] of a column *)
Definition iloc_cell (df : labelled_frame) (t j : nat) : outcome F :=
  if (t < n_rows df)%N then Returned (nth 0 (nth [::] (frame_rows df) t) j)
  else Raised IndexError.

(** [df.iloc[t, js].values] for [t >= 0] and positions [js] of columns *)
Definition iloc_cells (df : labelled_frame) (t : nat) (js : seq nat)
  : outcome (seq F) :=
  if (t < n_rows df)%N
  then Returned [seq nth 0 (nth [::] (frame_rows df) t) j | j <- js]
  else Raised IndexError.

(** The value of the table in row [t] and in the column of a label. *)
Definition cell (df : labelled_frame) (t : nat) (label : string) : F :=
  nth 0 (nth [::] (frame_rows df) t) (index label (columns df)).

(** The dynamical systems model of dynsys/Model.py, which is not part of
    these sources.  [model] is what an object of the class holds besides the
    names; the names of its states and of its parameters are set once, by
    [set_model], before the evaluator is used.  The methods that the
    evaluator calls change the object, or raise. *)
Variable model : Type.
Variable state_names : seq string.
Variable parameter_names : seq string.
Variable model_reset : model -> outcome model.
Variable set_state_values : seq F -> model -> outcome model.
Variable set_parameter_values : seq F -> model -> outcome model.
Variable execute_steps : nat -> model -> outcome model.
Variable get_values : string -> model -> outcome (seq F).

(** [sklearn.metrics.mean_squared_error(y_true, y_pred)] on two lists *)
Variable sk_mean_squared_error : seq F -> seq F -> F.

(** [random.uniform(a, b)] on a generator of the module random *)
Variable prng : Type.
Variable uniform : F -> F -> prng -> F * prng.

(** An [Evaluator] object.  The field [cleaned_eval_aspects] is written by
    [set_values] only, together with [eval_aspects], and is a function of
    it. *)
Record evaluator : Type :=
  Evaluator {
    training_data : labelled_frame;
    test_data : labelled_frame;
    model_object : model;
    eval_aspects : seq string
  }.

(** Lines 48 to 51 of [set_values]. *)
Definition cleaned_eval_aspects (self : evaluator) : seq string :=
  [seq without_start aspect | aspect <- eval_aspects self].

(** [self.model] after a call that changed it. *)
Definition with_model (self : evaluator) (m : model) : evaluator :=
  Evaluator (training_data self) (test_data self) m (eval_aspects self).

(** [[random.uniform(-1.0, 1.0) for _ in range(k)]] *)
Fixpoint uniform_draws (k : nat) (random : prng) : seq F * prng :=
  if k is k'.+1 then
    let: (v, random) := uniform (- 1) 1 random in
    let: (vs, random) := uniform_draws k' random in
    (v :: vs, random)
  else ([::], random).

Definition generator (random : prng) : seq F * prng :=
  let numb_parameters := size parameter_names in
  uniform_draws numb_parameters random.

(** The value of one state for the next step of the model (the body of the
    loop over [self.model.state_names]); [pred_values] is [None] while the
    name is not bound. *)
Definition state_value (self : evaluator) (dataset : labelled_frame)
    (per_time_step : bool) (step : nat) (pred_values : option (seq F))
    (col : string) : outcome F :=
  (* Overwrite the values we predicted previously for the evaluation states
     if we do it per time step or if we do not have any prediction yet. *)
  if per_time_step || (step == 0)%N then
    j <- get_loc dataset (without_start col) ;;
    iloc_cell dataset step j
  else if col \in eval_aspects self then
    if pred_values is Some pred_values then
      i <- list_index (eval_aspects self) col ;;
      list_item pred_values i
    else Raised UnboundLocalError
  else
    j <- get_loc dataset (without_start col) ;;
    iloc_cell dataset step j.

(** The body of the loop over [self.eval_aspects]: the prediction of one
    aspect and its error.  [col] is the variable of the loop over the state
    names, which is still bound after that loop when the model has a state,
    and not bound otherwise. *)
Definition aspect_error (dataset : labelled_frame) (step : nat)
    (m : model) (col : option string) (acc : seq F * seq F) (aspect : string)
  : outcome (seq F * seq F) :=
  let: (evals, pred_values) := acc in
  values <- get_values aspect m ;;
  pred_value <- last_item values ;;
  let pred_values := rcons pred_values pred_value in
  col <- (if col is Some col then Returned col
          else Raised UnboundLocalError) ;;
  j <- get_loc dataset (without_start col) ;;
  truth <- iloc_cell dataset (step + 1) j ;;
  let mse := sk_mean_squared_error [:: pred_value] [:: truth] in
  Returned (rcons evals mse, pred_values).

(** One pass of the loop over the time steps of [evaluator_internal].  The
    loop state is the model, the loop variable [col], [pred_values] and
    [fitness] ([None] while a name is not bound) and the list [y]. *)
Definition evaluator_step (self : evaluator) (candidate : seq F)
    (dataset : labelled_frame) (per_time_step : bool)
    (st : model * option string * option (seq F) * option (seq F)
          * seq (seq F))
    (step : nat)
  : outcome (model * option string * option (seq F) * option (seq F)
             * seq (seq F)) :=
  let: (m, col, pred_values, fitness, y) := st in
  (* Get the relevant values for each of the states in our model. *)
  states <-
    for_each (fun acc col =>
        v <- state_value self dataset per_time_step step pred_values col ;;
        Returned (rcons acc.1 v, Some col))
      state_names ([::], col) ;;
  let: (state_values, col) := states in
  (* Set the state values, parameter values, and execute the model. *)
  m <- set_state_values state_values m ;;
  m <- set_parameter_values candidate m ;;
  m <- execute_steps 1 m ;;
  (* Determine the error for the evaluation aspects. *)
  errors <- for_each (aspect_error dataset step m col) (eval_aspects self)
              ([::], [::]) ;;
  let: (evals, pred_values) := errors in
  (* Store the fitness for all aspects: [emo.Pareto(evals)], here the list
     of its values. *)
  let fitness := evals in
  (* Store the predicted values. *)
  Returned (m, col, Some pred_values, Some fitness, rcons y pred_values).

Definition evaluator_internal (self : evaluator) (candidate : seq F)
    (dataset : labelled_frame) (per_time_step : bool)
  : outcome (seq F * labelled_frame * evaluator) :=
  m <- model_reset (model_object self) ;;
  locs <- for_each (fun acc x => j <- get_loc dataset x ;;
                                 Returned (rcons acc j))
            (cleaned_eval_aspects self) [::] ;;
  first_row <- iloc_cells dataset 0 locs ;;
  let y := [:: first_row] in
  (* Go through the dataset, all but last as we need to evaluate our
     prediction with the next time point. *)
  st <- for_each (evaluator_step self candidate dataset per_time_step)
          (range (n_rows dataset - 1)) (m, None, None, None, y) ;;
  let: (m, col, pred_values, fitness, y) := st in
  (* And return the fitness and the predicted values. *)
  let y_frame := LabelledFrame (cleaned_eval_aspects self) y in
  if fitness is Some fitness then Returned (fitness, y_frame, with_model self m)
  else Raised UnboundLocalError.

(** [sum(fitness)] *)
Definition py_sum (values : seq F) : F := foldl +%R 0 values.

Definition evaluator_multi_objective (self : evaluator)
    (candidates : seq (seq F)) : outcome (seq (seq F) * evaluator) :=
  for_each (fun acc c =>
      let: (fitness_values, self) := acc in
      res <- evaluator_internal self c (training_data self) true ;;
      let: (fitness, y_pred, self) := res in
      Returned (rcons fitness_values fitness, self))
    candidates ([::], self).

Definition evaluator_single_objective (self : evaluator)
    (candidates : seq (seq F)) : outcome (seq F * evaluator) :=
  for_each (fun acc c =>
      let: (fitness_values, self) := acc in
      res <- evaluator_internal self c (training_data self) true ;;
      let: (fitness, y_pred, self) := res in
      (* Sum the fitness values over all aspects. *)
      Returned (rcons fitness_values (py_sum fitness), self))
    candidates ([::], self).

Definition predict (self : evaluator) (candidate : seq F)
    (training per_time_step : bool)
  : outcome (seq F * labelled_frame * evaluator) :=
  if training then
    evaluator_internal self candidate (training_data self) per_time_step
  else evaluator_internal self candidate (test_data self) per_time_step.

End Evaluator.

End Dynsys.

(** ** Sample inputs *)

Module Sample.

(** A row of one rational value, and small tables of one column. *)
Definition row1 (q : rat) : 'rV[rat]_1 := const_mx q.

Definition train_two : frame rat 1 := [:: row1 1; row1 3].
Definition test_one : frame rat 1 := [:: row1 2].
Definition flat_train : frame rat 1 := [:: row1 1; row1 1].
Definition flat_test : frame rat 1 := [:: row1 1].
Definition X_one : frame rat 1 := [:: row1 1].
Definition X_three : frame rat 1 := [:: row1 1; row1 2; row1 3].
Definition y_first : frame rat 1 := [:: row1 1; row1 2; row1 3].
Definition y_second : frame rat 1 := [:: row1 1; row1 5; row1 7].
Definition ten_rows : frame rat 1 := nseq 10 (row1 1).
Definition eleven_rows : frame rat 1 := nseq 11 (row1 1).
Definition three_rows : frame rat 1 := nseq 3 (row1 1).

(** A network of one input, one output and one reservoir node. *)
Definition Win : 'M[rat]_(1, 1 + 1) := const_mx 1.
Definition W : 'M[rat]_1 := const_mx 1.
Definition Wback : 'M[rat]_(1, 1) := const_mx 1.
Definition Wout : 'M[rat]_(1, 1 + (1 + 1)) := const_mx 1.
Definition leak : rat := 8%:R / 10%:R.

(** Stand-ins for the numeric routines; the statements that use them hold
    for every choice of these functions. *)
Definition activation (x : rat) : rat := x.
Definition transposed (m n : nat) (A : 'M[rat]_(m, n)) : 'M[rat]_(n, m) := A^T.
Definition unit_spectrum (N : nat) (A : 'M[rat]_N) : seq rat := [:: 1].

(** A stand-in for the rounded product of two floats: the product without
    rounding.  On the fractions and the numbers of rows of the samples both
    are truncated to the same integer. *)
Definition exact_product (x y : rat) : rat := x * y.

(** A random generator that draws the same value every time. *)
Definition constant_draws {F : numFieldType} (q : F) (r c : nat) (g : unit)
  : 'M[F]_(r, c) * unit :=
  (const_mx q, g).

(** Scorers that give every prediction the same score. *)
Definition score_one (y : frame rat 1) (p : frame rat 1) : rat := 1.
Definition accuracy_one (y : frame rat 1) (p : seq nat) : rat := 1.
Definition score_zero (y : frame rat 1) (p : frame rat 1) : rat := 0.
Definition accuracy_zero (y : frame rat 1) (p : seq nat) : rat := 0.

(** The grid search on eleven rows, with every row kept for training, under
    scorers that are constantly 1 and constantly 0. *)
Definition search_ones (error : string) : outcome (pyval rat * pyval rat * unit) :=
  gridsearch_reservoir_computing (constant_draws 1) unit_spectrum activation
    activation transposed score_one accuracy_one exact_product eleven_rows
    eleven_rows true error 1 tt.

Definition search_zeros (error : string) : outcome (pyval rat * pyval rat * unit) :=
  gridsearch_reservoir_computing (constant_draws 1) unit_spectrum activation
    activation transposed score_zero accuracy_zero exact_product eleven_rows
    eleven_rows true error 1 tt.

(** An [eig] that finds the eigenvalue 1, as often as the matrix has
    rows. *)
Definition unit_eigenvalues (N : nat) (A : 'M[rat]_N) : seq rat := nseq N 1.

(** A dict of two names with candidates that are numbers. *)
Definition small_dict : py_dict nat :=
  [:: ("a"%string, [:: 1%N; 2%N]); ("b"%string, [:: 3%N])].

(** A stand-in for the fit of the ARIMAX model, which predicts nothing, and
    one for the training of the recurrent network. *)
Definition arimax_stub (train_X train_y test_X test_y : frame rat 1)
    (ar ma : pyval rat) (s : unit)
  : outcome (frame rat 1 * frame rat 1 * unit) :=
  Returned ([::], [::], s).

Definition rnn_stub (train_X train_y test_X test_y : frame rat 1)
    (n_hidden_neurons iterations outputbias : rnn_value) (s : unit)
  : outcome (seq nat * seq nat * frame rat 1 * frame rat 1 * unit) :=
  Returned ([::], [::], [::], [::], s).

(** A dynamical systems model of one state [x] that does nothing and
    always reports the value 1, and an evaluator of the aspect [x] on a
    dataset of two rows. *)
Definition model_step (m : unit) : outcome unit := Returned m.
Definition model_set (values : seq rat) (m : unit) : outcome unit :=
  Returned m.
Definition model_execute (steps : nat) (m : unit) : outcome unit :=
  Returned m.
Definition model_values (name : string) (m : unit) : outcome (seq rat) :=
  Returned [:: 1].
Definition squared_error (y_true y_pred : seq rat) : rat := 0.

Definition one_row : Dynsys.labelled_frame rat :=
  Dynsys.LabelledFrame [:: "x"%string] [:: [:: 1]].
Definition two_rows : Dynsys.labelled_frame rat :=
  Dynsys.LabelledFrame [:: "x"%string] [:: [:: 1]; [:: 2]].
Definition evaluator_x : Dynsys.evaluator rat unit :=
  Dynsys.Evaluator two_rows two_rows tt [:: "self.x"%string].

Definition evaluate (dataset : Dynsys.labelled_frame rat)
  : outcome (seq rat * Dynsys.labelled_frame rat * Dynsys.evaluator rat unit) :=
  Dynsys.evaluator_internal [:: "self.x"%string] model_step model_set
    model_set model_execute model_values squared_error evaluator_x [:: 1]
    dataset true.

(** A [random.uniform] that always gives its lower bound. *)
Definition lower_bound (a b : rat) (g : unit) : rat * unit := (a, g).

End Sample.

(** * Properties *)

(** ** Outcomes and loops *)

Lemma for_each_cat {S T : Type} (body : S -> T -> outcome S) (s1 s2 : seq T)
    (st : S) :
  for_each body (s1 ++ s2) st
  = (st' <- for_each body s1 st ;; for_each body s2 st').
Proof.
elim: s1 st => [|t s1 IH] st //=.
by case: (body st t) => [st'|e] //=.
Qed.

Lemma for_each_rcons {S T : Type} (body : S -> T -> outcome S) (s : seq T)
    (t : T) (st : S) :
  for_each body (rcons s t) st = (st' <- for_each body s st ;; body st' t).
Proof.
rewrite -cats1 for_each_cat; case: (for_each body s st) => [st'|e] //=.
by case: (body st' t).
Qed.

Lemma bind_Returned {A B : Type} (v : A) (k : A -> outcome B) :
  bind (Returned v) k = k v.
Proof. by []. Qed.

Lemma returns_value {T : Type} (c : outcome T) :
  returns c -> exists v, c = Returned v.
Proof. by case: c => // v _; exists v. Qed.

Lemma bind_Raised {A B : Type} (e : exn) (k : A -> outcome B) :
  bind (Raised e) k = Raised e.
Proof. by []. Qed.

(** ** Normalisation *)

Section NormalizeFacts.

Variable F : numFieldType.
Variable m : nat.

Implicit Types (train test : frame F m) (v r : 'rV[F]_m).

Lemma replace_0_1_neq0 v j : replace_0_1 v 0 j != 0.
Proof.
rewrite mxE; case: ifP => [_|/negbT //].
exact: oner_neq0.
Qed.

Lemma unscale_scale_row (minimum difference : 'rV[F]_m) range_min range_max r :
  (forall j, difference 0 j != 0) -> range_max - range_min != 0 ->
  unscale_row minimum difference range_min range_max
    (scale_row minimum difference range_min range_max r) = r.
Proof.
move=> dn0 rn0; apply/rowP => j; rewrite !mxE.
by rewrite addrK (mulfK rn0) (divfK (dn0 j)) subrK.
Qed.

(** C4: denormalising the scaled training table with the minimum and maximum
    that [normalize] returned and the same range bounds gives the training
    table back, whenever the two range bounds differ; columns of zero range
    are included. *)
Theorem denormalize_normalize train test (range_min range_max : F) :
  range_min <> range_max ->
  let: (new_train, _, minimum, maximum) :=
    normalize train test range_min range_max in
  denormalize new_train minimum maximum range_min range_max = train.
Proof.
move=> /eqP neq; rewrite /normalize /denormalize /= -map_comp.
have rn0 : range_max - range_min != 0 by rewrite subr_eq0 eq_sym.
rewrite -[RHS]map_id; apply: eq_map => r /=.
by apply: unscale_scale_row => // j; apply: replace_0_1_neq0.
Qed.

End NormalizeFacts.

Section NormalizeOrder.

Variable R : realFieldType.
Variable m : nat.

Implicit Types (train test : frame R m) (s : seq R).

Lemma foldl_max_ge (x : R) s :
  x <= foldl Order.max x s /\ {in s, forall y, y <= foldl Order.max x s}.
Proof.
elim: s x => [|a s IH] x /=; first by split.
have [le1 le2] := IH (Order.max x a); split.
  by apply: le_trans le1; rewrite le_max lexx.
move=> y; rewrite in_cons => /orP[/eqP ->|/le2 //].
by apply: le_trans le1; rewrite le_max lexx orbT.
Qed.

Lemma foldl_min_le (x : R) s :
  foldl Order.min x s <= x /\ {in s, forall y, foldl Order.min x s <= y}.
Proof.
elim: s x => [|a s IH] x /=; first by split.
have [le1 le2] := IH (Order.min x a); split.
  by apply: (le_trans le1); rewrite ge_min lexx.
move=> y; rewrite in_cons => /orP[/eqP ->|/le2 //].
by apply: (le_trans le1); rewrite ge_min lexx orbT.
Qed.

Lemma seq_max_ge s : {in s, forall y, y <= seq_max s}.
Proof.
case: s => [|x s] // y; have [le1 le2] := foldl_max_ge x s.
by rewrite in_cons => /orP[/eqP ->|/le2].
Qed.

Lemma seq_min_le s : {in s, forall y, seq_min s <= y}.
Proof.
case: s => [|x s] // y; have [le1 le2] := foldl_min_le x s.
by rewrite in_cons => /orP[/eqP ->|/le2].
Qed.

Lemma foldl_max_mem (x : R) s : foldl Order.max x s \in x :: s.
Proof.
elim: s x => [|a s IH] x /=; first by rewrite mem_head.
have:= IH (Order.max x a); rewrite !in_cons.
by case: (leP x a) => _ /orP[->|->]; rewrite ?orbT.
Qed.

Lemma foldl_min_mem (x : R) s : foldl Order.min x s \in x :: s.
Proof.
elim: s x => [|a s IH] x /=; first by rewrite mem_head.
have:= IH (Order.min x a); rewrite !in_cons.
by case: (leP x a) => _ /orP[->|->]; rewrite ?orbT.
Qed.

Lemma seq_max_mem s : s != [::] -> seq_max s \in s.
Proof. by case: s => [|x s] // _; apply: foldl_max_mem. Qed.

Lemma seq_min_mem s : s != [::] -> seq_min s \in s.
Proof. by case: s => [|x s] // _; apply: foldl_min_mem. Qed.

Lemma column_mem (df : frame R m) (r : 'rV[R]_m) j :
  r \in df -> r 0 j \in column df j.
Proof. by move=> r_df; apply/mapP; exists r. Qed.

(** A value of a column is squeezed between the column's extremes. *)
Lemma frame_min_max (df : frame R m) (r : 'rV[R]_m) j :
  r \in df -> frame_min df 0 j <= r 0 j <= frame_max df 0 j.
Proof.
move=> /(column_mem j) r_j; rewrite !mxE.
by rewrite (seq_min_le r_j) (seq_max_ge r_j).
Qed.

(** C8: [normalize] takes the minimum and maximum of each column over the
    rows of train followed by the rows of test; the divisor of a column is
    never zero, it is 1 for a column whose maximum equals its minimum, and
    every value of such a column is mapped to [range_min]. *)
Theorem normalize_zero_range train test (range_min range_max : R) (j : 'I_m) :
  let: (new_train, new_test, minimum, maximum) :=
    normalize train test range_min range_max in
  let divisor := replace_0_1 (maximum - minimum) in
  [/\ minimum 0 j = seq_min (column (train ++ test) j)
      /\ maximum 0 j = seq_max (column (train ++ test) j),
      {in train ++ test, forall r : 'rV[R]_m,
         minimum 0 j <= r 0 j <= maximum 0 j},
      divisor 0 j != 0,
      new_train ++ new_test
      = [seq \row_k (((r : 'rV[R]_m) 0 k - minimum 0 k) / divisor 0 k
                     * (range_max - range_min) + range_min)
        | r <- train ++ test]
    & maximum 0 j = minimum 0 j ->
      divisor 0 j = 1
      /\ {in new_train ++ new_test, forall r : 'rV[R]_m, r 0 j = range_min}].
Proof.
rewrite /normalize /=; split.
- by rewrite !mxE.
- by move=> r; apply: frame_min_max.
- exact: replace_0_1_neq0.
- by rewrite map_cat.
have bounds := @frame_min_max (train ++ test) ^~ j.
move: bounds; set mx := frame_max _; set mn := frame_min _ => bounds eq_mx_mn.
clearbody mx mn.
have d1 : replace_0_1 (mx - mn) 0 j = 1 by rewrite !mxE eq_mx_mn subrr eqxx.
split=> // r'; rewrite -map_cat => /mapP[r /bounds/andP[le1 le2] ->].
rewrite [LHS]mxE d1.
have -> : r 0 j = mn 0 j by apply/eqP; rewrite eq_le le1 -eq_mx_mn le2.
by rewrite subrr !mul0r add0r.
Qed.

End NormalizeOrder.

(** ** Prediction *)

Lemma range_rcons n : range n.+1 = rcons (range n) n.
Proof. by rewrite /range -addn1 iotaD /= cats1. Qed.

Lemma size_range n : size (range n) = n.
Proof. exact: size_iota. Qed.

Section PredictFacts.

Variable F : numFieldType.
Variable np_tanh : F -> F.
Variables inputs outputs reservoir_size : nat.
Variable Win : 'M[F]_(reservoir_size, 1 + inputs).
Variable W : 'M[F]_reservoir_size.
Variable Wback : 'M[F]_(reservoir_size, outputs).
Variable a : F.
Variable Wout : 'M[F]_(outputs, 1 + (inputs + reservoir_size)).

Implicit Types (X : frame F inputs) (y_true : frame F outputs).

Let state := reservoir_state np_tanh Win W Wback a.
Let predict := predict_values_echo_state_network np_tanh Win W Wback a Wout.
Let step := predict_step np_tanh Win W Wback a Wout.

Lemma iloc_row_lt {m : nat} (df : frame F m) t :
  (t < size df)%N -> iloc_row df t = Returned (row_at df t).
Proof. by rewrite /iloc_row => ->. Qed.

Lemma iloc_row_take {m : nat} (df : frame F m) k t :
  (t < k)%N -> iloc_row (take k df) t = iloc_row df t.
Proof.
move=> lt_tk; rewrite /iloc_row size_take nth_take //.
by case: (ltnP k (size df)) => // lt_k; rewrite lt_tk (ltn_trans lt_tk).
Qed.

(** [np.vstack] on a row with at least one entry, and on a row without. *)
Lemma np_vstackE {n : nat} (v : 'rV[F]_n) :
  (0 < n)%N -> np_vstack v = Returned v^T.
Proof. by rewrite /np_vstack => ->. Qed.

Lemma np_vstack_empty {n : nat} (v : 'rV[F]_n) :
  n = 0%N -> np_vstack v = Raised ValueError.
Proof.
move=> eq0; have lt0 : (0 < n)%N = false by rewrite eq0.
by rewrite /np_vstack lt0.
Qed.

(** The state of the reservoir follows the recurrence. *)
Lemma state_succ u y t :
  state u y t.+1
  = esn_update np_tanh Win W Wback a (state u y t) (u t.+1) (y t)^T.
Proof. by []. Qed.

Lemma state_zero u y : state u y 0 = esn_update np_tanh Win W Wback a 0 (u 0) 0.
Proof. by rewrite /state /= /esn_update trmx0. Qed.

Lemma forced_predictionE u y t :
  forced_prediction np_tanh Win W Wback a Wout u y t
  = esn_output np_tanh Wout (u t) (state u y t).
Proof. by rewrite /forced_prediction /design_row trmxK. Qed.

(** The loop of the prediction after [k] passes, when the true targets are
    fed back. *)
Lemma predict_loop_forced X y_true k y0 :
  (0 < outputs)%N -> (k <= size X)%N -> (k <= (size y_true).+1)%N ->
  for_each (step X (Some y_true) true) (range k) (0, y0, [::])
  = Returned (if k is k'.+1 then state (row_at X) (row_at y_true) k' else 0,
              if k is k'.+1
              then forced_prediction np_tanh Win W Wback a Wout
                     (row_at X) (row_at y_true) k'
              else y0,
              [seq forced_prediction np_tanh Win W Wback a Wout
                     (row_at X) (row_at y_true) t | t <- range k]).
Proof.
move=> gt0; elim: k => [|k IH] // ltkX ltky.
rewrite range_rcons for_each_rcons map_rcons IH ?(ltnW ltkX) ?(ltnW ltky) //.
rewrite bind_Returned /step /predict_step (iloc_row_lt ltkX) bind_Returned.
case: k ltky {IH ltkX} => [|k] ltky.
  rewrite ltnn bind_Returned np_vstackE // bind_Returned forced_predictionE.
  by rewrite state_zero trmx0.
rewrite ltn0Sn subn1 [k.+1.-1]/= (iloc_row_lt ltky) bind_Returned.
by rewrite np_vstackE // bind_Returned forced_predictionE.
Qed.

(** With the true targets fed back, the prediction table is the list of the
    forced predictions, one per row of [X]. *)
Lemma predict_forced X y_true :
  (0 < outputs)%N -> (size X <= (size y_true).+1)%N ->
  predict X (Some y_true) true
  = let Y := [seq forced_prediction np_tanh Win W Wback a Wout
                    (row_at X) (row_at y_true) t | t <- range (size X)] in
    Returned ([seq idxmax r | r <- Y], Y).
Proof.
move=> gt0 le_size; rewrite /predict /predict_values_echo_state_network.
by rewrite (predict_loop_forced _ gt0 (leqnn _) le_size).
Qed.

(** Without target columns the first pass of the loop has nothing to stack
    and raises a ValueError, in either mode and whatever is passed for the
    true targets. *)
Lemma predict_no_columns X (y_opt : option (frame F outputs))
    (per_time_step : bool) :
  outputs = 0%N -> (0 < size X)%N ->
  predict X y_opt per_time_step = Raised ValueError.
Proof.
move=> eq0; rewrite /predict /predict_values_echo_state_network.
case: X => [|r0 X] // _.
by rewrite [size _]/= /range /= /predict_step /iloc_row /= np_vstack_empty.
Qed.

(** The state at step [t] reads the inputs up to [t] and the targets before
    [t], and nothing else. *)
Lemma state_ext u u' y y' t :
  (forall i, (i <= t)%N -> u i = u' i) -> (forall i, (i < t)%N -> y i = y' i) ->
  state u y t = state u' y' t.
Proof.
elim: t => [|t IH] eq_u eq_y; first by rewrite !state_zero eq_u.
rewrite !state_succ eq_u // eq_y // IH // => i le_it.
  by apply: eq_u; apply: leqW.
by apply: eq_y; apply: leqW.
Qed.

Lemma row_at_take {m : nat} (df : frame F m) k i :
  (i < k)%N -> row_at (take k df) i = row_at df i.
Proof. by move=> lt_ik; rewrite /row_at nth_take. Qed.

(** C3: with [per_time_step=True] and at least one target column, the
    predictions are the forced predictions, which are computed from the
    weights, the inputs and the true targets; two runs on the same inputs
    whose tables of true targets agree on the rows before [t] return the same
    predictions, and the same labels, at every step up to [t]. *)
Theorem teacher_forcing_prefix X (y_true1 y_true2 : frame F outputs) (t : nat) :
  (0 < outputs)%N ->
  (size X <= (size y_true1).+1)%N -> (size X <= (size y_true2).+1)%N ->
  take t y_true1 = take t y_true2 ->
  exists labels1 Y1 labels2 Y2,
    [/\ predict X (Some y_true1) true = Returned (labels1, Y1),
        predict X (Some y_true2) true = Returned (labels2, Y2),
        Y1 = [seq forced_prediction np_tanh Win W Wback a Wout
                    (row_at X) (row_at y_true1) k | k <- range (size X)],
        take t.+1 Y1 = take t.+1 Y2
      & take t.+1 labels1 = take t.+1 labels2].
Proof.
move=> gt0 le1 le2 eq_y; rewrite !predict_forced //=.
pose Yf y := [seq forced_prediction np_tanh Win W Wback a Wout
                    (row_at X) (row_at y) k | k <- range (size X)].
pose Y1 := Yf y_true1; pose Y2 := Yf y_true2.
have eqY : take t.+1 Y1 = take t.+1 Y2.
  rewrite -!map_take; apply/eq_in_map => k.
  rewrite /range take_iota mem_iota add0n => /andP[_ lt_k].
  have le_kt : (k <= t)%N by rewrite -ltnS (leq_trans lt_k) // geq_minl.
  rewrite !forced_predictionE; congr esn_output.
  apply: state_ext => // i lt_ik; have lt_it := leq_trans lt_ik le_kt.
  by rewrite -(row_at_take _ lt_it) eq_y row_at_take.
exists [seq idxmax r | r <- Y1], Y1, [seq idxmax r | r <- Y2], Y2; split=> //.
by rewrite -[LHS]map_take -[RHS]map_take eqY.
Qed.

(** C5: without a table of true targets and with [per_time_step=True], the
    call on a table [X] of at least two rows returns nothing: with at least
    one target column it raises an AttributeError, at the second time step,
    which is the first to read the table of true targets; without target
    columns it raises a ValueError in its first pass already.  With target
    columns and an [X] of one row or none the table of true targets is never
    read and the call returns. *)
Theorem predict_without_true_targets X :
  [/\ (0 < outputs)%N -> (1 < size X)%N ->
      predict X None true = Raised AttributeError,
      (0 < outputs)%N -> (size X <= 1)%N -> returns (predict X None true)
    & outputs = 0%N -> (0 < size X)%N ->
      predict X None true = Raised ValueError].
Proof.
split; last exact: predict_no_columns.
  (* with two rows or more the first pass goes through and the second reads
     y_true *)
  move=> gt0; rewrite /predict /predict_values_echo_state_network.
  case: X => [|r0 [|r1 X]] // _.
  by rewrite [size _]/= /range /= /predict_step /iloc_row /= np_vstackE.
(* without rows or with one row no pass reads y_true *)
move=> gt0; rewrite /predict /predict_values_echo_state_network.
case: X => [|r0 [|r1 X]] // _.
by rewrite [size _]/= /range /= /predict_step /iloc_row /= np_vstackE.
Qed.

(** With at least one target column, the loop of the prediction in the
    free running mode never raises. *)
Lemma predict_loop_free X (y_opt : option (frame F outputs)) ts st :
  (0 < outputs)%N -> all (fun t => t < size X)%N ts ->
  returns (for_each (step X y_opt false) ts st).
Proof.
move=> gt0; elim: ts st => [|t ts IH] [[x y] Y] //= /andP[lt_t lt_ts].
rewrite /step /predict_step (iloc_row_lt lt_t) bind_Returned.
by case: (0 < t)%N; rewrite bind_Returned np_vstackE // bind_Returned; apply: IH.
Qed.

Lemma all_range n : all (fun t => t < n)%N (range n).
Proof. by apply/allP => t; rewrite mem_iota add0n. Qed.

(** The prediction returns unless it reads a row of true targets that is not
    there. *)
Lemma predict_returns X y_true (per_time_step : bool) :
  (0 < outputs)%N -> (per_time_step -> (size X <= (size y_true).+1)%N) ->
  returns (predict X (Some y_true) per_time_step).
Proof.
move=> gt0.
case: per_time_step => [le_size|_]; first by rewrite predict_forced ?le_size.
rewrite /predict /predict_values_echo_state_network.
have := predict_loop_free (Some y_true) (0, 0, [::]) gt0 (all_range (size X)).
by rewrite /step; case: (for_each _ _ _).
Qed.

End PredictFacts.

(** ** Training *)

Section SliceFacts.

Variable F : numFieldType.
Variable m : nat.

Implicit Types (df train test : frame F m).

Lemma iloc_rows_from df k :
  iloc_rows df (Posz k) (Posz (size df)) = drop k df.
Proof.
rewrite /iloc_rows /slice_bound minnn.
case: (leqP k (size df)) => [le_k|/ltnW le_k].
  by rewrite take_oversize // size_drop.
by rewrite subnn take0 drop_oversize.
Qed.

Lemma iloc_rows_upto df k : iloc_rows df 0 (Posz k) = take k df.
Proof.
rewrite /iloc_rows /slice_bound /= min0n subn0 drop0.
case: (leqP k (size df)) => [le_k|/ltnW le_k] //.
by rewrite take_size take_oversize.
Qed.

Lemma create_numerical_multiple_datasetE train test :
  create_numerical_multiple_dataset train test = (train, test).
Proof.
rewrite /create_numerical_multiple_dataset /get_dummies iloc_rows_upto.
rewrite take_size_cat // /iloc_rows /slice_bound size_cat minnn.
by rewrite (minn_idPl (leq_addr _ _)) addKn drop_size_cat // take_size.
Qed.

Lemma np_zeros_sub {w : nat} (n k : nat) :
  @np_zeros F w (n%:Z - k%:Z)
  = if (k <= n)%N then Returned (nseq (n - k) 0) else Raised ValueError.
Proof.
case: (leqP k n) => [le_kn|lt_nk]; first by rewrite subzn.
rewrite -opprB subzn ?(ltnW lt_nk) //.
by move: lt_nk; rewrite -subn_gt0; case: (k - n)%N => [|d] // _; rewrite -NegzE.
Qed.

Lemma iloc_rows_pos df l h :
  iloc_rows df (Posz l) (Posz h) = drop l (take h df).
Proof.
rewrite /iloc_rows /slice_bound take_drop.
set n := size df; set l' := minn l n; set h' := minn h n.
have dropl (s : frame F m) : (size s <= n)%N -> drop l' s = drop l s.
  move=> le_s; rewrite /l'; case: (leqP l n) => // /ltnW le_nl.
  by rewrite !drop_oversize // (leq_trans le_s).
have takeh : take h' df = take h df by rewrite /h' take_min take_size.
have size_takeh : (size (take h' df) <= n)%N by rewrite size_take_min geq_minr.
case: (leqP l' h') => [le_lh|/ltnW le_hl]; first by rewrite subnK // takeh dropl // -takeh.
rewrite (eqP le_hl) add0n drop_oversize ?size_take_min ?geq_minl //.
rewrite -takeh -dropl // drop_oversize // size_take_min.
by rewrite (leq_trans (geq_minl _ _)).
Qed.

Lemma size_iloc_rows df lo hi : (size (iloc_rows df lo hi) <= size df)%N.
Proof.
rewrite /iloc_rows size_take_min size_drop.
by rewrite (leq_trans (geq_minr _ _)) // leq_subr.
Qed.

End SliceFacts.

Section TrainFacts.

Variable F : numFieldType.
Variable np_tanh : F -> F.
Variable np_arctanh : F -> F.
Variable linalg_pinv : forall m n : nat, 'M[F]_(m, n) -> 'M[F]_(n, m).
Variables inputs outputs reservoir_size : nat.
Variable Win : 'M[F]_(reservoir_size, 1 + inputs).
Variable W : 'M[F]_reservoir_size.
Variable Wback : 'M[F]_(reservoir_size, outputs).
Variable a : F.

Implicit Types (X : frame F inputs) (y : frame F outputs).

Let state := reservoir_state np_tanh Win W Wback a.
Let drow := design_row np_tanh Win W Wback a.

Let design_upto := design_upto np_tanh Win W Wback a.

Lemma design_upto0 washout n X y :
  design_upto washout n X y 0 = nseq (n - washout) 0.
Proof.
apply: (@eq_from_nth _ 0); first by rewrite size_mkseq size_nseq.
by move=> i; rewrite size_mkseq => lt_i; rewrite nth_mkseq // nth_nseq lt_i.
Qed.

Lemma design_upto_set washout n X y k :
  (washout <= k)%N -> (k < n)%N ->
  set_nth 0 (design_upto washout n X y k) (k - washout)
    (drow (row_at X) (row_at y) k)
  = design_upto washout n X y k.+1.
Proof.
move=> le_wk lt_kn.
have lt_kw : (k - washout < n - washout)%N by rewrite ltn_sub2r // (leq_ltn_trans le_wk).
apply: (@eq_from_nth _ 0).
  by rewrite size_set_nth !size_mkseq; apply/maxn_idPr.
move=> i; rewrite size_set_nth size_mkseq (maxn_idPr lt_kw) => lt_i.
rewrite nth_set_nth /= !nth_mkseq // ltnS [(i + washout <= k)%N]leq_eqVlt.
have -> : (i + washout == k) = (i == k - washout)%N.
  by rewrite -(eqn_add2r washout i (k - washout)) subnK.
by case: eqP => [->|_] //=; rewrite subnK.
Qed.

Lemma design_upto_skip washout n X y k :
  (k < washout)%N ->
  design_upto washout n X y k.+1 = design_upto washout n X y k.
Proof.
move=> lt_kw; apply: eq_map => i /=.
have lt_k : (k < i + washout)%N by rewrite (leq_trans lt_kw) // leq_addl.
by rewrite ltnS leqNgt lt_k ltnNge (ltnW lt_k).
Qed.

Lemma design_upto_full washout n X y :
  design_upto washout n X y n
  = [seq drow (row_at X) (row_at y) t | t <- iota washout (n - washout)].
Proof.
rewrite -[in RHS](addn0 washout) iotaDl -map_comp addn0.
apply/eq_in_map => i; rewrite mem_iota add0n /= ltn_subRL.
by rewrite ![(washout + i)%N]addnC => ->.
Qed.

(** The training loop after [k] passes. *)
Lemma train_loop washout X y k :
  (0 < outputs)%N -> (k <= size X)%N -> (k <= (size y).+1)%N ->
  for_each (train_step np_tanh Win W Wback a washout X y) (range k)
    (0, nseq (size X - washout) 0)
  = Returned (if k is k'.+1 then state (row_at X) (row_at y) k' else 0,
              design_upto washout (size X) X y k).
Proof.
move=> gt0; elim: k => [|k IH] ltkX ltky; first by rewrite design_upto0.
rewrite range_rcons for_each_rcons IH ?(ltnW ltkX) ?(ltnW ltky) //.
rewrite bind_Returned /train_step (iloc_row_lt ltkX) bind_Returned.
have -> : (if (0 < k)%N then iloc_row y (k - 1) else Returned 0)
          = Returned (if k is k'.+1 then row_at y k' else 0).
  case: k ltky {IH ltkX} => [|k] ltky //.
  by rewrite ltn0Sn subn1 (iloc_row_lt ltky).
rewrite bind_Returned np_vstackE // bind_Returned.
have -> : esn_update np_tanh Win W Wback a
            (if k is k'.+1 then state (row_at X) (row_at y) k' else 0)
            (row_at X k) (if k is k'.+1 then row_at y k' else 0)^T
          = state (row_at X) (row_at y) k.
  by case: k {IH ltkX ltky} => [|k] //; rewrite /state state_zero trmx0.
case: (leqP washout k) => [le_wk|lt_kw]; last first.
  by rewrite bind_Returned design_upto_skip.
rewrite /set_row size_mkseq ltn_sub2r ?(leq_ltn_trans le_wk) // bind_Returned.
by rewrite -design_upto_set.
Qed.

(** The solve for the output weights: the design matrix has the rows
    [1; u_t; x_t] of the steps from the washout period on, and the targets
    are the arctanh of the target rows from the washout period on. *)
Lemma train_output_weightsE washout X y :
  (0 < outputs)%N -> (washout < size X)%N -> size y = size X ->
  let n := size X in
  let design := [seq drow (row_at X) (row_at y) t
                | t <- iota washout (n - washout)] in
  let targets := [seq map_mx np_arctanh (row_at y t)
                 | t <- iota washout (n - washout)] in
  train_output_weights np_tanh np_arctanh linalg_pinv Win W Wback a washout
    (size X) X y
  = Returned (linalg_pinv (mx_of_rows (n - washout) design)
              *m mx_of_rows (n - washout) targets)^T.
Proof.
move=> gt0 lt_w eq_size /=.
rewrite /train_output_weights np_zeros_sub (ltnW lt_w).
rewrite bind_Returned iloc_rows_from train_loop ?eq_size // bind_Returned /=.
rewrite design_upto_full /dot_pinv !size_map size_drop size_iota eq_size eqxx.
rewrite subn_eq0 leqNgt lt_w /=.
congr (Returned (_ *m mx_of_rows _ _)^T).
rewrite (map_comp (map_mx np_arctanh) (row_at y)) /row_at map_nth_iota.
  by rewrite eq_size.
by rewrite take_oversize // size_drop eq_size.
Qed.

(** The matrix of the rows [f b], [f (b + 1)], ..., entry by entry. *)
Lemma mx_of_rows_iota {w : nat} (f : nat -> 'rV[F]_w) (k b : nat) :
  mx_of_rows k [seq f t | t <- iota b k] = \matrix_(i < k) f (i + b)%N.
Proof.
apply/matrixP => i j; rewrite !mxE (nth_map 0%N) ?size_iota //.
by rewrite nth_iota // addnC.
Qed.

End TrainFacts.

(** ** The training run *)

Section ReservoirFacts.

Variable F : numFieldType.
Variable rng : Type.
Variable np_random_rand : forall r c : nat, rng -> 'M[F]_(r, c) * rng.
Variable eig_abs : forall N : nat, 'M[F]_N -> seq F.
Variable np_tanh : F -> F.
Variable np_arctanh : F -> F.
Variable linalg_pinv : forall m n : nat, 'M[F]_(m, n) -> 'M[F]_(n, m).
Variables inputs outputs : nat.

Implicit Types (train_X test_X : frame F inputs).
Implicit Types (train_y test_y : frame F outputs).

Let init := initialize_echo_state_network np_random_rand eig_abs.
Let body := @reservoir_computing_body F rng np_random_rand eig_abs np_tanh
              np_arctanh linalg_pinv inputs outputs.

Lemma py_max_returns (s : seq F) : returns (py_max s) = (s != [::]).
Proof. by case: s. Qed.

Lemma initialize_returns reservoir g :
  returns (init inputs outputs reservoir g)
  = (eig_abs (drawn_reservoir_matrix np_random_rand inputs reservoir g)
     != [::]).
Proof.
rewrite /init /initialize_echo_state_network /drawn_reservoir_matrix.
case: (np_random_rand _ _ g) => r_in g1; case: (np_random_rand _ _ g1) => r_w g2.
case: (np_random_rand _ _ g2) => r_back g3.
by rewrite -py_max_returns; case: (py_max _).
Qed.

(** For a number of reservoir nodes, the only exception of the
    initialisation is the ValueError of [max]. *)
Lemma initialize_raises reservoir g e :
  init inputs outputs reservoir g = Raised e -> e = ValueError.
Proof.
rewrite /init /initialize_echo_state_network.
case: (np_random_rand _ _ g) => r_in g1; case: (np_random_rand _ _ g1) => r_w g2.
case: (np_random_rand _ _ g2) => r_back g3.
by case: (eig_abs _) => [|x s] //= [].
Qed.

Lemma size_normalize {m : nat} (train test : frame F m) lo hi :
  size (normalize train test lo hi).1.1.1 = size train
  /\ size (normalize train test lo hi).1.1.2 = size test.
Proof. by rewrite /normalize /= !size_map. Qed.

(** The body of [reservoir_computing] once the initialisation returned:
    the solve for the output weights on the normalised training tables, the
    two predictions, and the way back from the normalised range. *)
Lemma reservoir_computing_bodyE train_X train_y test_X test_y
    (reservoir_size : nat) (a : F) (per_time_step : bool) (g g' : rng)
    (Win : 'M[F]_(reservoir_size, 1 + inputs)) (W : 'M[F]_reservoir_size)
    (Wback : 'M[F]_(reservoir_size, outputs)) :
  init inputs outputs reservoir_size g = Returned (Win, W, Wback, g') ->
  let nX := normalize train_X test_X 0 1 in
  let ny := normalize train_y test_y (- (9%:R / 10%:R)) (9%:R / 10%:R) in
  body train_X train_y test_X test_y reservoir_size a per_time_step g
  = (Wout <- train_output_weights np_tanh np_arctanh linalg_pinv Win W Wback
               a 10 (size train_X) nX.1.1.1 ny.1.1.1 ;;
     pred_train <- predict_values_echo_state_network np_tanh Win W Wback a
                     Wout nX.1.1.1 (Some ny.1.1.1) per_time_step ;;
     pred_test <- predict_values_echo_state_network np_tanh Win W Wback a
                    Wout nX.1.1.2 (Some ny.1.1.2) per_time_step ;;
     Returned (pred_train.1, pred_test.1,
               denormalize pred_train.2 ny.1.2 ny.2
                 (- (9%:R / 10%:R)) (9%:R / 10%:R),
               denormalize pred_test.2 ny.1.2 ny.2
                 (- (9%:R / 10%:R)) (9%:R / 10%:R), g')).
Proof.
rewrite /body /reservoir_computing_body !create_numerical_multiple_datasetE.
by rewrite -/init => ->.
Qed.

(** The body of [reservoir_computing] returns when the tables have the
    rows that it reads and the initialisation returns. *)
Lemma reservoir_computing_body_returns train_X train_y test_X test_y
    (reservoir_size : nat) (a : F) (per_time_step : bool) (g : rng) :
  (0 < outputs)%N -> (10 < size train_X)%N -> size train_y = size train_X ->
  (per_time_step -> (size test_X <= (size test_y).+1)%N) ->
  returns (init inputs outputs reservoir_size g) ->
  returns (body train_X train_y test_X test_y reservoir_size a per_time_step g).
Proof.
move=> gt0 lt10 eq_size le_test.
case E: (init _ _ _ _) => [[[[Win W] Wback] g']|e] // _.
rewrite (reservoir_computing_bodyE _ _ _ _ _ _ E) /normalize /=.
set nX := map _ train_X; set ny := map _ train_y.
set nXt := map _ test_X; set nyt := map _ test_y.
have lt10' : (10 < size nX)%N by rewrite size_map.
have eq_size' : size ny = size nX by rewrite !size_map.
have := train_output_weightsE np_tanh np_arctanh linalg_pinv Win W Wback a
          gt0 lt10' eq_size'.
rewrite /= size_map => ->; rewrite bind_Returned.
set Wout := (linalg_pinv _ *m _)^T.
have pr1 : returns (predict_values_echo_state_network np_tanh Win W Wback a
                      Wout nX (Some ny) per_time_step).
  by apply: predict_returns => // _; rewrite !size_map eq_size.
have pr2 : returns (predict_values_echo_state_network np_tanh Win W Wback a
                      Wout nXt (Some nyt) per_time_step).
  by apply: predict_returns; rewrite ?size_map.
move: pr1 pr2.
case: (predict_values_echo_state_network _ _ _ _ _ _ nX _ _) => // p1 _.
by case: (predict_values_echo_state_network _ _ _ _ _ _ nXt _ _).
Qed.

(** C1: in a training run of [reservoir_computing] on more than ten rows,
    with as many target rows and at least one target column, the output
    weights are the transpose of the pseudo inverse of the design matrix
    times the targets.  Row [i] of the design matrix is [1; u_t; x_t] for the
    step [t = i + 10], row [i] of the targets is the arctanh of the
    normalised target row [i + 10], and the states [x_t] follow the leaky
    recurrence from the zero vector, fed with the normalised true target of
    the previous step (the zero vector at the first step); the predictions
    of the run are made with these output weights. *)
Theorem reservoir_computing_training train_X train_y test_X test_y
    (reservoir_size : nat) (a : F) (per_time_step : bool) (g g' : rng)
    (Win : 'M[F]_(reservoir_size, 1 + inputs)) (W : 'M[F]_reservoir_size)
    (Wback : 'M[F]_(reservoir_size, outputs)) :
  (0 < outputs)%N -> (10 < size train_X)%N -> size train_y = size train_X ->
  init inputs outputs reservoir_size g = Returned (Win, W, Wback, g') ->
  let: (new_train_X, new_test_X, _, _) := normalize train_X test_X 0 1 in
  let: (new_train_y, new_test_y, min_y, max_y) :=
    normalize train_y test_y (- (9%:R / 10%:R)) (9%:R / 10%:R) in
  let n := size train_X in
  let u := row_at new_train_X in
  let y := row_at new_train_y in
  let x := reservoir_state np_tanh Win W Wback a u y in
  let design : 'M[F]_(n - 10, 1 + (inputs + reservoir_size)) :=
    \matrix_(i < n - 10)
       (col_mx (1%:M : 'M_1) (col_mx (u (i + 10)%N)^T (x (i + 10)%N)))^T in
  let targets : 'M[F]_(n - 10, outputs) :=
    \matrix_(i < n - 10) map_mx np_arctanh (y (i + 10)%N) in
  let Wout := (linalg_pinv design *m targets)^T in
  [/\ x 0%N
      = (1 - a) *: 0
        + a *: map_mx np_tanh (Win *m col_mx (1%:M : 'M_1) (u 0%N)^T + W *m 0
                               + Wback *m 0),
      forall t,
        x t.+1
        = (1 - a) *: x t
          + a *: map_mx np_tanh
                   (Win *m col_mx (1%:M : 'M_1) (u t.+1)^T + W *m x t
                    + Wback *m (y t)^T),
      train_output_weights np_tanh np_arctanh linalg_pinv Win W Wback a 10 n
    new_train_X new_train_y = Returned Wout
    & body train_X train_y test_X test_y reservoir_size a per_time_step g
      = (pred_train <- predict_values_echo_state_network np_tanh Win W Wback a
                         Wout new_train_X (Some new_train_y) per_time_step ;;
         pred_test <- predict_values_echo_state_network np_tanh Win W Wback a
                        Wout new_test_X (Some new_test_y) per_time_step ;;
         Returned (pred_train.1, pred_test.1,
                   denormalize pred_train.2 min_y max_y
                     (- (9%:R / 10%:R)) (9%:R / 10%:R),
                   denormalize pred_test.2 min_y max_y
                     (- (9%:R / 10%:R)) (9%:R / 10%:R), g'))].
Proof.
move=> gt0 lt10 eq_size init_ok.
rewrite /body /reservoir_computing_body !create_numerical_multiple_datasetE.
have [] := size_normalize train_X test_X 0 1.
have [] := size_normalize train_y test_y (- (9%:R / 10%:R)) (9%:R / 10%:R).
case: (normalize train_X _ _ _) => [[[nX nXt] minX] maxX].
case: (normalize train_y _ _ _) => [[[ny nyt] miny] maxy] /= szy _ szX _.
rewrite -/init init_ok bind_Returned.
have lt10' : (10 < size nX)%N by rewrite szX.
have eq_size' : size ny = size nX by rewrite szX szy.
have := train_output_weightsE np_tanh np_arctanh linalg_pinv Win W Wback a
          gt0 lt10' eq_size'.
rewrite /= szX !mx_of_rows_iota => eq_Wout.
by split=> //; rewrite ?eq_Wout // trmx0.
Qed.

(** With fewer than ten training rows the allocation of the result matrix
    raises a ValueError, whatever the weights, and so does the body of
    [reservoir_computing]. *)
Lemma train_output_weights_short (reservoir_size : nat) (a : F)
    (Win : 'M[F]_(reservoir_size, 1 + inputs)) W
    (Wback : 'M[F]_(reservoir_size, outputs)) (n_train : nat)
    (new_train_X : frame F inputs) (new_train_y : frame F outputs) :
  (n_train < 10)%N ->
  train_output_weights np_tanh np_arctanh linalg_pinv Win W Wback a 10
    n_train new_train_X new_train_y = Raised ValueError.
Proof. by move=> lt10; rewrite /train_output_weights np_zeros_sub leqNgt lt10. Qed.

Lemma reservoir_computing_body_short train_X train_y test_X test_y
    (reservoir_size : nat) (a : F) (per_time_step : bool) (g : rng) :
  (size train_X < 10)%N ->
  body train_X train_y test_X test_y reservoir_size a per_time_step g
  = Raised ValueError.
Proof.
move=> lt10; rewrite /body /reservoir_computing_body.
rewrite !create_numerical_multiple_datasetE /normalize /=.
case E: (initialize_echo_state_network _ _ _ _ _ _) => [[[[Win W] Wback] g']|e].
  by rewrite bind_Returned train_output_weights_short.
by rewrite (initialize_raises E).
Qed.

End ReservoirFacts.

(** ** The spectral radius after the initialisation *)

Section SpectrumFacts.

Variable C : numClosedFieldType.

Implicit Types (l c rho : C).

Lemma mem_linalg_eig N (W : 'M[C]_N) l : (l \in linalg_eig W) = eigenvalue W l.
Proof.
rewrite eigenvalue_root_char /linalg_eig.
case: (closed_field_poly_normal _) => r /= {1}->.
rewrite (monicP (char_poly_monic W)) scale1r.
by rewrite root_prod_XsubC.
Qed.

Lemma size_linalg_eig N (W : 'M[C]_N) : size (linalg_eig W) = N.
Proof.
have := size_char_poly W; rewrite /linalg_eig.
case: (closed_field_poly_normal _) => r /= {1}->.
rewrite (monicP (char_poly_monic W)) scale1r size_prod_XsubC.
by case.
Qed.

(** The builtin [max] over real values returns one of them that bounds
    them all. *)
Lemma foldl_py_max (x : C) (s : seq C) :
  x \is Num.real -> all (mem Num.real) s ->
  [/\ foldl (fun m y => if m < y then y else m) x s \in x :: s,
      x <= foldl (fun m y => if m < y then y else m) x s
    & {in s, forall y, y <= foldl (fun m y => if m < y then y else m) x s}].
Proof.
elim: s x => [|y s IH] x x_real //=; first by rewrite mem_head.
case/andP=> y_real s_real.
case: (real_ltP x_real y_real) => [lt_xy|le_yx]; last first.
  have [m_in le_xm le_sm] := IH x x_real s_real; split=> //.
    by move: m_in; rewrite !in_cons => /orP[->|->] //; rewrite !orbT.
  by move=> z; rewrite in_cons => /orP[/eqP ->|/le_sm //]; apply: le_trans le_xm.
have [m_in le_ym le_sm] := IH y y_real s_real; split=> //.
- by rewrite in_cons m_in orbT.
- by apply: le_trans le_ym; apply: ltW.
by move=> z; rewrite in_cons => /orP[/eqP ->|/le_sm].
Qed.

Lemma eig_abs_real N (W : 'M[C]_N) : all (mem Num.real) (eig_abs_closed W).
Proof. by apply/allP => x /mapP[l _ ->]; apply: normr_real. Qed.

(** On a matrix with at least one row, [max(abs(linalg.eig(W)[0]))] returns
    the spectral radius. *)
Lemma py_max_spectral_radius N (W : 'M[C]_N) :
  (0 < N)%N ->
  exists2 rho, py_max (eig_abs_closed W) = Returned rho
             & is_spectral_radius W rho.
Proof.
move=> N_gt0; have szN := size_linalg_eig W; have := eig_abs_real W.
rewrite /eig_abs_closed; case E: (linalg_eig W) => [|l0 r] /=.
  by have := N_gt0; rewrite -[X in (0 < X)%N]szN E.
move=> /andP[l0_real r_real].
have [] := foldl_py_max l0_real r_real.
set rho := foldl _ _ _ => rho_in le_l0 le_r; exists rho => //; split.
  have: rho \in [seq `|l| | l <- linalg_eig W] by rewrite E.
  by case/mapP=> l; rewrite mem_linalg_eig => ev_l ->; exists l.
move=> l; rewrite -mem_linalg_eig E in_cons => /orP[/eqP -> //|l_in].
by apply: le_r; apply/mapP; exists l.
Qed.

Lemma eigenvalue_scale N (W : 'M[C]_N) c l :
  c != 0 -> eigenvalue (c *: W) (c * l) = eigenvalue W l.
Proof.
move=> c_neq0; apply/eigenvalueP/eigenvalueP => -[v eq_v v_neq0]; exists v => //.
  apply: (scalerI c_neq0).
  by rewrite scalemxAr eq_v scalerA.
by rewrite -scalemxAr eq_v scalerA.
Qed.

Lemma spectral_radius_scale N (W : 'M[C]_N) c rho :
  c != 0 -> is_spectral_radius W rho ->
  is_spectral_radius (c *: W) (`|c| * rho).
Proof.
move=> c_neq0 [[l ev_l <-] le_rho]; split.
  by exists (c * l); rewrite ?eigenvalue_scale // normrM.
move=> l'; rewrite -[l'](mulVKf c_neq0) eigenvalue_scale // normrM.
by move=> /le_rho; rewrite ler_pM2l // normr_gt0.
Qed.

Lemma spectral_radius_ge0 N (W : 'M[C]_N) rho :
  is_spectral_radius W rho -> 0 <= rho.
Proof. by case=> [[l _ <-] _]. Qed.

(** C2, as the code has it: for a reservoir of at least one node the
    initialisation returns the drawn matrix times [1.25 / rho], where [rho]
    is the spectral radius of the drawn matrix; the spectral radius of the
    returned matrix is 1.25 whenever [rho] is not zero. *)
Theorem initialize_spectral_radius (rng : Type)
    (np_random_rand : forall r c : nat, rng -> 'M[C]_(r, c) * rng)
    (inputs outputs reservoir : nat) (g : rng) :
  (0 < reservoir)%N ->
  let W0 := drawn_reservoir_matrix np_random_rand inputs reservoir g in
  exists rho Win W Wback g',
    [/\ initialize_echo_state_network np_random_rand (@eig_abs_closed C)
          inputs outputs reservoir g = Returned (Win, W, Wback, g'),
        is_spectral_radius W0 rho,
        W = (5%:R / 4%:R / rho) *: W0
      & rho != 0 -> is_spectral_radius W (5%:R / 4%:R)].
Proof.
move=> N_gt0; rewrite /initialize_echo_state_network /drawn_reservoir_matrix.
case: (np_random_rand _ _ g) => r_in g1; case: (np_random_rand _ _ g1) => r_w g2.
case: (np_random_rand _ _ g2) => r_back g3.
have [rho -> rhoP] := py_max_spectral_radius (r_w - const_mx 2^-1) N_gt0.
rewrite bind_Returned.
exists rho, (1 *: (r_in - const_mx 2^-1)),
  ((5%:R / 4%:R / rho) *: (r_w - const_mx 2^-1)),
  (1 *: (r_back - const_mx 2^-1)), g3; split=> // rho_neq0.
have rho_ge0 := spectral_radius_ge0 rhoP.
have c_neq0 : 5%:R / 4%:R / rho != 0 :> C.
  by rewrite !mulf_neq0 ?invr_eq0 // pnatr_eq0.
have := spectral_radius_scale c_neq0 rhoP.
rewrite ger0_norm ?divfK // divr_ge0 // divr_ge0 // ler0n.
Qed.

End SpectrumFacts.

(** ** Parameter combinations *)

Lemma eq_for_each {S T : Type} (body1 body2 : S -> T -> outcome S)
    (ts : seq T) (st : S) :
  (forall st' t, body1 st' t = body2 st' t) ->
  for_each body1 ts st = for_each body2 ts st.
Proof.
move=> eq_body; elim: ts st => [|t ts IH] st //=.
by rewrite eq_body; case: (body2 st t).
Qed.

Lemma eq_in_for_each {S : Type} {T : eqType} (body1 body2 : S -> T -> outcome S)
    (ts : seq T) (st : S) :
  {in ts, forall t st', body1 st' t = body2 st' t} ->
  for_each body1 ts st = for_each body2 ts st.
Proof.
elim: ts st => [|t ts IH] st //= eq_body.
rewrite eq_body ?mem_head //; case: (body2 st t) => //= st'.
by apply: IH => t' t'_in; apply: eq_body; rewrite in_cons t'_in orbT.
Qed.

Section CombinationFacts.

Variable V : Type.

Implicit Types (d : py_dict V) (params : seq string).

Lemma list_item_nth {T : Type} (x0 : T) (l : seq T) i :
  (i < size l)%N -> list_item l i = Returned (nth x0 l i).
Proof. by move=> lt_i; rewrite /list_item (drop_nth x0 lt_i). Qed.

Lemma list_item_oversize {T : Type} (l : seq T) i :
  (size l <= i)%N -> list_item l i = Raised IndexError.
Proof. by move=> le_i; rewrite /list_item drop_oversize. Qed.

(** A loop over the positions of a list that reads the item at each. *)
Lemma for_each_positions {S T : Type} (f : S -> T -> S) (l : seq T) (acc : S) :
  for_each (fun st j => x <- list_item l j ;; Returned (f st x))
    (range (size l)) acc
  = Returned (foldl f acc l).
Proof.
suff loop k : (k <= size l)%N ->
    for_each (fun st j => x <- list_item l j ;; Returned (f st x)) (range k) acc
    = Returned (foldl f acc (take k l)).
  by rewrite loop // take_size.
elim: k => [|k IH] lt_k; first by rewrite take0.
case: l lt_k IH => [|x0 l] // lt_k IH.
rewrite range_rcons for_each_rcons IH 1?ltnW // bind_Returned.
by rewrite (list_item_nth x0 lt_k) bind_Returned (take_nth x0 lt_k) -cats1 foldl_cat.
Qed.

Lemma foldl_rcons_map {A B : Type} (h : A -> B) (l : seq A) (acc : seq B) :
  foldl (fun combs x => rcons combs (h x)) acc l = acc ++ [seq h x | x <- l].
Proof.
elim: l acc => [|x l IH] acc /=; first by rewrite cats0.
by rewrite IH -cats1 -catA.
Qed.

(** The loop of the one parameter case. *)
Lemma single_loop (values : seq V) :
  for_each (fun combinations val => Returned (rcons combinations [:: val]))
    values [::]
  = Returned [seq [:: v] | v <- values].
Proof.
have loop acc :
    for_each (fun combinations val => Returned (rcons combinations [:: val]))
      values acc
    = Returned (acc ++ [seq [:: v] | v <- values]).
  elim: values acc => [|v values IH] acc /=; first by rewrite cats0.
  by rewrite IH -cats1 -catA.
by rewrite loop.
Qed.

(** The two nested loops of the general case. *)
Lemma nested_loops (values : seq V) (rest : seq (seq V)) :
  for_each (fun combinations i =>
      for_each (fun combinations j =>
          v <- list_item values i ;;
          c <- list_item rest j ;;
          let list_obj := [:: v] in
          let list_obj := list_obj ++ c in
          Returned (rcons combinations list_obj))
        (range (size rest)) combinations)
    (range (size values)) [::]
  = Returned [seq v :: c | v <- values, c <- rest].
Proof.
pose outer v (combinations : seq (seq V)) :=
  combinations ++ [seq v :: c | c <- rest].
transitivity
  (for_each (fun st i => v <- list_item values i ;; Returned (outer v st))
     (range (size values)) [::]).
  apply: eq_in_for_each => i; rewrite mem_iota add0n /= => lt_i acc.
  case: values lt_i => [|v0 values] // lt_i.
  rewrite (list_item_nth v0 lt_i) bind_Returned.
  under eq_for_each => st j do rewrite bind_Returned /=.
  rewrite (for_each_positions (fun st c => rcons st (nth v0 (v0 :: values) i :: c))).
  by rewrite foldl_rcons_map.
rewrite (for_each_positions (fun st v => outer v st)).
have fold acc :
    foldl (fun st v => outer v st) acc values
    = acc ++ [seq v :: c | v <- values, c <- rest].
  elim: values acc => [|v values IH] acc /=; first by rewrite cats0.
  by rewrite IH /outer catA.
by rewrite fold.
Qed.

Lemma allpairs_nil1 (values : seq V) :
  [seq v :: c | v <- values, c <- [:: [::]]] = [seq [:: v] | v <- values].
Proof. by elim: values => [|v values IH] //=; rewrite -IH. Qed.

Lemma generate_parameter_combinations_more d (view : bool) p p' params :
  generate_parameter_combinations d view [:: p, p' & params]
  = (rest <- generate_parameter_combinations d false (p' :: params) ;;
     values <- dict_get d p ;;
     for_each (fun combinations i =>
         for_each (fun combinations j =>
             v <- list_item values i ;;
             c <- list_item rest j ;;
             let list_obj := [:: v] in
             let list_obj := list_obj ++ c in
             Returned (rcons combinations list_obj))
           (range (size rest)) combinations)
       (range (size values)) [::]).
Proof. by []. Qed.

(** [generate_parameter_combinations] on a list of names that the dict
    knows returns the cartesian product of their candidate lists; a
    [dict_keys] view gives the same when it has two names or more. *)
Lemma generate_parameter_combinations_cartesian d (view : bool) params :
  all (fun p => returns (dict_get d p)) params ->
  (if view then 1 < size params else 0 < size params)%N ->
  generate_parameter_combinations d view params
  = Returned (cartesian_product [seq dict_values d p | p <- params]).
Proof.
elim: params view => [|p params IH] view; first by case: view.
case: params IH => [|p' params] IH.
  case: view => //= /andP[+ _] _; rewrite /dict_values.
  case: (dict_get d p) => // values _.
  by rewrite bind_Returned single_loop allpairs_nil1.
rewrite generate_parameter_combinations_more => /andP[ret_p ret_params] _.
rewrite (IH false) // bind_Returned.
have -> : cartesian_product [seq dict_values d p0 | p0 <- [:: p, p' & params]]
          = [seq v :: c | v <- dict_values d p,
                          c <- cartesian_product
                                 [seq dict_values d p0 | p0 <- p' :: params]].
  by [].
move: (cartesian_product _) => rest; rewrite /dict_values.
by case: (dict_get d p) ret_p => // values _; rewrite bind_Returned nested_loops.
Qed.

(** As many combinations as the product of the lengths of the lists. *)
Lemma size_cartesian_product (lists : seq (seq V)) :
  size (cartesian_product lists) = (\prod_(l <- lists) size l)%N.
Proof.
elim: lists => [|l lists IH] /=; first by rewrite big_nil.
by rewrite big_cons size_allpairs IH.
Qed.

(** The first list varies slowest: the combinations come in blocks, one per
    candidate of the first list, and a block runs through the combinations of
    the other lists in their order. *)
Lemma nth_cartesian_product (l : seq V) (lists : seq (seq V)) (v0 : V) i j :
  (i < size l)%N -> (j < size (cartesian_product lists))%N ->
  nth [::] (cartesian_product (l :: lists))
      (i * size (cartesian_product lists) + j)
  = nth v0 l i :: nth [::] (cartesian_product lists) j.
Proof.
rewrite /=; move: (cartesian_product lists) => rest.
elim: l i => [|v l IH] i //=; rewrite nth_cat size_map.
case: i => [|i] lt_i lt_j; first by rewrite mul0n add0n lt_j (nth_map [::]).
rewrite mulSn -addnA ltnNge leq_addr /= addKn.
exact: IH.
Qed.

End CombinationFacts.

(** ** Grid search *)

Section GridSearchFacts.

Variable R : archiRealFieldType.
Variable rng : Type.
Variable np_random_rand : forall r c : nat, rng -> 'M[R]_(r, c) * rng.
Variable eig_abs : forall N : nat, 'M[R]_N -> seq R.
Variable np_tanh : R -> R.
Variable np_arctanh : R -> R.
Variable linalg_pinv : forall m n : nat, 'M[R]_(m, n) -> 'M[R]_(n, m).
Variables inputs outputs : nat.
Variable mean_squared_error : frame R outputs -> frame R outputs -> R.
Variable accuracy : frame R outputs -> seq nat -> R.
Variable float_mul : R -> R -> R.

Implicit Types (train_X test_X : frame R inputs).
Implicit Types (train_y test_y : frame R outputs).
Implicit Types (error : string) (g : rng) (comb : seq (pyval R)).

Let step := gridsearch_step np_random_rand eig_abs np_tanh np_arctanh
              linalg_pinv (inputs := inputs) mean_squared_error accuracy.
Let scores_of := validation_scores np_random_rand eig_abs np_tanh np_arctanh
                   linalg_pinv (inputs := inputs) mean_squared_error accuracy.
Let gridsearch := gridsearch_reservoir_computing np_random_rand eig_abs np_tanh
                    np_arctanh linalg_pinv (inputs := inputs)
                    mean_squared_error accuracy float_mul.
Let no_gridsearch := @reservoir_computing_no_gridsearch R rng np_random_rand
                       eig_abs np_tanh np_arctanh linalg_pinv inputs outputs.

(** The grid, written out. *)
Lemma gridE :
  grid R
  = [:: [:: PyFloat (6%:R / 10%:R); PyInt R 400];
        [:: PyFloat (6%:R / 10%:R); PyInt R 700];
        [:: PyFloat (6%:R / 10%:R); PyInt R 1000];
        [:: PyFloat (8%:R / 10%:R); PyInt R 400];
        [:: PyFloat (8%:R / 10%:R); PyInt R 700];
        [:: PyFloat (8%:R / 10%:R); PyInt R 1000]].
Proof. by []. Qed.

Lemma tuned_combinations :
  generate_parameter_combinations (tuned_parameters R) true
    (dict_keys (tuned_parameters R))
  = Returned (grid R).
Proof. exact: generate_parameter_combinations_cartesian. Qed.

(** *** Strict improvement *)

Lemma improves_irrefl error (x : R) : improves error x x = false.
Proof. by rewrite /improves; case: ifP; rewrite ltxx. Qed.

Lemma improves_trans error (y x z : R) :
  improves error x y -> improves error y z -> improves error x z.
Proof.
rewrite /improves; case: ifP => _; first exact: lt_trans.
by move=> lt_yx lt_zy; apply: lt_trans lt_yx.
Qed.


(** Scores that do not improve on the incumbent leave it in place. *)
Lemma select_best_stable error (best : R) comb
    (scored : seq (seq (pyval R) * R)) :
  all (fun cs => ~~ improves error cs.2 best) scored ->
  select_best error best comb scored = (best, comb).
Proof.
elim: scored => [|[c s] scored IH] //= /andP[/negbTE -> no_imp].
exact: IH.
Qed.


(** A combination is selected only if some score improves on the initial
    one. *)
Lemma select_best_changed error (best : R) comb
    (scored : seq (seq (pyval R) * R)) :
  (select_best error best comb scored).2 = comb
  \/ has (fun cs => improves error cs.2 best) scored.
Proof.
elim: scored best comb => [|[c s] scored IH] best comb /=; first by left.
case: ifP => [imp_s|_]; first by right.
by case: (IH best comb) => [->|->]; [left | right; rewrite orbT].
Qed.

(** *** The loop *)

Lemma size_validation_scores train_X train_y test_X test_y pts error
    (combs : seq (seq (pyval R))) g scores g' :
  scores_of train_X train_y test_X test_y pts error combs g
    = Returned (scores, g') ->
  size scores = size combs.
Proof.
elim: combs g scores => [|comb combs IH] g scores /=; first by case=> <-.
case: (list_item comb _) => [rs|e] //=; case: (list_item comb _) => [a|e] //=.
case: (reservoir_computing_no_gridsearch _ _ _ _ _ _ _ _ _ _ _ _ _)
  => [[[[[p1 p2] p3] p4] g1]|e] //=.
case E: (scores_of _ _ _ _ _ _ _ _) => [[rest g2]|e] //=.
by case=> <- eq_g /=; rewrite eq_g in E; rewrite (IH _ _ E).
Qed.

(** With a known metric the loop keeps the selection over the scores. *)
Lemma gridsearch_loop train_X train_y test_X test_y pts error
    (combs : seq (seq (pyval R))) (best : R) comb g :
  (error == "mse"%string) || (error == "accuracy"%string) ->
  for_each (step train_X train_y test_X test_y pts error) combs
    (Some best, comb, g)
  = (res <- scores_of train_X train_y test_X test_y pts error combs g ;;
     let sel := select_best error best comb (zip combs res.1) in
     Returned (Some sel.1, sel.2, res.2)).
Proof.
move=> known; elim: combs best comb g => [|c combs IH] best comb g //=.
case: (list_item c _) => [rs|e] //=; case: (list_item c _) => [a|e] //=.
case: (reservoir_computing_no_gridsearch _ _ _ _ _ _ _ _ _ _ _ _ _)
  => [[[[[p1 p2] p3] p4] g1]|e] //=.
case: ifP known => [is_mse _|not_mse /= ->].
  by case: ifP => lt_best; rewrite /= IH;
    case: (scores_of _ _ _ _ _ _ _ _) => [[rest g2]|e] //=;
    rewrite /improves is_mse lt_best.
by case: ifP => lt_best; rewrite /= IH;
  case: (scores_of _ _ _ _ _ _ _ _) => [[rest g2]|e] //=;
  rewrite /improves not_mse lt_best.
Qed.

(** With any other metric name the loop scores nothing and keeps the empty
    combination. *)
Lemma gridsearch_loop_unknown train_X train_y test_X test_y pts error
    (combs : seq (seq (pyval R))) comb g :
  (error == "mse"%string) || (error == "accuracy"%string) = false ->
  for_each (step train_X train_y test_X test_y pts error) combs
    (None, comb, g)
  = (res <- scores_of train_X train_y test_X test_y pts error combs g ;;
     Returned (None, comb, res.2)).
Proof.
case/norP=> /negbTE not_mse /negbTE not_acc.
elim: combs g => [|c combs IH] g //=.
case: (list_item c _) => [rs|e] //=; case: (list_item c _) => [a|e] //=.
case: (reservoir_computing_no_gridsearch _ _ _ _ _ _ _ _ _ _ _ _ _)
  => [[[[[p1 p2] p3] p4] g1]|e] //=.
rewrite not_mse not_acc /= IH.
by case: (scores_of _ _ _ _ _ _ _ _) => [[rest g2]|e].
Qed.

(** *** The search *)

Lemma py_int_ge0 (x : R) : 0 <= x -> py_int x = Posz `|Num.floor x|.
Proof. by move=> x_ge0; rewrite /py_int x_ge0 gez0_abs // floor_ge0. Qed.

Lemma best_pair_nil : best_pair [::] = Raised IndexError :> outcome (pyval R * pyval R).
Proof. by []. Qed.

Lemma initial_best_error_known error :
  (error == "mse"%string) || (error == "accuracy"%string)
  = (initial_best_error R error : bool).
Proof.
rewrite /initial_best_error; case: (error == "mse"%string) => //=.
by case: (error == "accuracy"%string).
Qed.

(** The search is the selection over the validation scores of the grid,
    followed by the final indexing. *)
Lemma gridsearchE train_X train_y pts error (frac : R) g :
  gridsearch train_X train_y pts error frac g
  = (res <- scores_of (iloc_rows train_X 0 (py_int (float_mul frac (size train_X)%:R)))
              (iloc_rows train_y 0 (py_int (float_mul frac (size train_X)%:R)))
              (iloc_rows train_X (py_int (float_mul frac (size train_X)%:R))
                 (Posz (size train_X)))
              (iloc_rows train_y (py_int (float_mul frac (size train_X)%:R))
                 (Posz (size train_X)))
              pts error (grid R) g ;;
     pair <- best_pair
               (if initial_best_error R error is Some best
                then (select_best error best [::] (zip (grid R) res.1)).2
                else [::]) ;;
     Returned (pair.1, pair.2, res.2)).
Proof.
rewrite /gridsearch /gridsearch_reservoir_computing tuned_combinations.
rewrite bind_Returned -/(initial_best_error R error) -/step.
have := initial_best_error_known error.
case: (initial_best_error R error) => [best|] known.
  rewrite gridsearch_loop //.
  case: (scores_of _ _ _ _ _ _ _ _) => [[scores g']|e] //.
  rewrite !bind_Returned; move: (select_best _ _ _ _) => [b c].
  rewrite /best_pair /=.
  by do 2![case: (list_item c _) => [?|?] //=].
rewrite gridsearch_loop_unknown //.
by case: (scores_of _ _ _ _ _ _ _ _) => [[scores g']|e].
Qed.

Lemma eq_bind {A B : Type} (c : outcome A) (k1 k2 : A -> outcome B) :
  (forall x, k1 x = k2 x) -> bind c k1 = bind c k2.
Proof. by move=> eq_k; case: c. Qed.

Lemma has_zip_snd {A B : Type} (p : pred B) (s : seq A) (t : seq B) :
  has (fun ab => p ab.2) (zip s t) -> has p t.
Proof.
elim: s t => [|x s IH] [|y t] //= /orP[->|/IH ->] //.
by rewrite orbT.
Qed.

Lemma best_pair_grid i :
  (i < size (grid R))%N ->
  exists a reservoir_size,
    nth [::] (grid R) i = [:: a; reservoir_size]
    /\ best_pair (nth [::] (grid R) i) = Returned (reservoir_size, a).
Proof.
rewrite gridE; do 6![case: i => [_|i]; first by eexists; eexists].
by [].
Qed.

(** A pass of the validation scores on a combination of a leak rate and an
    integer reservoir size: [reservoir_computing] without grid search is run
    on the four tables with these two values, and the score is the mean
    squared error of its numerical predictions for the validation rows, or
    the accuracy of its labels for them, against the validation targets. *)
Lemma validation_scores_cons train_X train_y test_X test_y pts error
    (a : R) (N : nat) (combs : seq (seq (pyval R))) g :
  scores_of train_X train_y test_X test_y pts error
    ([:: PyFloat a; PyInt R N] :: combs) g
  = (pred <- reservoir_computing_body np_random_rand eig_abs np_tanh
               np_arctanh linalg_pinv train_X train_y test_X test_y N a pts
               g ;;
     let: (pred_train_y, pred_test_y, pred_train_y_prob, pred_test_y_prob,
           g1) := pred in
     rest <- scores_of train_X train_y test_X test_y pts error combs g1 ;;
     Returned ((if error == "mse"%string
                then mean_squared_error test_y pred_test_y_prob
                else accuracy test_y pred_test_y) :: rest.1, rest.2)).
Proof. by []. Qed.

(** C6: the search evaluates the combinations that
    [generate_parameter_combinations] returns, which are the cartesian
    product of the candidate lists: as many as the product of the lengths,
    the first parameter varying slowest.  When the rounded product
    [gridsearch_training_frac * n] is not negative, every combination is
    trained on the first [k = int(gridsearch_training_frac * n)] rows of the
    training data and scored on the rows from [k] up to [n], in their order:
    for each combination in turn, [reservoir_computing] without grid search
    is run with the first [k] rows as its training tables and the other rows
    as its test tables, its predictions for the test tables are scored
    against the targets of these rows, and the search returns the selection
    over these scores. *)
Theorem gridsearch_grid_and_split train_X train_y pts error (frac : R) g :
  0 <= float_mul frac (size train_X)%:R ->
  let n := size train_X in
  let k := `|Num.floor (float_mul frac n%:R)|%N in
  let a_values := dict_values (tuned_parameters R) "a" in
  let size_values := dict_values (tuned_parameters R) "reservoir_size" in
  let combinations := cartesian_product [:: a_values; size_values] in
  let train_params_X := take k train_X in
  let train_params_y := take k train_y in
  let test_params_X := drop k train_X in
  let test_params_y := drop k (take n train_y) in
  [/\ py_int (float_mul frac n%:R) = Posz k,
      generate_parameter_combinations (tuned_parameters R) true
        (dict_keys (tuned_parameters R))
      = Returned combinations
      /\ size combinations = (size a_values * size size_values)%N,
      forall i j, (i < size a_values)%N -> (j < size size_values)%N ->
        nth [::] combinations (i * size size_values + j)
        = [:: nth (PyInt R 0) a_values i; nth (PyInt R 0) size_values j],
      gridsearch train_X train_y pts error frac g
      = (res <- scores_of train_params_X train_params_y test_params_X
                  test_params_y pts error combinations g ;;
         pair <- best_pair
                   (if initial_best_error R error is Some best
                    then (select_best error best [::]
                            (zip combinations res.1)).2
                    else [::]) ;;
         Returned (pair.1, pair.2, res.2))
    & forall (a : R) (N : nat) (combs : seq (seq (pyval R))) g0,
        scores_of train_params_X train_params_y test_params_X test_params_y
          pts error ([:: PyFloat a; PyInt R N] :: combs) g0
        = (pred <- reservoir_computing_body np_random_rand eig_abs np_tanh
                     np_arctanh linalg_pinv train_params_X train_params_y
                     test_params_X test_params_y N a pts g0 ;;
           let: (pred_train_y, pred_test_y, pred_train_y_prob,
                 pred_test_y_prob, g1) := pred in
           rest <- scores_of train_params_X train_params_y test_params_X
                     test_params_y pts error combs g1 ;;
           Returned ((if error == "mse"%string
                      then mean_squared_error test_params_y pred_test_y_prob
                      else accuracy test_params_y pred_test_y) :: rest.1,
                     rest.2))].
Proof.
move=> prod_ge0 n k a_values size_values combinations.
move=> train_params_X train_params_y test_params_X test_params_y.
have int_k : py_int (float_mul frac n%:R) = Posz k by rewrite py_int_ge0.
split.
- exact: int_k.
- by rewrite tuned_combinations.
- by move=> [|[|i]] // [|[|[|j]]].
- rewrite gridsearchE -/n int_k !iloc_rows_upto iloc_rows_from.
  by rewrite iloc_rows_pos.
by move=> a N combs g0; apply: validation_scores_cons.
Qed.


(** C9: the search returns a pair only when some validation score strictly
    improves on the initial one.  A metric name other than mse and accuracy
    has no initial score; the search raises, and when every run went through
    the loop ends with the empty [best_combination] and the final indexing
    raises an IndexError.  With the accuracy metric and all accuracies 0 the
    loop ends with the empty [best_combination] and the final indexing raises
    an IndexError as well. *)
Theorem gridsearch_without_improvement train_X train_y pts error (frac : R) g :
  let sp := py_int (float_mul frac (size train_X)%:R) in
  let n := Posz (size train_X) in
  let split_scores error :=
    scores_of (iloc_rows train_X 0 sp) (iloc_rows train_y 0 sp)
      (iloc_rows train_X sp n) (iloc_rows train_y sp n) pts error (grid R) g in
  let loop error :=
    for_each (step (iloc_rows train_X 0 sp) (iloc_rows train_y 0 sp)
                (iloc_rows train_X sp n) (iloc_rows train_y sp n) pts error)
      (grid R) (initial_best_error R error, [::], g) in
  [/\ (error == "mse"%string) || (error == "accuracy"%string) = false ->
      [/\ initial_best_error R error = None,
          raises (gridsearch train_X train_y pts error frac g)
        & forall scores g',
            split_scores error = Returned (scores, g') ->
            loop error = Returned (None, [::], g')
            /\ gridsearch train_X train_y pts error frac g
               = Raised IndexError],
      forall scores g',
        split_scores "accuracy"%string = Returned (scores, g') ->
        all (fun s => s == 0) scores ->
        loop "accuracy"%string = Returned (Some 0, [::], g')
        /\ gridsearch train_X train_y pts "accuracy" frac g
           = Raised IndexError
    & forall reservoir_size a g',
        gridsearch train_X train_y pts error frac g
        = Returned (reservoir_size, a, g') ->
        exists best scores,
          [/\ initial_best_error R error = Some best,
              split_scores error = Returned (scores, g')
            & has (fun s => improves error s best) scores]].
Proof.
move=> sp n split_scores loop; split.
- move=> unknown; have := initial_best_error_known error.
  rewrite /loop unknown gridsearchE -/sp -/n -/(split_scores error).
  case: (initial_best_error R error) => // _.
  rewrite gridsearch_loop_unknown // -/(split_scores error).
  split=> //; first by case: (split_scores error) => [[scores g']|e].
  by move=> scores g' ->.
- move=> scores g' eq_scores all0.
  have stable : select_best "accuracy" 0 [::] (zip (grid R) scores)
                = (0, [::]).
    apply: select_best_stable.
    apply/(all_nthP ([::], 0)) => j; rewrite size_zip => lt_j.
    rewrite nth_zip ?(size_validation_scores eq_scores) //= /improves /=.
    have /(all_nthP 0)/(_ j) := all0.
    by move=> /(_ (leq_trans lt_j (geq_minr _ _)))/eqP ->; rewrite ltxx.
  have init_acc : initial_best_error R "accuracy" = Some 0 by [].
  rewrite /loop gridsearchE -/sp -/n -/(split_scores _) init_acc.
  rewrite gridsearch_loop // -/(split_scores _) eq_scores !bind_Returned.
  by rewrite [(scores, g').1]/= stable.
move=> reservoir_size a g'.
rewrite gridsearchE -/sp -/n -/(split_scores error).
case: (split_scores error) => [[scores g'']|e] //; rewrite bind_Returned.
case: (initial_best_error R error) => [best|] //.
have [->|has_imp] := select_best_changed error best [::] (zip (grid R) scores).
  by [].
case: (best_pair _) => [[rs' a']|e] //= [_ _ <-].
by exists best, scores; split=> //; apply: has_zip_snd has_imp.
Qed.

(** C10: with fewer than ten training rows [reservoir_computing] returns
    nothing.  The allocation of the result matrix raises a ValueError,
    whatever the weights; the call raises, and the exception is that
    ValueError whenever the grid search is on or the reservoir size is an
    integer. *)
Theorem reservoir_computing_short_training train_X train_y test_X test_y
    (reservoir_size a : pyval R) (per_time_step gridsearch_on : bool)
    (frac : R) error g :
  (size train_X < 10)%N ->
  let call :=
    reservoir_computing np_random_rand eig_abs np_tanh np_arctanh linalg_pinv
      mean_squared_error accuracy float_mul train_X train_y test_X test_y
      reservoir_size a per_time_step gridsearch_on frac error g in
  [/\ forall (N : nat) (a' : R) (Win : 'M[R]_(N, 1 + inputs)) W
             (Wback : 'M[R]_(N, outputs)) new_train_X new_train_y,
        train_output_weights np_tanh np_arctanh linalg_pinv Win W Wback a' 10
          (size train_X) new_train_X new_train_y = Raised ValueError,
      raises call
    & gridsearch_on || (if reservoir_size is PyInt _ then true else false) ->
      call = Raised ValueError].
Proof.
move=> lt10 call.
have grid_raises : gridsearch train_X train_y per_time_step error frac g
                   = Raised ValueError.
  rewrite gridsearchE gridE /= reservoir_computing_body_short //.
  exact: leq_ltn_trans (size_iloc_rows _ _ _) lt10.
have call_gs : gridsearch_on -> call = Raised ValueError.
  by rewrite /call /reservoir_computing => ->; rewrite -/gridsearch grid_raises.
have call_int N : ~~ gridsearch_on -> reservoir_size = PyInt R N ->
    call = Raised ValueError.
  rewrite /call /reservoir_computing => /negbTE -> -> /=.
  by rewrite reservoir_computing_body_short.
split.
- by move=> *; apply: train_output_weights_short.
- case gs: gridsearch_on; first by rewrite call_gs.
  case: reservoir_size @call call_gs call_int => [x|N] call _ call_int.
    by rewrite /call /reservoir_computing gs.
  by rewrite (call_int N) ?gs.
case gs: gridsearch_on => /=; first by move=> _; apply: call_gs.
by case: reservoir_size @call call_gs call_int => // N call _ call_int _;
   apply: (call_int N); rewrite ?gs.
Qed.

(** *** Runs that go through *)

Lemma py_int_nat (k : nat) : py_int (k%:R : R) = Posz k.
Proof.
by rewrite py_int_ge0 ?ler0n // -[k%:R]/((Posz k)%:~R) intrKfloor.
Qed.

(** The scores exist when every run of the loop returns: at least one
    target column, a training part of more than ten rows, as many target
    rows, the validation targets that the per time step mode reads, and an
    [eig] that finds eigenvalues. *)
Lemma validation_scores_return train_X train_y test_X test_y (pts : bool)
    error (combs : seq (seq (pyval R))) g :
  (0 < outputs)%N ->
  (10 < size train_X)%N -> size train_y = size train_X ->
  (pts -> (size test_X <= (size test_y).+1)%N) ->
  (forall (N : nat) (W : 'M[R]_N), eig_abs W != [::]) ->
  all (fun comb : seq (pyval R) =>
         if comb is [:: _; PyInt _] then true else false) combs ->
  returns (scores_of train_X train_y test_X test_y pts error combs g).
Proof.
move=> gt0 lt10 eq_size le_test eig_ok.
elim: combs g => [|[|a [|[x|N] [|? ?]]] combs IH] g //= /IH {}IH.
have := reservoir_computing_body_returns np_tanh np_arctanh linalg_pinv
          (py_number a) (reservoir_size := N) (g := g) gt0 lt10 eq_size
          le_test.
move=> /(_ np_random_rand eig_abs); rewrite initialize_returns eig_ok.
move=> /(_ isT).
case: (reservoir_computing_body _ _ _ _ _ _ _ _ _ _ _ _ _)
  => [[[[[p1 p2] p3] p4] g1]|e] //= _.
by move: (IH g1); case: (scores_of _ _ _ _ _ _ _ _).
Qed.

(** Constant scorers give constant scores. *)
Lemma validation_scores_const (c : R) train_X train_y test_X test_y pts error
    (combs : seq (seq (pyval R))) g scores g' :
  (forall y p, mean_squared_error y p = c) ->
  (forall y p, accuracy y p = c) ->
  scores_of train_X train_y test_X test_y pts error combs g
    = Returned (scores, g') ->
  scores = nseq (size combs) c.
Proof.
move=> mse_c acc_c; elim: combs g scores => [|comb combs IH] g scores /=.
  by case=> <-.
case: (list_item comb _) => [rs|e] //=; case: (list_item comb _) => [a|e] //=.
case: (reservoir_computing_no_gridsearch _ _ _ _ _ _ _ _ _ _ _ _ _)
  => [[[[[p1 p2] p3] p4] g1]|e] //=.
case E: (scores_of _ _ _ _ _ _ _ _) => [[rest g2]|e] //=.
case=> <- eq_g /=; rewrite eq_g in E; rewrite (IH _ _ E) mse_c acc_c.
by case: ifP.
Qed.

End GridSearchFacts.

(** * Further properties of the code *)

(** ** Slices and the tables of a split *)

Section SplitFacts.

Variable F : numFieldType.
Variable m : nat.

Implicit Types (df train test : frame F m).

Lemma slice_bound_le n i : (slice_bound n i <= n)%N.
Proof. by case: i => k /=; [apply: geq_minr | apply: leq_subr]. Qed.

(** X1: on tables of numeric columns [create_numerical_multiple_dataset]
    gives the two tables back: appending train and test and cutting the
    result at [len(train.index)] loses no row, duplicates none and keeps the
    order, also when one of the tables has no rows. *)
Theorem create_numerical_multiple_dataset_split train test :
  let: (new_train, new_test) := create_numerical_multiple_dataset train test in
  [/\ new_train = train, new_test = test
    & new_train ++ new_test = create_numerical_single_dataset (train ++ test)].
Proof.
rewrite /create_numerical_multiple_dataset /create_numerical_single_dataset.
rewrite /get_dummies iloc_rows_upto take_size_cat //.
rewrite -size_cat iloc_rows_from drop_size_cat //.
Qed.

End SplitFacts.

(** ** The range of the scaled values *)

Section NormalizeRange.

Variable R : realFieldType.
Variable m : nat.

Implicit Types (train test df : frame R m) (r : 'rV[R]_m) (j : 'I_m).

(** The extremes of a table are in order; a table without rows has both
    at 0. *)
Lemma frame_min_le_max df j : frame_min df 0 j <= frame_max df 0 j.
Proof.
case: df => [|r df]; first by rewrite !mxE.
have /andP[le1 le2] := @frame_min_max _ _ (r :: df) r j (mem_head _ _).
exact: le_trans le1 le2.
Qed.

Lemma sub_rowE (u v : 'rV[R]_m) j : (u - v) 0 j = u 0 j - v 0 j.
Proof. by rewrite !mxE. Qed.

(** The divisor of [normalize] is positive. *)
Lemma divisor_gt0 df j : 0 < replace_0_1 (frame_max df - frame_min df) 0 j.
Proof.
rewrite mxE; case: ifP => [_|/negbT neq0]; first exact: ltr01.
by rewrite lt_def neq0 sub_rowE subr_ge0 frame_min_le_max.
Qed.

Lemma divisor_ge df r j :
  r \in df ->
  r 0 j - frame_min df 0 j <= replace_0_1 (frame_max df - frame_min df) 0 j.
Proof.
move=> /(frame_min_max j) /andP[le1 le2]; rewrite [leRHS]mxE sub_rowE.
case: ifP => [/eqP /subr0_eq eq_mx|_]; last by rewrite lerD2r.
by rewrite (le_trans _ ler01) // subr_le0 -eq_mx.
Qed.

Lemma scale_rowE (minimum difference : 'rV[R]_m) (range_min range_max : R)
    r j :
  scale_row minimum difference range_min range_max r 0 j
  = (r 0 j - minimum 0 j) / difference 0 j * (range_max - range_min)
    + range_min.
Proof. by rewrite mxE. Qed.

(** The scaled value of a row of the table, as a point between the two
    range bounds. *)
Lemma scale_row_in_range df r j (range_min range_max : R) :
  range_min <= range_max -> r \in df ->
  range_min
  <= scale_row (frame_min df) (replace_0_1 (frame_max df - frame_min df))
       range_min range_max r 0 j
  <= range_max.
Proof.
move=> le_range r_df; rewrite scale_rowE.
have d_gt0 := divisor_gt0 df j; have le_d := divisor_ge j r_df.
have /andP[le_min _] := frame_min_max j r_df.
set q := (r 0 j - _) / _.
have q_ge0 : 0 <= q by rewrite divr_ge0 ?subr_ge0 // ltW.
have q_le1 : q <= 1 by rewrite ler_pdivrMr // mul1r.
have w_ge0 : 0 <= range_max - range_min by rewrite subr_ge0.
rewrite lerDr mulr_ge0 //= -lerBrDr.
by rewrite -[leRHS]mul1r ler_wpM2r.
Qed.

(** X2: when [range_min <= range_max], every value of the two tables that
    [normalize] returns lies between [range_min] and [range_max]: the
    minimum and maximum are taken over train and test together, so a test
    value outside the range of the training values is still inside. *)
Theorem normalize_in_range train test (range_min range_max : R) :
  range_min <= range_max ->
  let: (new_train, new_test, _, _) :=
    normalize train test range_min range_max in
  forall (r : 'rV[R]_m) j,
    r \in new_train ++ new_test -> range_min <= r 0 j <= range_max.
Proof.
move=> le_range; rewrite /normalize /= -map_cat => r j /mapP[r0 r0_in ->].
exact: scale_row_in_range.
Qed.

(** X3: for [range_min < range_max] the scaling keeps the order of the
    values of a column, and reflects it: of two rows of train or test, the
    one with the smaller value in column [j] has the smaller scaled value
    in column [j], and rows with equal values have equal scaled values. *)
Theorem normalize_monotone train test (range_min range_max : R)
    (i1 i2 : nat) (j : 'I_m) :
  range_min < range_max ->
  (i1 < size (train ++ test))%N -> (i2 < size (train ++ test))%N ->
  let: (new_train, new_test, _, _) :=
    normalize train test range_min range_max in
  (row_at (new_train ++ new_test) i1 0 j
     <= row_at (new_train ++ new_test) i2 0 j)
  = (row_at (train ++ test) i1 0 j <= row_at (train ++ test) i2 0 j).
Proof.
move=> lt_range lt1 lt2; rewrite /normalize /= -map_cat /row_at.
rewrite !(nth_map 0) // !scale_rowE lerD2r ler_pM2r ?subr_gt0 //.
by rewrite ler_pM2r ?invr_gt0 ?divisor_gt0 // lerD2r.
Qed.

(** X4: on tables with at least one row between them, the minimum and the
    maximum that [normalize] returns for a column are values of that column,
    the minimum is not above the maximum, a row with the minimum is scaled to
    [range_min] and, in a column whose values are not all equal, a row with
    the maximum is scaled to [range_max]. *)
Theorem normalize_extremes train test (range_min range_max : R) (j : 'I_m) :
  train ++ test != [::] ->
  let: (new_train, new_test, minimum, maximum) :=
    normalize train test range_min range_max in
  exists i_min i_max,
    [/\ (i_min < size (train ++ test))%N /\ (i_max < size (train ++ test))%N,
        row_at (train ++ test) i_min 0 j = minimum 0 j
        /\ row_at (train ++ test) i_max 0 j = maximum 0 j,
        minimum 0 j <= maximum 0 j,
        row_at (new_train ++ new_test) i_min 0 j = range_min
      & minimum 0 j != maximum 0 j ->
        row_at (new_train ++ new_test) i_max 0 j = range_max].
Proof.
move=> total_neq0; rewrite /normalize /= -map_cat.
set total := train ++ test in total_neq0 *.
have col_neq0 : column total j != [::] by rewrite /column; case: total total_neq0.
have := seq_min_mem col_neq0; have := seq_max_mem col_neq0.
case/(nthP 0)=> i_max; rewrite size_map => lt_max eq_max.
case/(nthP 0)=> i_min; rewrite size_map => lt_min eq_min.
have eq_min' : row_at total i_min 0 j = frame_min total 0 j.
  by rewrite [RHS]mxE -eq_min (nth_map 0).
have eq_max' : row_at total i_max 0 j = frame_max total 0 j.
  by rewrite [RHS]mxE -eq_max (nth_map 0).
exists i_min, i_max; split=> //; first exact: frame_min_le_max.
  by rewrite /row_at (nth_map 0) // scale_rowE -/(row_at _ _) eq_min' subrr !mul0r add0r.
move=> neq; rewrite /row_at (nth_map 0) // scale_rowE -/(row_at _ _) eq_max'.
have -> : replace_0_1 (frame_max total - frame_min total) 0 j
          = frame_max total 0 j - frame_min total 0 j.
  by rewrite mxE sub_rowE subr_eq0 eq_sym (negbTE neq).
by rewrite divff ?mul1r ?subrK // subr_eq0 eq_sym.
Qed.

End NormalizeRange.

Section DenormalizeFacts.

Variable F : numFieldType.
Variable m : nat.

Implicit Types (train test y : frame F m).

(** X5: [denormalize] undoes the scaling of the test table as well: with
    the minimum and maximum that [normalize] returned and the same two range
    bounds, different from one another, the scaled test table is mapped back
    to the test table, columns of zero range included. *)
Theorem denormalize_normalize_test train test (range_min range_max : F) :
  range_min <> range_max ->
  let: (_, new_test, minimum, maximum) :=
    normalize train test range_min range_max in
  denormalize new_test minimum maximum range_min range_max = test.
Proof.
move=> /eqP neq; rewrite /normalize /denormalize /= -map_comp.
have rn0 : range_max - range_min != 0 by rewrite subr_eq0 eq_sym.
rewrite -[RHS]map_id; apply: eq_map => r /=.
by apply: unscale_scale_row => // j; apply: replace_0_1_neq0.
Qed.

End DenormalizeFacts.

(** ** The two prediction modes *)

Lemma for_each_cons {S T : Type} (body : S -> T -> outcome S) (t : T)
    (ts : seq T) (st : S) :
  for_each body (t :: ts) st = (st' <- body st t ;; for_each body ts st').
Proof. by []. Qed.

Lemma range_split k n :
  (k < n)%N -> range n = range k ++ k :: iota k.+1 (n - k.+1).
Proof.
move=> lt_kn; rewrite /range -[in LHS](subnKC (ltnW lt_kn)) iotaD add0n.
by rewrite -(subnSK lt_kn).
Qed.

Section PredictModes.

Variable F : numFieldType.
Variable np_tanh : F -> F.
Variables inputs outputs reservoir_size : nat.
Variable Win : 'M[F]_(reservoir_size, 1 + inputs).
Variable W : 'M[F]_reservoir_size.
Variable Wback : 'M[F]_(reservoir_size, outputs).
Variable a : F.
Variable Wout : 'M[F]_(outputs, 1 + (inputs + reservoir_size)).

Implicit Types (X : frame F inputs) (y_true : frame F outputs).
Implicit Types (y_opt : option (frame F outputs)) (pts : bool).

Let predict := predict_values_echo_state_network np_tanh Win W Wback a Wout.
Let step := predict_step np_tanh Win W Wback a Wout.

(** A pass of the loop appends one row to [Y], and the loop one row per
    pass. *)
Lemma predict_step_append X y_opt pts st t st' :
  step X y_opt pts st t = Returned st' -> exists y, st'.2 = rcons st.2 y.
Proof.
case: st => [[x y] Y]; rewrite /step /predict_step.
case: (iloc_row X t) => [u|e] //=.
case: (if _ then _ else _) => [y_prev|e] //=.
by case: (np_vstack _) => [y_col|e] //= [<-]; eexists.
Qed.

Lemma predict_loop_append X y_opt pts ts st st' :
  for_each (step X y_opt pts) ts st = Returned st' ->
  exists2 Z, st'.2 = st.2 ++ Z & size Z = size ts.
Proof.
elim: ts st => [|t ts IH] st /=; first by case=> <-; exists [::]; rewrite ?cats0.
case E: (step _ _ _ st t) => [st1|e] //= /IH[Z -> sz].
have [y ->] := predict_step_append E.
by exists (y :: Z); rewrite ?cat_rcons //= sz.
Qed.

(** What a call that returns returns: the rows that the loop collected and
    their labels. *)
Lemma predict_rows X y_opt pts labels Y :
  predict X y_opt pts = Returned (labels, Y) ->
  size Y = size X /\ labels = [seq idxmax r | r <- Y].
Proof.
rewrite /predict /predict_values_echo_state_network.
case E: (for_each _ _ _) => [st|e] //= [<- <-]; split=> //.
by have [Z -> ->] := predict_loop_append E; rewrite size_range.
Qed.

(** X6: the shape of a prediction: whenever
    [predict_values_echo_state_network] returns, in either mode and with or
    without a table of true targets, the table of predictions and the list of
    labels have one entry per row of [X], and the labels are the [idxmax] of
    the rows of the table. *)
Theorem predict_shape X y_opt pts labels Y :
  predict X y_opt pts = Returned (labels, Y) ->
  [/\ size Y = size X, size labels = size X
    & labels = [seq idxmax r | r <- Y]].
Proof.
rewrite /predict /predict_values_echo_state_network.
case E: (for_each _ _ _) => [st|e] //= [<- <-].
have [Z -> sz] := predict_loop_append E.
by rewrite size_map /= sz size_range.
Qed.

(** In the free running mode a pass never looks at the table of true
    targets. *)
Lemma predict_step_free X y_opt st t :
  step X y_opt false st t = step X None false st t.
Proof. by []. Qed.

(** X7: the free running mode ([per_time_step=False]) never reads
    [y_true]: the call has the same outcome whatever is passed for [y_true],
    a table of any size or [None].  With at least one target column it never
    raises: the call returns for every table [X].  Without target columns
    the first pass has nothing to stack, and the call raises a ValueError on
    every table [X] with a row. *)
Theorem predict_free_running X y_opt :
  [/\ predict X y_opt false = predict X None false,
      (0 < outputs)%N -> returns (predict X y_opt false)
    & outputs = 0%N -> (0 < size X)%N ->
      predict X y_opt false = Raised ValueError].
Proof.
split; last exact: predict_no_columns.
  rewrite /predict /predict_values_echo_state_network.
  by rewrite (eq_for_each _ _ (predict_step_free X y_opt)).
move=> gt0; rewrite /predict /predict_values_echo_state_network.
have := predict_loop_free np_tanh Win W Wback a Wout y_opt (0, 0, [::]) gt0
          (all_range (size X)).
by case: (for_each _ _ _).
Qed.

(** The pass that reads a row of true targets past the end of the table. *)
Lemma predict_step_missing X y_true st :
  ((size y_true).+1 < size X)%N ->
  step X (Some y_true) true st (size y_true).+1 = Raised IndexError.
Proof.
case: st => [[x y] Y] lt_size; rewrite /step /predict_step.
by rewrite (iloc_row_lt lt_size) bind_Returned /= subn1 /iloc_row ltnn.
Qed.

(** X8: the outcome of the teacher forced mode ([per_time_step=True]) on a
    table of true targets with at least one column.  When [y_true] has at
    least as many rows as [X] but one, the call returns the predictions
    [tanh(W_out [1; u_t; x_t])] of the states driven by the true targets;
    otherwise it raises an IndexError, since the pass of time step [t] reads
    row [t - 1] of [y_true]. *)
Theorem predict_forced_outcome X y_true :
  (0 < outputs)%N ->
  predict X (Some y_true) true
  = if (size X <= (size y_true).+1)%N then
      let Y := [seq forced_prediction np_tanh Win W Wback a Wout
                      (row_at X) (row_at y_true) t | t <- range (size X)] in
      Returned ([seq idxmax r | r <- Y], Y)
    else Raised IndexError.
Proof.
move=> gt0; case: leqP => [le_size|lt_size].
  by rewrite /predict (predict_forced np_tanh Win W Wback a Wout gt0 le_size).
rewrite /predict /predict_values_echo_state_network.
rewrite (range_split lt_size) for_each_cat.
rewrite (predict_loop_forced np_tanh Win W Wback a Wout 0 gt0 (ltnW lt_size)
           (leqnn _)).
by rewrite bind_Returned for_each_cons -/(step X _ _) predict_step_missing.
Qed.

(** The passes over the first [k] time steps read the first [k] rows of
    [X] only. *)
Lemma predict_loop_take X y_opt pts k st :
  for_each (step (take k X) y_opt pts) (range k) st
  = for_each (step X y_opt pts) (range k) st.
Proof.
apply: eq_in_for_each => t; rewrite mem_iota add0n /= => lt_t [[x y] Y].
by rewrite /step /predict_step (iloc_row_take _ lt_t).
Qed.

(** X9: later inputs never change earlier predictions: when the call on
    [X] returns, the call on the first [k] rows of [X], in the same mode and
    with the same table of true targets, returns the first [k] labels and the
    first [k] rows of predictions. *)
Theorem predict_prefix X y_opt pts (k : nat) labels Y :
  predict X y_opt pts = Returned (labels, Y) ->
  predict (take k X) y_opt pts = Returned (take k labels, take k Y).
Proof.
case: (leqP (size X) k) => [le_k|/ltnW le_k].
  move=> eq; have [szY eq_labels] := predict_rows eq.
  by rewrite !take_oversize // ?eq_labels ?size_map szY.
rewrite /predict /predict_values_echo_state_network.
rewrite size_take_min (minn_idPl le_k) predict_loop_take.
have -> : range (size X) = range k ++ iota k (size X - k).
  by rewrite /range -iotaD subnKC.
rewrite for_each_cat.
case Ek: (for_each _ (range k) _) => [st_k|e] //; rewrite !bind_Returned.
case E: (for_each _ _ st_k) => [st|e] //= [<- <-].
have [Zk eq_k sz_k] := predict_loop_append Ek.
have [Z -> _] := predict_loop_append E.
by rewrite -map_take take_size_cat // eq_k /= sz_k size_range.
Qed.

End PredictModes.

(** ** The labels of a prediction *)

Section LabelFacts.

Variable R : realFieldType.
Variable np_tanh : R -> R.
Variables inputs outputs reservoir_size : nat.
Variable Win : 'M[R]_(reservoir_size, 1 + inputs).
Variable W : 'M[R]_reservoir_size.
Variable Wback : 'M[R]_(reservoir_size, outputs).
Variable a : R.
Variable Wout : 'M[R]_(outputs, 1 + (inputs + reservoir_size)).

Let predict := predict_values_echo_state_network np_tanh Win W Wback a Wout.

Lemma row_values_nth (m : nat) (r : 'rV[R]_m) (j : 'I_m) :
  nth 0 [seq r 0 k | k <- enum 'I_m] j = r 0 j.
Proof. by rewrite (nth_map j) ?size_enum_ord // nth_ord_enum. Qed.

(** [idxmax] of a row with at least one column: a column of the row, that
    holds a largest value, and the first such column. *)
Lemma idxmaxP (m : nat) (r : 'rV[R]_m) (j : 'I_m) :
  exists l : 'I_m,
    [/\ idxmax r = l, r 0 j <= r 0 l & (j < l)%N -> r 0 j < r 0 l].
Proof.
rewrite /idxmax; set values := [seq _ | k <- _].
have sz : size values = m by rewrite size_map size_enum_ord.
have values_neq0 : values != [::] by rewrite -size_eq0 sz -lt0n (leq_ltn_trans _ (ltn_ord j)).
have max_in := seq_max_mem values_neq0.
have lt_l : (index (seq_max values) values < m)%N by rewrite -sz index_mem.
have eq_l : r 0 (Ordinal lt_l) = seq_max values.
  by rewrite -row_values_nth /= nth_index.
have j_in : r 0 j \in values by apply/mapP; exists j; rewrite ?mem_enum.
exists (Ordinal lt_l); split=> //; first by rewrite eq_l seq_max_ge.
move=> lt_j; rewrite lt_def eq_l seq_max_ge // andbT eq_sym.
have := @before_find _ 0 (pred1 (seq_max values)) values j lt_j.
by rewrite /= row_values_nth => ->.
Qed.

(** X10: the labels of a prediction over at least one target column: the
    label of a row is a column of the table of predictions, no value of the
    row is above the value in that column, and the values in the columns
    before it are strictly below it; a tie goes to the first column. *)
Theorem predict_labels X (y_opt : option (frame R outputs)) (pts : bool)
    labels Y (i : nat) (j : 'I_outputs) :
  predict X y_opt pts = Returned (labels, Y) -> (i < size X)%N ->
  exists l : 'I_outputs,
    [/\ nth 0%N labels i = l, row_at Y i 0 j <= row_at Y i 0 l
      & (j < l)%N -> row_at Y i 0 j < row_at Y i 0 l].
Proof.
move=> eq lt_i.
have [szY ->] :=
  predict_rows (np_tanh := np_tanh) (Win := Win) (W := W) (Wback := Wback)
    (a := a) (Wout := Wout) eq.
by rewrite (nth_map 0) ?szY //; apply: idxmaxP.
Qed.

End LabelFacts.

(** ** The initial weights *)

Section InitializeFacts.

Variable R : realFieldType.
Variable rng : Type.
Variable np_random_rand : forall r c : nat, rng -> 'M[R]_(r, c) * rng.
Variable eig_abs : forall N : nat, 'M[R]_N -> seq R.
Variables inputs outputs : nat.

Let init := initialize_echo_state_network np_random_rand eig_abs.

Lemma shifted_draw (r c : nat) (A : 'M[R]_(r, c)) i j :
  0 <= A i j < 1 -> - 2^-1 <= (A - const_mx 2^-1) i j < 2^-1.
Proof.
case/andP=> ge0 lt1; rewrite !mxE -[leLHS]add0r lerD2r ge0 /= ltrBlDr.
have -> : 2^-1 + 2^-1 = 1 :> R by rewrite -mulr2n -mulr_natr mulVf // pnatr_eq0.
by [].
Qed.

(** X11: the weights of the initialisation, when [np.random.rand] draws
    from the interval from 0 to 1, 1 excluded: the three matrices come from
    three draws in the order [Win], [W], [Wback]; every entry of [Win] and
    of [Wback] is at least -0.5 and below 0.5; [W] is the second draw, shifted
    to that interval, times [1.25 / rhoW] for the value [rhoW] that [max]
    returned, when that value is not zero. *)
Theorem initialize_weight_bounds (reservoir : nat) (g g' : rng)
    (Win : 'M[R]_(reservoir, 1 + inputs)) (W : 'M[R]_reservoir)
    (Wback : 'M[R]_(reservoir, outputs)) :
  (forall (r c : nat) (g0 : rng) i j, 0 <= (np_random_rand r c g0).1 i j < 1) ->
  init inputs outputs reservoir g = Returned (Win, W, Wback, g') ->
  let g1 := (np_random_rand reservoir (1 + inputs) g).2 in
  let g2 := (np_random_rand reservoir reservoir g1).2 in
  let W0 := drawn_reservoir_matrix np_random_rand inputs reservoir g in
  [/\ g' = (np_random_rand reservoir outputs g2).2,
      forall i j, - 2^-1 <= Win i j < 2^-1,
      forall i j, - 2^-1 <= Wback i j < 2^-1,
      forall i j, - 2^-1 <= W0 i j < 2^-1
    & exists2 rhoW, py_max (eig_abs W0) = Returned rhoW
                  & rhoW != 0 -> W = (5%:R / 4%:R / rhoW) *: W0].
Proof.
move=> draws; rewrite /init /initialize_echo_state_network.
rewrite /drawn_reservoir_matrix.
have := draws reservoir (1 + inputs)%N g.
case: (np_random_rand _ _ g) => r_in g1 /= in_ok.
have := draws reservoir reservoir g1.
case: (np_random_rand _ _ g1) => r_w g2 /= w_ok.
have := draws reservoir outputs g2.
case: (np_random_rand _ _ g2) => r_back g3 /= back_ok.
case E: (py_max _) => [rhoW|e] //= [<- <- <- <-]; split=> //.
- by move=> i j; rewrite scale1r; apply: shifted_draw.
- by move=> i j; rewrite scale1r; apply: shifted_draw.
- by move=> i j; apply: shifted_draw.
by exists rhoW.
Qed.

(** X12: the initialisation with a number of reservoir nodes, when
    [linalg.eig] gives as many eigenvalues as the matrix has rows: the call
    returns for every reservoir of at least one node, and only then; for a
    reservoir without nodes [max] has nothing to choose from, and the call
    raises a ValueError after the three draws. *)
Theorem initialize_outcome (reservoir : nat) (g : rng) :
  (forall (N : nat) (A : 'M[R]_N), size (eig_abs A) = N) ->
  returns (init inputs outputs reservoir g) = (0 < reservoir)%N
  /\ init inputs outputs 0 g = Raised ValueError.
Proof.
move=> size_eig.
have eq_ret N : returns (init inputs outputs N g) = (0 < N)%N.
  by rewrite /init initialize_returns -size_eq0 size_eig lt0n.
split=> //.
case E: (init _ _ _ _) (eq_ret 0%N) => [v|e] // _.
by rewrite (initialize_raises E).
Qed.

End InitializeFacts.

(** ** The tables of a training run *)

Section RunFacts.

Variable F : numFieldType.
Variable rng : Type.
Variable np_random_rand : forall r c : nat, rng -> 'M[F]_(r, c) * rng.
Variable eig_abs : forall N : nat, 'M[F]_N -> seq F.
Variable np_tanh : F -> F.
Variable np_arctanh : F -> F.
Variable linalg_pinv : forall m n : nat, 'M[F]_(m, n) -> 'M[F]_(n, m).
Variables inputs outputs : nat.

Implicit Types (train_X test_X : frame F inputs).
Implicit Types (train_y test_y : frame F outputs).

Let init := initialize_echo_state_network np_random_rand eig_abs.
Let body := @reservoir_computing_body F rng np_random_rand eig_abs np_tanh
              np_arctanh linalg_pinv inputs outputs.

Lemma size_denormalize (y : frame F outputs) mn mx (lo hi : F) :
  size (denormalize y mn mx lo hi) = size y.
Proof. by rewrite /denormalize size_map. Qed.

(** The results of a run that goes through have one row per row of
    [train_X] and of [test_X]. *)
Lemma reservoir_computing_body_sizes train_X train_y test_X test_y
    (reservoir_size : nat) (a : F) (per_time_step : bool) (g : rng) :
  (0 < outputs)%N ->
  (10 < size train_X)%N -> size train_y = size train_X ->
  (per_time_step -> (size test_X <= (size test_y).+1)%N) ->
  returns (init inputs outputs reservoir_size g) ->
  exists pred_train_y pred_test_y pred_train_y_prob pred_test_y_prob g',
    [/\ body train_X train_y test_X test_y reservoir_size a per_time_step g
        = Returned (pred_train_y, pred_test_y, pred_train_y_prob,
                    pred_test_y_prob, g'),
        size pred_train_y = size train_X
        /\ size pred_train_y_prob = size train_X
      & size pred_test_y = size test_X
        /\ size pred_test_y_prob = size test_X].
Proof.
move=> gt0 lt10 eq_size le_test.
case E: (init _ _ _ _) => [[[[Win W] Wback] g']|e] // _.
rewrite /body (reservoir_computing_bodyE np_tanh np_arctanh linalg_pinv train_X
           train_y test_X test_y a per_time_step E) /normalize /=.
set nX := map _ train_X; set ny := map _ train_y.
set nXt := map _ test_X; set nyt := map _ test_y.
have lt10' : (10 < size nX)%N by rewrite size_map.
have eq_size' : size ny = size nX by rewrite !size_map.
have := train_output_weightsE np_tanh np_arctanh linalg_pinv Win W Wback a
          gt0 lt10' eq_size'.
rewrite /= size_map => ->; rewrite bind_Returned.
set Wout := (linalg_pinv _ *m _)^T.
have : returns (predict_values_echo_state_network np_tanh Win W Wback a
                  Wout nX (Some ny) per_time_step).
  by apply: predict_returns => // _; rewrite !size_map eq_size.
case/returns_value=> -[l1 Y1] eq1; rewrite eq1 bind_Returned.
have : returns (predict_values_echo_state_network np_tanh Win W Wback a
                  Wout nXt (Some nyt) per_time_step).
  by apply: predict_returns; rewrite ?size_map.
case/returns_value=> -[l2 Y2] eq2; rewrite eq2 bind_Returned.
have [sz1 ->] := predict_rows eq1; have [sz2 ->] := predict_rows eq2.
do 5![eexists]; split; first by [].
  by rewrite size_denormalize size_map sz1 size_map.
by rewrite size_denormalize size_map sz2 size_map.
Qed.

Section Mismatch.

Variable reservoir_size : nat.
Variable Win : 'M[F]_(reservoir_size, 1 + inputs).
Variable W : 'M[F]_reservoir_size.
Variable Wback : 'M[F]_(reservoir_size, outputs).
Variable a : F.

(** The pass of the training loop that reads a target row past the end. *)
Lemma train_step_missing washout (X : frame F inputs) (y : frame F outputs)
    st :
  ((size y).+1 < size X)%N ->
  train_step np_tanh Win W Wback a washout X y st (size y).+1
  = Raised IndexError.
Proof.
case: st => [x D] lt_size; rewrite /train_step (iloc_row_lt lt_size).
by rewrite bind_Returned /= subn1 /iloc_row ltnn.
Qed.

(** The solve on tables of different sizes: the loop runs out of target
    rows, or the product of the pseudo inverse and the targets does not
    fit. *)
Lemma train_output_weights_mismatch washout (X : frame F inputs)
    (y : frame F outputs) :
  (0 < outputs)%N -> (washout < size X)%N -> size y != size X ->
  train_output_weights np_tanh np_arctanh linalg_pinv Win W Wback a washout
    (size X) X y
  = Raised (if ((size y).+1 < size X)%N then IndexError else ValueError).
Proof.
move=> gt0 lt_w neq_size.
rewrite /train_output_weights np_zeros_sub (ltnW lt_w).
rewrite bind_Returned iloc_rows_from.
case: ltnP => [lt_size|le_size].
  rewrite (range_split lt_size) for_each_cat.
  rewrite (train_loop np_tanh Win W Wback a washout gt0 (ltnW lt_size)
             (leqnn _)).
  rewrite bind_Returned.
  by rewrite for_each_cons train_step_missing.
rewrite (train_loop np_tanh Win W Wback a washout gt0 (leqnn _) le_size).
rewrite bind_Returned /=.
rewrite /dot_pinv size_mkseq size_map size_drop.
case: ifP => // _.
case: eqP => // eq_sub; case/negP: neq_size; apply/eqP.
have sub_gt0 : (0 < size X - washout)%N by rewrite subn_gt0.
have lt_wy : (washout < size y)%N by rewrite -subn_gt0 -eq_sub.
by rewrite -(subnKC (ltnW lt_w)) eq_sub subnKC // ltnW.
Qed.

End Mismatch.

(** X14: target rows that do not match the training rows are refused: on
    more than ten training rows and a table of training targets with at
    least one column and another number of rows, once the initialisation
    returned, [reservoir_computing] raises before any prediction is made --
    an IndexError when the targets are short by two rows or more (the loop
    reads the target of the previous step), and otherwise a ValueError from
    the product of the pseudo inverse with the targets. *)
Theorem reservoir_computing_mismatched_targets train_X train_y test_X test_y
    (reservoir_size : nat) (a : F) (per_time_step : bool) (g : rng) :
  (0 < outputs)%N ->
  (10 < size train_X)%N -> size train_y <> size train_X ->
  returns (init inputs outputs reservoir_size g) ->
  body train_X train_y test_X test_y reservoir_size a per_time_step g
  = Raised (if ((size train_y).+1 < size train_X)%N then IndexError
            else ValueError).
Proof.
move=> gt0 lt10 /eqP neq_size.
case E: (init _ _ _ _) => [[[[Win W] Wback] g']|e] // _.
rewrite /body (reservoir_computing_bodyE np_tanh np_arctanh linalg_pinv train_X
           train_y test_X test_y a per_time_step E) /normalize /=.
set nX := map _ train_X; set ny := map _ train_y.
have lt10' : (10 < size nX)%N by rewrite size_map.
have neq_size' : size ny != size nX by rewrite !size_map.
have := train_output_weights_mismatch Win W Wback a gt0 lt10' neq_size'.
by rewrite !size_map => ->.
Qed.

End RunFacts.

(** ** The outcomes of [generate_parameter_combinations] *)

Section CombinationOutcomes.

Variable V : Type.

Implicit Types (d : py_dict V) (params : seq string).

(** [parameter_dict[p]] raises nothing but a KeyError. *)
Lemma dict_get_unknown d p :
  ~~ returns (dict_get d p) -> dict_get d p = Raised KeyError.
Proof. by rewrite /dict_get; case: (filter _ _). Qed.

(** A name that the dict lacks, anywhere in a list of names, is a
    KeyError. *)
Lemma generate_parameter_combinations_unknown d (view : bool) params :
  ~~ all (fun p => returns (dict_get d p)) params ->
  (if view then 1 < size params else 0 < size params)%N ->
  generate_parameter_combinations d view params = Raised KeyError.
Proof.
elim: params view => [|p params IH] view; first by case: view.
case: params IH => [|p' params] IH.
  by case: view => //=; rewrite andbT => /dict_get_unknown ->.
rewrite generate_parameter_combinations_more => unknown _.
case known: (all (fun p0 => returns (dict_get d p0)) (p' :: params)).
  rewrite (generate_parameter_combinations_cartesian (view := false) known) //.
  rewrite bind_Returned dict_get_unknown //.
  by move: unknown; rewrite [all _ [:: p, p' & params]]/= -/(all _ (p' :: _)) known andbT.
by rewrite (IH false) // known.
Qed.

(** X15: the outcome of [generate_parameter_combinations], in full.  An
    empty list of names is an IndexError (the [pop(0)] of an empty list); a
    [dict_keys] view of one name is a TypeError (a view cannot be
    subscripted); a name that the dict lacks is a KeyError; in every other
    case the call returns every choice of one candidate per name, the first
    name varying slowest. *)
Theorem generate_parameter_combinations_outcome d (view : bool) params :
  generate_parameter_combinations d view params
  = if params is [::] then Raised IndexError
    else if view && (size params == 1)%N then Raised TypeError
    else if all (fun p => returns (dict_get d p)) params
    then Returned (cartesian_product [seq dict_values d p | p <- params])
    else Raised KeyError.
Proof.
case: params => [|p params] //.
have [one|more] := boolP (view && (size (p :: params) == 1)%N).
  by case: view params one => [] [].
have sizes : (if view then 1 < size (p :: params)
              else 0 < size (p :: params))%N.
  by case: view params more => [] [].
case known: (all _ _).
  exact: generate_parameter_combinations_cartesian.
by apply: generate_parameter_combinations_unknown; rewrite ?known.
Qed.

(** What a call on a list of names returns. *)
Lemma generate_parameter_combinations_returned d params combs :
  generate_parameter_combinations d false params = Returned combs ->
  combs = cartesian_product [seq dict_values d p | p <- params].
Proof.
case: params => [|p params] //.
case known: (all (fun p0 => returns (dict_get d p0)) (p :: params)).
  by rewrite generate_parameter_combinations_cartesian // => -[].
by rewrite generate_parameter_combinations_unknown ?known.
Qed.

End CombinationOutcomes.

Section CombinationChoices.

Variable V : eqType.

Implicit Types (d : py_dict V) (params : seq string) (c : seq V).

(** The members of the cartesian product: the lists that pick a member of
    each list, in their order. *)
Lemma mem_cartesian_product (lists : seq (seq V)) c :
  (c \in cartesian_product lists) = all2 (fun v l => v \in l) c lists.
Proof.
elim: lists c => [|l lists IH] c /=; first by rewrite inE; case: c.
apply/allpairsP/idP => [[[v c'] /= [v_in c'_in ->]]|].
  by rewrite /= v_in -IH.
case: c => [|v c'] //= /andP[v_in c'_in].
by exists (v, c'); rewrite /= IH.
Qed.

Lemma uniq_cartesian_product (lists : seq (seq V)) :
  all uniq lists -> uniq (cartesian_product lists).
Proof.
elim: lists => [|l lists IH] //= /andP[uniq_l /IH uniq_rest].
by apply: allpairs_uniq => // -[v1 c1] [v2 c2] _ _ /= [-> ->].
Qed.

(** X16: [generate_parameter_combinations] returns all possible
    combinations and nothing else: a list is among the returned combinations
    exactly when it holds one candidate of each name, in the order of the
    names; there are as many combinations as the product of the numbers of
    candidates; and no combination comes twice when no candidate list holds
    a value twice. *)
Theorem generate_parameter_combinations_complete d params
    (combs : seq (seq V)) :
  generate_parameter_combinations d false params = Returned combs ->
  [/\ forall c, (c \in combs)
                = all2 (fun v p => v \in dict_values d p) c params,
      size combs = (\prod_(p <- params) size (dict_values d p))%N
    & all (fun p => uniq (dict_values d p)) params -> uniq combs].
Proof.
move=> /generate_parameter_combinations_returned ->; split.
- move=> c; rewrite mem_cartesian_product.
  by elim: params c => [|p params IH] [|v c] //=; rewrite IH.
- by rewrite size_cartesian_product big_map.
by move=> uniq_lists; apply: uniq_cartesian_product; rewrite all_map.
Qed.

End CombinationChoices.

(** ** The split and the result of the grid search *)

Section SearchFacts.

Variable R : archiRealFieldType.
Variable rng : Type.
Variable np_random_rand : forall r c : nat, rng -> 'M[R]_(r, c) * rng.
Variable eig_abs : forall N : nat, 'M[R]_N -> seq R.
Variable np_tanh : R -> R.
Variable np_arctanh : R -> R.
Variable linalg_pinv : forall m n : nat, 'M[R]_(m, n) -> 'M[R]_(n, m).
Variables inputs outputs : nat.
Variable mean_squared_error : frame R outputs -> frame R outputs -> R.
Variable accuracy : frame R outputs -> seq nat -> R.
Variable float_mul : R -> R -> R.

Implicit Types (train_X test_X : frame R inputs).
Implicit Types (train_y test_y : frame R outputs).
Implicit Types (error : string) (g : rng) (comb : seq (pyval R)).

Let step := gridsearch_step np_random_rand eig_abs np_tanh np_arctanh
              linalg_pinv (inputs := inputs) mean_squared_error accuracy.
Let gridsearch := gridsearch_reservoir_computing np_random_rand eig_abs np_tanh
                    np_arctanh linalg_pinv (inputs := inputs)
                    mean_squared_error accuracy float_mul.

(** The search as its loop over the grid, followed by the final
    indexing. *)
Lemma gridsearch_as_loop train_X train_y pts error (frac : R) g :
  gridsearch train_X train_y pts error frac g
  = (st <- for_each
             (step (iloc_rows train_X 0 (py_int (float_mul frac (size train_X)%:R)))
                (iloc_rows train_y 0 (py_int (float_mul frac (size train_X)%:R)))
                (iloc_rows train_X (py_int (float_mul frac (size train_X)%:R))
                   (Posz (size train_X)))
                (iloc_rows train_y (py_int (float_mul frac (size train_X)%:R))
                   (Posz (size train_X))) pts error)
             (grid R) (initial_best_error R error, [::], g) ;;
     pair <- best_pair st.1.2 ;;
     Returned (pair.1, pair.2, st.2)).
Proof.
rewrite /gridsearch /gridsearch_reservoir_computing tuned_combinations.
rewrite bind_Returned -/(initial_best_error R error).
apply: eq_bind => -[[best_error best_combination] g'].
by rewrite /best_pair /=; do 2![case: (list_item _ _) => [?|?] //=].
Qed.

Lemma iloc_rows_to_bound {m : nat} (df : frame R m) (sp : int) :
  iloc_rows df 0 sp = take (slice_bound (size df) sp) df.
Proof. by rewrite /iloc_rows /= min0n subn0 drop0. Qed.

Lemma iloc_rows_from_bound {m : nat} (df : frame R m) (sp : int) :
  iloc_rows df sp (Posz (size df)) = drop (slice_bound (size df) sp) df.
Proof.
by rewrite /iloc_rows /= minnn take_oversize // size_drop.
Qed.

(** X17: the split of the grid search, for every fraction, also a negative
    one or one above 1: with as many target rows as training rows, the
    internal training tables are the first [s] rows of [train_X] and of
    [train_y] and the validation tables are the rows from [s] on, for one
    and the same position [s]; no row is lost, none is used twice, and the
    order of the rows is kept.  For the rounded product [p] of the fraction
    and the number of rows, [s] is [int(p)] capped at [n] when [p] is not
    negative, and [int(p)] rows before the end when [p <= -1]. *)
Theorem gridsearch_split_partition train_X train_y pts error (frac : R) g :
  size train_y = size train_X ->
  let n := size train_X in
  let s := slice_bound n (py_int (float_mul frac n%:R)) in
  [/\ gridsearch train_X train_y pts error frac g
      = (st <- for_each
                 (step (take s train_X) (take s train_y) (drop s train_X)
                    (drop s train_y) pts error)
                 (grid R) (initial_best_error R error, [::], g) ;;
         pair <- best_pair st.1.2 ;;
         Returned (pair.1, pair.2, st.2)),
      take s train_X ++ drop s train_X = train_X
      /\ take s train_y ++ drop s train_y = train_y,
      (s <= n)%N,
      0 <= float_mul frac n%:R -> s = minn `|Num.floor (float_mul frac n%:R)| n
    & float_mul frac n%:R <= -1 ->
      s = (n - `|Num.ceil (float_mul frac n%:R)|)%N].
Proof.
move=> eq_size n s; split; rewrite ?cat_take_drop //.
- rewrite gridsearch_as_loop !iloc_rows_to_bound iloc_rows_from_bound.
  have -> : iloc_rows train_y (py_int (float_mul frac (size train_X)%:R))
              (Posz (size train_X))
            = drop s train_y.
    by rewrite /s /n -eq_size iloc_rows_from_bound.
  by rewrite eq_size.
- exact: slice_bound_le.
- by move=> prod_ge0; rewrite /s py_int_ge0.
move=> le_m1; rewrite /s /py_int.
have -> : (0 <= float_mul frac n%:R) = false.
  by apply/negbTE; rewrite -ltNge (le_lt_trans le_m1) // ltrN10.
have : Num.ceil (float_mul frac n%:R) < 0 by rewrite ceil_lt0.
by case: (Num.ceil _) => [k|k].
Qed.

(** X18: the grid search needs ten rows in its internal training part:
    when the rounded product of the fraction and the number of training rows
    is at least 0 and below 10, every training of the search has fewer than
    ten rows, and the search raises the ValueError of the first one. *)
Theorem gridsearch_short_training_part train_X train_y pts error (frac : R) g :
  0 <= float_mul frac (size train_X)%:R ->
  float_mul frac (size train_X)%:R < 10%:R ->
  gridsearch train_X train_y pts error frac g = Raised ValueError.
Proof.
move=> x_ge0 lt10.
have lt_k : (`|Num.floor (float_mul frac (size train_X)%:R)| < 10)%N.
  by rewrite -ltz_nat gez0_abs ?floor_ge0 // floor_lt_int.
rewrite /gridsearch gridsearchE gridE py_int_ge0 // iloc_rows_upto /=.
rewrite reservoir_computing_body_short //.
by rewrite size_take_min (leq_ltn_trans (geq_minl _ _)).
Qed.

(** The selection returns the incumbent or one of the scored
    combinations. *)
Lemma select_best_mem error (best : R) comb
    (scored : seq (seq (pyval R) * R)) :
  (select_best error best comb scored).2 = comb
  \/ exists2 i, (i < size scored)%N
              & (select_best error best comb scored).2
                = (nth ([::], 0) scored i).1.
Proof.
elim: scored best comb => [|[c s] scored IH] best comb /=; first by left.
case: ifP => _.
  by case: (IH s c) => [->|[i lt_i ->]]; right; [exists 0%N | exists i.+1].
by case: (IH best comb) => [->|[i lt_i ->]]; [left | right; exists i.+1].
Qed.

(** X19: the grid search never returns a value from outside its grid:
    whenever [gridsearch_reservoir_computing] returns, the metric is mse or
    accuracy, the leak rate [a] is 0.6 or 0.8 and the reservoir size is 400,
    700 or 1000. *)
Theorem gridsearch_returns_grid_member train_X train_y pts error (frac : R) g
    (reservoir_size a : pyval R) (g' : rng) :
  gridsearch train_X train_y pts error frac g
  = Returned (reservoir_size, a, g') ->
  [/\ (error == "mse"%string) || (error == "accuracy"%string),
      a = PyFloat (6%:R / 10%:R) \/ a = PyFloat (8%:R / 10%:R)
    & [\/ reservoir_size = PyInt R 400, reservoir_size = PyInt R 700
        | reservoir_size = PyInt R 1000]].
Proof.
rewrite /gridsearch gridsearchE (initial_best_error_known R).
case: (validation_scores _ _ _ _ _ _ _ _ _ _ _ _ _ _ _)
  => [[scores g'']|e] //; rewrite bind_Returned.
case: (initial_best_error R error) => [best|] //.
have [->|[i]] := select_best_mem error best [::] (zip (grid R) scores).
  by [].
rewrite size_zip => lt_i ->.
have lt_grid : (i < size (grid R))%N := leq_trans lt_i (geq_minl _ _).
have lt_scores : (i < size scores)%N := leq_trans lt_i (geq_minr _ _).
have -> : (nth ([::], 0) (zip (grid R) scores) i).1 = nth [::] (grid R) i.
  move: lt_grid lt_scores; move: (grid R) => combs.
  by elim: combs scores i {lt_i} => [|c combs IH] [|s scores] [|i] //= *; apply: IH.
have [a0 [rs0 [eq_comb ->]]] := best_pair_grid lt_grid.
rewrite bind_Returned => -[<- <- _].
move: lt_grid eq_comb {lt_i lt_scores}; rewrite gridE.
by case: i => [|[|[|[|[|[|i]]]]]] //= _ [<- <-]; split=> //;
   first [by left | by right | by constructor 1 | by constructor 2
         | by constructor 3].
Qed.

End SearchFacts.

(** ** The regression variant of the reservoir *)

Section RegressionFacts.

Variable R : archiRealFieldType.
Variable rng : Type.
Variable np_random_rand : forall r c : nat, rng -> 'M[R]_(r, c) * rng.
Variable eig_abs : forall N : nat, 'M[R]_N -> seq R.
Variable np_tanh : R -> R.
Variable np_arctanh : R -> R.
Variable linalg_pinv : forall m n : nat, 'M[R]_(m, n) -> 'M[R]_(n, m).
Variables inputs outputs : nat.
Variable mean_squared_error : frame R outputs -> frame R outputs -> R.
Variable float_mul : R -> R -> R.

Implicit Types (train_X test_X : frame R inputs).
Implicit Types (train_y test_y : frame R outputs).
Implicit Types (accuracy : frame R outputs -> seq nat -> R).

(** X13: the shape of the results of [reservoir_computing] without grid
    search, for an integer reservoir size: on more than ten training rows
    with as many target rows, with at least one target column and the test
    targets that the per time step mode reads, and when the initialisation
    returns, the call returns, whatever the metric and the fraction, and the
    two lists of labels and the two tables of predictions have one row per
    row of [train_X] and of [test_X]. *)
Theorem reservoir_computing_shapes accuracy train_X train_y test_X test_y
    (reservoir_size : nat) (a : pyval R) (per_time_step : bool) (frac : R)
    (error : string) (g : rng) :
  (0 < outputs)%N ->
  (10 < size train_X)%N -> size train_y = size train_X ->
  (per_time_step -> (size test_X <= (size test_y).+1)%N) ->
  returns (initialize_echo_state_network np_random_rand eig_abs inputs
             outputs reservoir_size g) ->
  exists pred_train_y pred_test_y pred_train_y_prob pred_test_y_prob g',
    [/\ reservoir_computing np_random_rand eig_abs np_tanh np_arctanh
          linalg_pinv mean_squared_error accuracy float_mul train_X train_y
          test_X test_y (PyInt R reservoir_size) a per_time_step false frac
          error g
        = Returned (pred_train_y, pred_test_y, pred_train_y_prob,
                    pred_test_y_prob, g'),
        size pred_train_y = size train_X
        /\ size pred_train_y_prob = size train_X
      & size pred_test_y = size test_X
        /\ size pred_test_y_prob = size test_X].
Proof.
move=> gt0 lt10 eq_size le_test init_ok.
have [l1 [l2 [Y1 [Y2 [g' [eq_body sizes1 sizes2]]]]]] :=
  reservoir_computing_body_sizes np_tanh np_arctanh linalg_pinv
    (py_number a) gt0 lt10 eq_size le_test init_ok.
(* without grid search the call is the body of the run *)
by exists l1, l2, Y1, Y2, g'; split.
Qed.

(** X20: the regression variant of [reservoir_computing].  It never
    consults the accuracy scorer: with or without grid search its result is
    the same whatever [ClassificationEvaluation().accuracy] would answer.
    Without grid search, on more than ten training rows with as many target
    rows, at least one target column and the test targets that the per time
    step mode reads, and when the initialisation returns, it returns the two
    tables of numerical predictions, with one row per row of [train_X] and
    of [test_X]. *)
Theorem regression_reservoir_computing_result accuracy1 accuracy2
    train_X train_y test_X test_y (reservoir_size : nat) (a : pyval R)
    (per_time_step gridsearch : bool) (frac : R) (g : rng) :
  (0 < outputs)%N ->
  (10 < size train_X)%N -> size train_y = size train_X ->
  (per_time_step -> (size test_X <= (size test_y).+1)%N) ->
  returns (initialize_echo_state_network np_random_rand eig_abs inputs
             outputs reservoir_size g) ->
  TemporalRegressionAlgorithms.reservoir_computing np_random_rand eig_abs
    np_tanh np_arctanh linalg_pinv mean_squared_error accuracy1 float_mul
    train_X train_y test_X test_y (PyInt R reservoir_size) a per_time_step
    gridsearch frac g
  = TemporalRegressionAlgorithms.reservoir_computing np_random_rand eig_abs
      np_tanh np_arctanh linalg_pinv mean_squared_error accuracy2 float_mul
      train_X train_y test_X test_y (PyInt R reservoir_size) a per_time_step
      gridsearch frac g
  /\ exists pred_train_y_val pred_test_y_val g',
       [/\ TemporalRegressionAlgorithms.reservoir_computing np_random_rand
             eig_abs np_tanh np_arctanh linalg_pinv mean_squared_error
             accuracy1 float_mul train_X train_y test_X test_y
             (PyInt R reservoir_size) a per_time_step false frac g
           = Returned (pred_train_y_val, pred_test_y_val, g'),
           size pred_train_y_val = size train_X
         & size pred_test_y_val = size test_X].
Proof.
move=> gt0 lt10 eq_size le_test init_ok; split.
  rewrite /TemporalRegressionAlgorithms.reservoir_computing.
  (* under the metric mse no pass of the search calls the accuracy scorer *)
  by rewrite /reservoir_computing; case: gridsearch.
have [l1 [l2 [Y1 [Y2 [g' [eq_body [_ sz1] [_ sz2]]]]]]] :=
  reservoir_computing_body_sizes np_tanh np_arctanh linalg_pinv
    (py_number a) gt0 lt10 eq_size le_test init_ok.
exists Y1, Y2, g'; split=> //.
rewrite /TemporalRegressionAlgorithms.reservoir_computing.
by rewrite /reservoir_computing bind_Returned /= eq_body.
Qed.

End RegressionFacts.

(** ** The grid search of the time series models *)

Section TimeSeriesFacts.

Variable R : archiRealFieldType.
Variable inputs : nat.
Variable fitter : Type.
Variable arimax :
  frame R inputs -> frame R 1 -> frame R inputs -> frame R 1 ->
  pyval R -> pyval R -> fitter -> outcome (frame R 1 * frame R 1 * fitter).
Variable mean_squared_error : frame R 1 -> frame R 1 -> R.
Variable float_mul : R -> R -> R.

Implicit Types (train_X test_X : frame R inputs).
Implicit Types (train_y test_y : frame R 1).
Implicit Types (error : string) (s : fitter) (comb : seq (pyval R)).

Let step := gridsearch_time_series_step arimax mean_squared_error.
Let gridsearch := gridsearch_time_series arimax mean_squared_error float_mul.

Lemma time_series_combinations :
  generate_parameter_combinations (time_series_parameters R) false
    (dict_keys (time_series_parameters R))
  = Returned (time_series_grid R).
Proof. exact: generate_parameter_combinations_cartesian. Qed.

(** A pass of the loop on a combination of three values. *)
Lemma gridsearch_time_series_stepE train_X train_y test_X test_y
    (best_error : option R) best_combination s (ar ma d : pyval R) :
  step train_X train_y test_X test_y (best_error, best_combination, s)
    [:: ar; ma; d]
  = (pred <- arimax train_X train_y test_X test_y ar ma s ;;
     if best_error is Some best then
       if mean_squared_error test_y pred.1.2 < best
       then Returned (Some (mean_squared_error test_y pred.1.2),
                      [:: ar; ma; d], pred.2)
       else Returned (best_error, best_combination, pred.2)
     else Raised UnboundLocalError).
Proof.
rewrite /step /gridsearch_time_series_step /=.
by case: (arimax _ _ _ _ _ _ _) => [[[p1 p2] s']|e].
Qed.

(** X21: [gridsearch_time_series] with a metric name other than mse and
    accuracy stops in its first pass: the model with the orders 0 and 0 is
    fitted, and the comparison of its error with [best_error], which was
    never assigned, raises an UnboundLocalError; no other combination is
    tried.  (The grid search of the reservoir, which compares inside the
    test for the metric, runs all its combinations in this case.) *)
Theorem gridsearch_time_series_unknown_metric train_X train_y error
    (frac : R) s :
  (error == "mse"%string) || (error == "accuracy"%string) = false ->
  let sp := py_int (float_mul frac (size train_X)%:R) in
  let n := Posz (size train_X) in
  gridsearch train_X train_y error frac s
  = (pred <- arimax (iloc_rows train_X 0 sp) (iloc_rows train_y 0 sp)
               (iloc_rows train_X sp n) (iloc_rows train_y sp n)
               (PyInt R 0) (PyInt R 0) s ;;
     Raised UnboundLocalError).
Proof.
case/norP=> /negbTE not_mse /negbTE not_acc sp n.
rewrite /gridsearch /gridsearch_time_series time_series_combinations.
rewrite bind_Returned not_mse not_acc -/sp -/n /time_series_grid.
rewrite for_each_cons -/(step _ _ _ _) gridsearch_time_series_stepE.
by case: (arimax _ _ _ _ _ _ _) => [[[p1 p2] s']|e].
Qed.

(** With errors that are never negative, no pass improves on the initial
    score 0. *)
Lemma gridsearch_time_series_loop_keeps train_X train_y test_X test_y
    (combs : seq (seq (pyval R))) s st :
  (forall y p, 0 <= mean_squared_error y p) ->
  for_each (step train_X train_y test_X test_y) combs (Some 0, [::], s)
  = Returned st ->
  st.1 = (Some 0, [::]).
Proof.
move=> mse_ge0; elim: combs s => [|comb combs IH] s /=; first by case=> <-.
case: (list_item comb _) => [ar|e] //=; case: (list_item comb _) => [ma|e] //=.
case: (arimax _ _ _ _ _ _ _) => [[[p1 p2] s']|e] //=.
by rewrite ltNge mse_ge0 /=; apply: IH.
Qed.

(** X22: [gridsearch_time_series] cannot be used with [error='accuracy']:
    the initial score is then 0, a pass replaces it only by a smaller mean
    squared error, and with errors that are never negative none does.  After
    the four models were fitted [best_combination] is still empty, and the
    final indexing raises an IndexError; the search returns nothing. *)
Theorem gridsearch_time_series_accuracy_metric train_X train_y (frac : R) s :
  (forall y p, 0 <= mean_squared_error y p) ->
  let sp := py_int (float_mul frac (size train_X)%:R) in
  let n := Posz (size train_X) in
  gridsearch train_X train_y "accuracy" frac s
  = (st <- for_each
             (step (iloc_rows train_X 0 sp) (iloc_rows train_y 0 sp)
                (iloc_rows train_X sp n) (iloc_rows train_y sp n))
             (time_series_grid R) (Some 0, [::], s) ;;
     Raised IndexError).
Proof.
move=> mse_ge0 sp n.
rewrite /gridsearch /gridsearch_time_series time_series_combinations.
rewrite bind_Returned -/sp -/n -/(step _ _ _ _).
have -> : (if "accuracy"%string == "mse"%string then Some (float_info_max R)
           else if "accuracy"%string == "accuracy"%string then Some 0
           else None) = Some 0 :> option R by [].
case E: (for_each _ _ _) => [[[best_error best_combination] s']|e] //.
by have /= [_ ->] := gridsearch_time_series_loop_keeps mse_ge0 E.
Qed.

(** The loop keeps the incumbent or takes one of the combinations. *)
Lemma gridsearch_time_series_loop_mem train_X train_y test_X test_y
    (combs : seq (seq (pyval R))) (best_error : option R) comb s st :
  for_each (step train_X train_y test_X test_y) combs (best_error, comb, s)
  = Returned st ->
  st.1.2 = comb \/ exists2 i, (i < size combs)%N & st.1.2 = nth [::] combs i.
Proof.
elim: combs best_error comb s => [|c combs IH] best_error comb s /=.
  by case=> <-; left.
case: (list_item c _) => [ar|e] //=; case: (list_item c _) => [ma|e] //=.
case: (arimax _ _ _ _ _ _ _) => [[[p1 p2] s']|e] //=.
case: best_error => [best|] //; case: ifP => _ /IH[->|[i lt_i ->]].
- by right; exists 0%N.
- by right; exists i.+1.
- by left.
by right; exists i.+1.
Qed.

(** Without an initial score no pass goes through. *)
Lemma gridsearch_time_series_loop_unbound train_X train_y test_X test_y
    (c : seq (pyval R)) combs comb s st :
  for_each (step train_X train_y test_X test_y) (c :: combs) (None, comb, s)
  <> Returned st.
Proof.
rewrite /=.
case: (list_item c _) => [ar|e] //=; case: (list_item c _) => [ma|e] //=.
by case: (arimax _ _ _ _ _ _ _) => [[[p1 p2] s']|e].
Qed.

(** X23: the result of [gridsearch_time_series]: whenever the search
    returns, the metric is mse or accuracy, the orders [ar] and [ma] that it
    returns are 0 or 5, and [d] is 1.  [time_series] with [gridsearch=True]
    searches under the metric mse and fits the model with the orders found:
    the orders that were passed to it, and the [d] that was found, are not
    used. *)
Theorem gridsearch_time_series_result train_X train_y error (frac : R) s
    (ar ma d : pyval R) (s' : fitter) :
  gridsearch train_X train_y error frac s = Returned (ar, ma, d, s') ->
  [/\ (error == "mse"%string) || (error == "accuracy"%string),
      ar = PyInt R 0 \/ ar = PyInt R 5,
      ma = PyInt R 0 \/ ma = PyInt R 5,
      d = PyInt R 1
    & error = "mse"%string ->
      forall test_X test_y (ar0 ma0 : pyval R),
        time_series arimax mean_squared_error float_mul train_X train_y test_X
          test_y
          ar0 ma0 true frac s
        = arimax train_X train_y test_X test_y ar ma s'].
Proof.
move=> eq_search.
have time_seriesE : error = "mse"%string ->
    forall test_X test_y (ar0 ma0 : pyval R),
      time_series arimax mean_squared_error float_mul train_X train_y test_X
          test_y
        ar0 ma0 true frac s
      = arimax train_X train_y test_X test_y ar ma s'.
  by move=> eq_mse *; rewrite /time_series -eq_mse -/gridsearch eq_search.
move: eq_search.
rewrite /gridsearch /gridsearch_time_series time_series_combinations.
rewrite bind_Returned -/(step _ _ _ _).
case E: (for_each _ _ _) => [[[best_error best_combination] s'']|e] //.
have is_known : (error == "mse"%string) || (error == "accuracy"%string).
  move: E; case: (error == "mse"%string) => //.
  case: (error == "accuracy"%string) => //.
  by move/gridsearch_time_series_loop_unbound.
have mem := gridsearch_time_series_loop_mem E.
rewrite bind_Returned; case: mem => /= [->|[i lt_i ->]] //.
by case: i lt_i => [|[|[|[|i]]]] //= _ [? ? ? ?]; subst; split=> //;
   first [by left | by right].
Qed.

End TimeSeriesFacts.

(** ** The grid search of the recurrent neural network *)

Section RecurrentFacts.

Variable R : archiRealFieldType.
Variables inputs outputs : nat.
Variable trainer : Type.
Variable rnn :
  frame R inputs -> frame R outputs -> frame R inputs -> frame R outputs ->
  rnn_value -> rnn_value -> rnn_value -> trainer ->
  outcome (seq nat * seq nat * frame R outputs * frame R outputs * trainer).
Variable mean_squared_error : frame R outputs -> frame R outputs -> R.
Variable accuracy : frame R outputs -> seq nat -> R.
Variable float_mul : R -> R -> R.

Implicit Types (train_X test_X : frame R inputs).
Implicit Types (train_y test_y : frame R outputs).
Implicit Types (error : string) (s : trainer) (comb : seq rnn_value).

Let step := gridsearch_recurrent_neural_network_step rnn mean_squared_error
              accuracy.
Let gridsearch := gridsearch_recurrent_neural_network rnn mean_squared_error
                    accuracy float_mul.

Lemma rnn_combinations :
  generate_parameter_combinations rnn_parameters false
    (dict_keys rnn_parameters)
  = Returned rnn_grid.
Proof. exact: generate_parameter_combinations_cartesian. Qed.

(** The loop keeps the incumbent or takes one of the combinations. *)
Lemma gridsearch_recurrent_loop_mem train_X train_y test_X test_y error
    (combs : seq (seq rnn_value)) (best_error : option R) comb s st :
  for_each (step train_X train_y test_X test_y error) combs
    (best_error, comb, s) = Returned st ->
  st.1.2 = comb \/ exists2 i, (i < size combs)%N & st.1.2 = nth [::] combs i.
Proof.
elim: combs best_error comb s => [|c combs IH] best_error comb s /=.
  by case=> <-; left.
do 3![case: (list_item c _) => [?|?] //=].
case: (rnn _ _ _ _ _ _ _ _) => [[[[[p1 p2] p3] p4] s']|e] //=.
have pick (b : option R) (c0 : seq rnn_value) :
    c0 = comb \/ c0 = c ->
    for_each (step train_X train_y test_X test_y error) combs (b, c0, s')
    = Returned st ->
    st.1.2 = comb
    \/ exists2 i, (i < (size combs).+1)%N & st.1.2 = nth [::] (c :: combs) i.
  move=> eq_c0 /IH[->|[i lt_i ->]]; last by right; exists i.+1.
  by case: eq_c0 => ->; [left | right; exists 0%N].
by case: ifP => _; [|case: ifP => _]; case: best_error => [best|] //=;
   try case: ifP => _ /=; apply: pick; first [by left | by right].
Qed.

(** With a metric name other than mse and accuracy no pass scores. *)
Lemma gridsearch_recurrent_loop_unknown train_X train_y test_X test_y error
    (combs : seq (seq rnn_value)) (best_error : option R) comb s st :
  (error == "mse"%string) || (error == "accuracy"%string) = false ->
  for_each (step train_X train_y test_X test_y error) combs
    (best_error, comb, s) = Returned st ->
  st.1 = (best_error, comb).
Proof.
case/norP=> /negbTE not_mse /negbTE not_acc.
elim: combs s => [|c combs IH] s /=; first by case=> <-.
do 3![case: (list_item c _) => [?|?] //=].
case: (rnn _ _ _ _ _ _ _ _) => [[[[[p1 p2] p3] p4] s']|e] //=.
by rewrite not_mse not_acc /=; apply: IH.
Qed.

(** X24: the result of [gridsearch_recurrent_neural_network]: whenever
    the search returns, the metric is mse or accuracy, the number of hidden
    neurons is 50 or 100, the number of iterations is 250 or 500, and the
    output bias is [True].  [recurrent_neural_network] with
    [gridsearch=True] trains with the values found, whatever was passed for
    the three parameters. *)
Theorem gridsearch_recurrent_neural_network_result train_X train_y error
    (frac : R) s (n_hidden_neurons iterations outputbias : rnn_value)
    (s' : trainer) :
  gridsearch train_X train_y error frac s
  = Returned (n_hidden_neurons, iterations, outputbias, s') ->
  [/\ (error == "mse"%string) || (error == "accuracy"%string),
      n_hidden_neurons = RnnInt 50 \/ n_hidden_neurons = RnnInt 100,
      iterations = RnnInt 250 \/ iterations = RnnInt 500,
      outputbias = RnnBool true
    & forall test_X test_y (n_hidden_neurons0 iterations0 outputbias0 :
                              rnn_value),
        recurrent_neural_network rnn mean_squared_error accuracy float_mul train_X
          train_y test_X test_y n_hidden_neurons0 iterations0 true frac
          outputbias0 error s
        = rnn train_X train_y test_X test_y n_hidden_neurons iterations
            outputbias s'].
Proof.
move=> eq_search.
have trains test_X test_y (n_hidden_neurons0 iterations0 outputbias0 :
                             rnn_value) :
    recurrent_neural_network rnn mean_squared_error accuracy float_mul train_X
      train_y test_X test_y n_hidden_neurons0 iterations0 true frac
      outputbias0 error s
    = rnn train_X train_y test_X test_y n_hidden_neurons iterations
        outputbias s'.
  by rewrite /recurrent_neural_network -/gridsearch eq_search.
move: eq_search.
rewrite /gridsearch /gridsearch_recurrent_neural_network rnn_combinations.
rewrite bind_Returned -/(step _ _ _ _ _).
case E: (for_each _ _ _) => [[[best_error best_combination] s'']|e] //.
have mem := gridsearch_recurrent_loop_mem E.
case known: ((error == "mse"%string) || (error == "accuracy"%string)).
  rewrite bind_Returned; case: mem => /= [->|[i lt_i ->]] //.
  by case: i lt_i => [|[|[|[|i]]]] //= _ [? ? ? ?]; subst; split=> //;
     first [by left | by right].
(* no pass scored: the final indexing reads the empty list *)
by have /= [_ ->] := gridsearch_recurrent_loop_unknown known E.
Qed.

(** X25: [gridsearch_recurrent_neural_network] with a metric name other
    than mse and accuracy trains the network for each of the four
    combinations, scores none of them, and raises an IndexError at the final
    indexing of the empty [best_combination]; an exception of a training
    comes out as it is. *)
Theorem gridsearch_recurrent_neural_network_unknown_metric train_X train_y
    error (frac : R) s :
  (error == "mse"%string) || (error == "accuracy"%string) = false ->
  let sp := py_int (float_mul frac (size train_X)%:R) in
  let n := Posz (size train_X) in
  let run (n_hidden_neurons iterations : nat) (s0 : trainer) :=
    pred <- rnn (iloc_rows train_X 0 sp) (iloc_rows train_y 0 sp)
              (iloc_rows train_X sp n) (iloc_rows train_y sp n)
              (RnnInt n_hidden_neurons) (RnnInt iterations) (RnnBool true)
              s0 ;;
    Returned pred.2 in
  gridsearch train_X train_y error frac s
  = (s1 <- run 50%N 250%N s ;;
     s2 <- run 50%N 500%N s1 ;;
     s3 <- run 100%N 250%N s2 ;;
     s4 <- run 100%N 500%N s3 ;;
     Raised IndexError).
Proof.
case/norP=> /negbTE not_mse /negbTE not_acc sp n run.
rewrite /gridsearch /gridsearch_recurrent_neural_network rnn_combinations.
rewrite bind_Returned not_mse not_acc -/sp -/n /rnn_grid /run.
rewrite /=.
by do ?[case: (rnn _ _ _ _ _ _ _ _) => [[[[[? ?] ?] ?] ?]|?] //=;
        rewrite ?not_mse ?not_acc //=].
Qed.

End RecurrentFacts.

(** ** The evaluator of the dynamical systems models *)

Section EvaluatorFacts.

Variable F : numFieldType.
Variable model : Type.
Variable state_names : seq string.
Variable model_reset : model -> outcome model.
Variable set_state_values : seq F -> model -> outcome model.
Variable set_parameter_values : seq F -> model -> outcome model.
Variable execute_steps : nat -> model -> outcome model.
Variable get_values : string -> model -> outcome (seq F).
Variable sk_mean_squared_error : seq F -> seq F -> F.

Implicit Types (dataset : Dynsys.labelled_frame F) (m : model).
Implicit Types (self : Dynsys.evaluator F model) (candidate : seq F).
Implicit Types (col : option string) (pts : bool).

Let evaluator_internal :=
  Dynsys.evaluator_internal state_names model_reset set_state_values
    set_parameter_values execute_steps get_values sk_mean_squared_error.
Let evaluator_step :=
  Dynsys.evaluator_step state_names set_state_values set_parameter_values
    execute_steps get_values sk_mean_squared_error.
Let aspect_error := Dynsys.aspect_error get_values sk_mean_squared_error.

(** The positions of a list of labels: a label that the table lacks is a
    KeyError. *)
Lemma get_loc_loop dataset (labels : seq string) (acc : seq nat) :
  for_each (fun acc x => j <- Dynsys.get_loc dataset x ;;
                         Returned (rcons acc j)) labels acc
  = if all (fun x => x \in Dynsys.columns dataset) labels
    then Returned (acc ++ [seq index x (Dynsys.columns dataset) | x <- labels])
    else Raised KeyError.
Proof.
elim: labels acc => [|x labels IH] acc /=; first by rewrite cats0.
rewrite /Dynsys.get_loc; case: ifP => //= _.
by rewrite IH cat_rcons.
Qed.

(** X26: [evaluator_internal] needs a dataset of two rows or more.  When
    the reset of the model returns and the dataset has the columns of the
    evaluation aspects, a dataset without rows is an IndexError (the read of
    its first row), and a dataset of one row is an UnboundLocalError: the
    loop over the time steps has no pass, and [fitness] is returned without
    ever being assigned. *)
Theorem evaluator_internal_needs_two_rows self candidate dataset pts m :
  model_reset (Dynsys.model_object self) = Returned m ->
  all (fun x => x \in Dynsys.columns dataset)
    (Dynsys.cleaned_eval_aspects self) ->
  (Dynsys.n_rows dataset < 2)%N ->
  evaluator_internal self candidate dataset pts
  = Raised (if Dynsys.n_rows dataset == 0%N then IndexError
            else UnboundLocalError).
Proof.
move=> reset_ok labels_ok; rewrite /evaluator_internal.
rewrite /Dynsys.evaluator_internal reset_ok bind_Returned.
rewrite get_loc_loop labels_ok bind_Returned /Dynsys.iloc_cells.
by case: (Dynsys.n_rows dataset) => [|[|n]].
Qed.

(** The loop over the states: one value per state, and [col] is left at the
    last state. *)
Lemma state_values_loop self dataset pts (step : nat)
    (pred_values : option (seq F)) (names : seq string) (acc : seq F) col res :
  for_each (fun acc0 name =>
      v <- Dynsys.state_value self dataset pts step pred_values name ;;
      Returned (rcons acc0.1 v, Some name))
    names (acc, col) = Returned res ->
  res.2 = last col [seq Some c | c <- names].
Proof.
elim: names acc col => [|c names IH] acc col /=; first by case=> <-.
by case: (Dynsys.state_value _ _ _ _ _ _) => [v|e] //= /IH.
Qed.

(** The loop over the aspects: one prediction and one error per aspect, and
    every error is taken against the same cell of the dataset, in the column
    of [col]. *)
Lemma aspect_error_loop dataset (step : nat) m (c : string)
    (aspects : seq string) (evals pred_values : seq F) res :
  for_each (aspect_error dataset step m (Some c)) aspects
    (evals, pred_values) = Returned res ->
  exists2 new, size new = size aspects
    & res = (evals
             ++ [seq sk_mean_squared_error [:: p]
                       [:: Dynsys.cell dataset (step + 1)
                             (Dynsys.without_start c)] | p <- new],
             pred_values ++ new).
Proof.
elim: aspects evals pred_values => [|aspect aspects IH] evals pred_values /=.
  by case=> <-; exists [::]; rewrite ?cats0.
case: (get_values _ _) => [values|e] //=.
case: (Dynsys.last_item _) => [p|e] //=.
rewrite /Dynsys.get_loc; case: ifP => // _ /=.
rewrite /Dynsys.iloc_cell; case: ifP => // _ /= /IH[new sz_new ->].
by exists (p :: new); rewrite /= ?sz_new // !cat_rcons.
Qed.

(** With an aspect to evaluate, the loop variable [col] must be bound, to a
    state whose column the dataset has. *)
Lemma aspect_error_loop_col dataset (step : nat) m col (aspect : string)
    (aspects : seq string) acc res :
  for_each (aspect_error dataset step m col) (aspect :: aspects) acc
  = Returned res ->
  exists2 c, col = Some c
           & Dynsys.without_start c \in Dynsys.columns dataset.
Proof.
case: acc => evals pred_values /=.
case: (get_values _ _) => [values|e] //=.
case: (Dynsys.last_item _) => [p|e] //=.
case: col => [c|] //=; rewrite /Dynsys.get_loc; case: ifP => // c_in _.
by exists c.
Qed.

(** A pass of the loop over the time steps. *)
Lemma evaluator_step_returned self candidate dataset pts m col
    (pred_values fitness : option (seq F)) (y : seq (seq F)) (step : nat)
    st' :
  (state_names = [::] -> col = None) ->
  evaluator_step self candidate dataset pts
    (m, col, pred_values, fitness, y) step = Returned st' ->
  let truth :=
    Dynsys.cell dataset (step + 1)
      (Dynsys.without_start (last ""%string state_names)) in
  exists2 new, size new = size (Dynsys.eval_aspects self)
    & [/\ state_names = [::] -> st'.1.1.1.2 = None,
          st'.1.2 = Some [seq sk_mean_squared_error [:: p] [:: truth]
                         | p <- new],
          st'.2 = rcons y new
        & Dynsys.eval_aspects self != [::] ->
          state_names != [::]
          /\ Dynsys.without_start (last ""%string state_names)
             \in Dynsys.columns dataset].
Proof.
move=> col_ok; rewrite /evaluator_step /Dynsys.evaluator_step.
case E: (for_each _ state_names _) => [[state_values col']|e] //=.
have /= eq_col := state_values_loop E.
case: (set_state_values _ _) => [m1|e] //=.
case: (set_parameter_values _ _) => [m2|e] //=.
case: (execute_steps _ _) => [m3|e] //=.
case Ea: (for_each _ _ _) => [[evals new0]|e] //= [<-] /=.
have col'_last : state_names != [::] ->
    col' = Some (last ""%string state_names).
  by rewrite eq_col; case: state_names {E} => [|c names] //= _; rewrite last_map.
case aspects: (Dynsys.eval_aspects self) Ea => [|aspect aspects'] Ea.
  case: Ea => <- <-; exists [::] => //; split=> //.
  by move=> names0; rewrite eq_col names0 /= col_ok.
have [c eq_c c_in] := aspect_error_loop_col Ea.
have names_neq0 : state_names != [::].
  by apply/eqP=> names0; move: eq_c; rewrite eq_col names0 /= col_ok.
move: eq_c c_in Ea; rewrite (col'_last names_neq0) => -[<-] c_in.
rewrite -/aspect_error => /aspect_error_loop[new sz_new [-> ->]].
exists new => //; split=> //.
by move=> names0; rewrite names0 in names_neq0.
Qed.

(** The loop over the time steps, after [k] passes. *)
Lemma evaluator_loop self candidate dataset pts (k : nat) m (row0 : seq F)
    st :
  for_each (evaluator_step self candidate dataset pts) (range k)
    (m, None, None, None, [:: row0]) = Returned st ->
  [/\ state_names = [::] -> st.1.1.1.2 = None,
      exists2 rows, st.2 = row0 :: rows
        & size rows = k
          /\ all (fun r => size r == size (Dynsys.eval_aspects self)) rows,
      (k == 0%N) = ~~ st.1.2
    & (0 < k)%N ->
      st.1.2
      = Some [seq sk_mean_squared_error [:: p]
                    [:: Dynsys.cell dataset k
                          (Dynsys.without_start (last ""%string state_names))]
             | p <- last row0 (behead st.2)]
      /\ (Dynsys.eval_aspects self != [::] ->
          state_names != [::]
          /\ Dynsys.without_start (last ""%string state_names)
             \in Dynsys.columns dataset)].
Proof.
elim: k st => [|k IH] st; first by case=> <-; split=> //; exists [::].
rewrite range_rcons for_each_rcons.
case E: (for_each _ _ _) => [[[[[m1 col] pred_values] fitness] y]|e];
  last by [].
rewrite bind_Returned.
have [col_ok [rows eq_y [sz_rows all_rows]] _ _] := IH _ E.
rewrite /= in col_ok eq_y.
case/(evaluator_step_returned col_ok) => new sz_new [col'_ok -> -> aspects_ok].
split=> //.
- exists (rcons rows new); first by rewrite eq_y rcons_cons.
  by rewrite size_rcons sz_rows all_rcons sz_new eqxx.
- by move=> _; rewrite addn1 eq_y /= last_rcons.
Qed.

(** X27: the shape of what [evaluator_internal] returns.  The call
    returns only on a dataset of two rows or more.  The table of predictions
    has the columns of the evaluation aspects and as many rows as the
    dataset, each with one value per aspect; its first row holds the values
    of the dataset in its first row, and each later row the predictions of
    one time step.  The fitness has one value per aspect, and of the
    evaluator only the model is changed. *)
Theorem evaluator_internal_shape self candidate dataset pts
    (fitness : seq F) (y_frame : Dynsys.labelled_frame F)
    (self' : Dynsys.evaluator F model) :
  evaluator_internal self candidate dataset pts
  = Returned (fitness, y_frame, self') ->
  [/\ (1 < Dynsys.n_rows dataset)%N,
      Dynsys.columns y_frame = Dynsys.cleaned_eval_aspects self
      /\ Dynsys.n_rows y_frame = Dynsys.n_rows dataset,
      all (fun r => size r == size (Dynsys.eval_aspects self))
        (Dynsys.frame_rows y_frame)
      /\ size fitness = size (Dynsys.eval_aspects self),
      nth [::] (Dynsys.frame_rows y_frame) 0
      = [seq Dynsys.cell dataset 0 x | x <- Dynsys.cleaned_eval_aspects self]
    & self' = Dynsys.with_model self (Dynsys.model_object self')].
Proof.
rewrite /evaluator_internal /Dynsys.evaluator_internal.
case: (model_reset _) => [m|e]; last by [].
rewrite bind_Returned get_loc_loop.
case: ifP => [_|]; last by [].
rewrite bind_Returned /Dynsys.iloc_cells.
case: ifP => [gt0|]; last by [].
rewrite bind_Returned cat0s -map_comp.
set row0 := map _ _.
case E: (for_each _ _ _) => [[[[[m1 col] pred_values] fit] y]|e]; last by [].
rewrite bind_Returned.
have [_ [rows eq_y [sz_rows all_rows]] eq_k fit_k] := evaluator_loop E.
rewrite /= in eq_y eq_k fit_k.
case: fit eq_k fit_k {E} => [fit|] //= eq_k fit_k [<- <- <-].
have gt1 : (1 < Dynsys.n_rows dataset)%N by rewrite -subn_gt0 lt0n eq_k.
have k_gt0 : (0 < Dynsys.n_rows dataset - 1)%N by rewrite subn_gt0.
have [[->] _] := fit_k k_gt0.
have size_last : size (last row0 (behead y)) = size (Dynsys.eval_aspects self).
  rewrite eq_y /=; case: rows sz_rows all_rows k_gt0 {eq_y} => [<- //|r rows'] _.
  by move=> /allP/(_ (last r rows') (mem_last _ _))/eqP.
split=> //=.
- by split=> //; rewrite /Dynsys.n_rows /= eq_y /= sz_rows subn1 prednK.
- by rewrite size_map size_last eq_y /= all_rows andbT !size_map eqxx.
by rewrite eq_y.
Qed.

(** X28: the fitness that [evaluator_internal] returns.  It holds the
    errors of the last time step only: the errors of the earlier steps are
    overwritten.  And the error of every aspect is taken against one and the
    same value of the dataset, the value in its last row and in the column of
    the last state of the model, not in the column of the aspect: the
    expression for the true value uses [col], the variable of the loop over
    the state names, where the aspect is meant.  With an aspect to evaluate,
    the model must therefore have a state, and the dataset must have the
    column of its last state. *)
Theorem evaluator_internal_fitness self candidate dataset pts
    (fitness : seq F) (y_frame : Dynsys.labelled_frame F)
    (self' : Dynsys.evaluator F model) :
  evaluator_internal self candidate dataset pts
  = Returned (fitness, y_frame, self') ->
  let last_state := Dynsys.without_start (last ""%string state_names) in
  let truth :=
    Dynsys.cell dataset (Dynsys.n_rows dataset - 1) last_state in
  fitness = [seq sk_mean_squared_error [:: p] [:: truth]
            | p <- last [::] (Dynsys.frame_rows y_frame)]
  /\ (Dynsys.eval_aspects self != [::] ->
      state_names != [::] /\ last_state \in Dynsys.columns dataset).
Proof.
rewrite /evaluator_internal /Dynsys.evaluator_internal.
case: (model_reset _) => [m|e]; last by [].
rewrite bind_Returned get_loc_loop.
case: ifP => [_|]; last by [].
rewrite bind_Returned /Dynsys.iloc_cells.
case: ifP => [gt0|]; last by [].
rewrite bind_Returned cat0s.
set row0 := map _ _.
case E: (for_each _ _ _) => [[[[[m1 col] pred_values] fit] y]|e]; last by [].
rewrite bind_Returned.
have [_ [rows eq_y _] eq_k fit_k] := evaluator_loop E.
rewrite /= in eq_y eq_k fit_k.
case: fit eq_k fit_k {E} => [fit|] //= eq_k fit_k [<- <- _].
have k_gt0 : (0 < Dynsys.n_rows dataset - 1)%N by rewrite lt0n eq_k.
have [[->] aspects_ok] := fit_k k_gt0; split=> //=.
by rewrite eq_y /=; case: rows {eq_y}.
Qed.

End EvaluatorFacts.

Section GeneratorFacts.

Variable F : numFieldType.
Variable parameter_names : seq string.
Variable prng : Type.
Variable uniform : F -> F -> prng -> F * prng.

(** X30: the candidates of [generator]: one value per parameter of the
    model, drawn one after the other from the generator that was passed;
    when [random.uniform(a, b)] gives values from [a] to [b], every value of
    a candidate lies between -1 and 1. *)
Theorem generator_candidate (random : prng) :
  (forall (a b : F) (g : prng), a <= b -> a <= (uniform a b g).1 <= b) ->
  let candidate := (Dynsys.generator parameter_names uniform random).1 in
  size candidate = size parameter_names
  /\ all (fun v => - 1 <= v <= 1) candidate.
Proof.
move=> uniform_ok; rewrite /Dynsys.generator.
have le_bounds : - 1 <= 1 :> F by rewrite (le_trans (lerN10 F)) ?ler01.
elim: (size parameter_names) random => [|k IH] random //=.
have := uniform_ok (- 1) 1 random le_bounds.
case: (uniform _ _ random) => v random1 /= v_ok.
have := IH random1; case: (Dynsys.uniform_draws _ _ _) => vs random2 /=.
by case=> -> ->; rewrite v_ok.
Qed.

End GeneratorFacts.

Section ObjectiveFacts.

Variable F : numFieldType.
Variable model : Type.
Variable state_names : seq string.
Variable model_reset : model -> outcome model.
Variable set_state_values : seq F -> model -> outcome model.
Variable set_parameter_values : seq F -> model -> outcome model.
Variable execute_steps : nat -> model -> outcome model.
Variable get_values : string -> model -> outcome (seq F).
Variable sk_mean_squared_error : seq F -> seq F -> F.

Implicit Types (self : Dynsys.evaluator F model).

Let evaluator_internal :=
  Dynsys.evaluator_internal state_names model_reset set_state_values
    set_parameter_values execute_steps get_values sk_mean_squared_error.

Lemma foldl_addE (acc : F) (values : seq F) :
  foldl +%R acc values = acc + \sum_(v <- values) v.
Proof.
elim: values acc => [|v values IH] acc /=; first by rewrite big_nil addr0.
by rewrite IH big_cons addrA.
Qed.

Lemma py_sumE (values : seq F) : Dynsys.py_sum values = \sum_(v <- values) v.
Proof. by rewrite /Dynsys.py_sum foldl_addE add0r. Qed.

(** X29: [evaluator_single_objective] gives the sums of what
    [evaluator_multi_objective] gives: both evaluate the candidates one after
    the other on the training data, with the true values fed back at every
    time step, each candidate on the model as the one before left it; the
    single objective of a candidate is the sum of its errors over the
    aspects, and an exception of an evaluation comes out of both the
    same. *)
Theorem evaluator_single_objective_sums self (candidates : seq (seq F)) :
  Dynsys.evaluator_single_objective state_names model_reset set_state_values
    set_parameter_values execute_steps get_values sk_mean_squared_error self
    candidates
  = (res <- Dynsys.evaluator_multi_objective state_names model_reset
              set_state_values set_parameter_values execute_steps get_values
              sk_mean_squared_error self candidates ;;
     Returned ([seq \sum_(v <- fitness) v | fitness <- res.1], res.2)).
Proof.
rewrite /Dynsys.evaluator_single_objective /Dynsys.evaluator_multi_objective.
rewrite -/evaluator_internal.
have -> : [::] = [seq Dynsys.py_sum fitness | fitness <- [::]] :> seq F by [].
elim: candidates [::] self => [|c candidates IH] acc self /=.
  by congr (Returned (_, _)); apply: eq_map => fitness; rewrite py_sumE.
case: (evaluator_internal _ _ _ _) => [[[fitness y_pred] self1]|e] //=.
by rewrite -map_rcons IH.
Qed.

End ObjectiveFacts.

(** * The statements on sample inputs *)

(** The round trip of C4 on a table of two rows. *)
Lemma denormalize_normalize_sample :
  let: (new_train, _, minimum, maximum) :=
    normalize Sample.train_two Sample.test_one 0 1 in
  denormalize new_train minimum maximum 0 1 = Sample.train_two.
Proof.
apply: denormalize_normalize.
by move/eqP; rewrite eq_sym oner_eq0.
Defined.

(** C5 as the specification words it fails on a table of one row: the call
    returns, without a table of true targets. *)
Lemma predict_without_true_targets_one_row :
  raises (predict_values_echo_state_network Sample.activation Sample.Win
            Sample.W Sample.Wback Sample.leak Sample.Wout Sample.X_one None
            true) = false.
Proof. by []. Qed.

(** C5 on a table of three rows. *)
Lemma predict_without_true_targets_sample :
  predict_values_echo_state_network Sample.activation Sample.Win Sample.W
    Sample.Wback Sample.leak Sample.Wout Sample.X_three None true
  = Raised AttributeError.
Proof.
have [raised _ _] :=
  predict_without_true_targets Sample.activation Sample.Win Sample.W
    Sample.Wback Sample.leak Sample.Wout Sample.X_three.
exact: (raised isT isT).
Defined.

(** C3 on two tables of true targets that agree on their first row. *)
Lemma teacher_forcing_prefix_sample :
  exists labels1 Y1 labels2 Y2,
    [/\ predict_values_echo_state_network Sample.activation Sample.Win
          Sample.W Sample.Wback Sample.leak Sample.Wout Sample.X_three
          (Some Sample.y_first) true = Returned (labels1, Y1),
        predict_values_echo_state_network Sample.activation Sample.Win
          Sample.W Sample.Wback Sample.leak Sample.Wout Sample.X_three
          (Some Sample.y_second) true = Returned (labels2, Y2),
        Y1 = [seq forced_prediction Sample.activation Sample.Win Sample.W
                    Sample.Wback Sample.leak Sample.Wout
                    (row_at Sample.X_three) (row_at Sample.y_first) k
             | k <- range (size Sample.X_three)],
        take 2 Y1 = take 2 Y2
      & take 2 labels1 = take 2 labels2].
Proof.
exact: (@teacher_forcing_prefix _ Sample.activation _ _ _ Sample.Win Sample.W
          Sample.Wback Sample.leak Sample.Wout Sample.X_three Sample.y_first
          Sample.y_second 1 isT isT isT (erefl _)).
Defined.

(** C8 on a column whose values are all 1: every scaled value is the lower
    bound of the range. *)
Lemma normalize_zero_range_sample :
  let: (new_train, new_test, _, _) :=
    normalize Sample.flat_train Sample.flat_test 2%:R 5%:R in
  forall r : 'rV[rat]_1, r \in new_train ++ new_test -> r 0 0 = 2%:R.
Proof.
have [_ _ _ _] :=
  normalize_zero_range Sample.flat_train Sample.flat_test 2%:R 5%:R 0.
by case; first by rewrite !mxE /= !mxE maxxx minxx.
Defined.

(** C2 on a generator whose draws are all 1. *)
Lemma initialize_spectral_radius_sample :
  let W0 := drawn_reservoir_matrix
              (Sample.constant_draws (1 : algC)) 0 1 tt in
  exists rho Win W Wback g',
    [/\ initialize_echo_state_network (Sample.constant_draws (1 : algC))
          (@eig_abs_closed algC) 0 0 1 tt = Returned (Win, W, Wback, g'),
        is_spectral_radius W0 rho,
        W = (5%:R / 4%:R / rho) *: W0
      & rho != 0 -> is_spectral_radius W (5%:R / 4%:R)].
Proof. exact: initialize_spectral_radius. Defined.

Lemma eigenvalue_zero_matrix (C : numClosedFieldType) (N : nat) (l : C) :
  eigenvalue (0 : 'M[C]_N) l -> l = 0.
Proof.
case/eigenvalueP=> v /esym/eqP; rewrite mulmx0 scaler_eq0.
by case/orP=> /eqP // ->; rewrite eqxx.
Qed.

(** C2 as the specification words it fails when every draw is one half: the
    drawn matrix is zero, its spectral radius is zero, and the spectral
    radius of the returned matrix is not 1.25.  (The field makes the quotient
    by zero 0 and the returned matrix zero; IEEE arithmetic makes the
    quotient infinite and the returned matrix NaN.) *)
Lemma initialize_spectral_radius_zero_draw :
  exists Win W Wback g',
    [/\ drawn_reservoir_matrix (Sample.constant_draws (2^-1 : algC)) 0 1 tt
        = 0,
        py_max (eig_abs_closed
                  (drawn_reservoir_matrix
                     (Sample.constant_draws (2^-1 : algC)) 0 1 tt))
        = Returned 0,
        initialize_echo_state_network (Sample.constant_draws (2^-1 : algC))
          (@eig_abs_closed algC) 0 0 1 tt = Returned (Win, W, Wback, g')
      & ~ is_spectral_radius W (5%:R / 4%:R)].
Proof.
have W0 : drawn_reservoir_matrix (Sample.constant_draws (2^-1 : algC)) 0 1 tt
          = 0.
  by rewrite /drawn_reservoir_matrix /= subrr.
have [rho eq_rho [[l ev_l norm_l] _]] :=
  py_max_spectral_radius
    (drawn_reservoir_matrix (Sample.constant_draws (2^-1 : algC)) 0 1 tt)
    (ltn0Sn 0).
have rho0 : rho = 0.
  by rewrite -norm_l (@eigenvalue_zero_matrix _ 1 l) ?normr0 // -W0.
exists (1 *: (const_mx 2^-1 - const_mx 2^-1)), 0,
  (1 *: (const_mx 2^-1 - const_mx 2^-1)), tt; split=> //.
- by rewrite eq_rho rho0.
- rewrite /initialize_echo_state_network /=.
  move: eq_rho; rewrite /drawn_reservoir_matrix /= => ->.
  by rewrite bind_Returned !subrr !scaler0.
case=> -[l' /eigenvalue_zero_matrix -> /eqP]; rewrite normr0 eq_sym.
by rewrite mulf_eq0 invr_eq0 !pnatr_eq0.
Qed.

(** C1 on eleven training rows: the design matrix has one row, and the run
    goes through. *)
Lemma reservoir_computing_training_sample :
  returns (reservoir_computing_body (Sample.constant_draws 1)
             Sample.unit_spectrum Sample.activation Sample.activation
             Sample.transposed Sample.eleven_rows Sample.eleven_rows
             Sample.test_one Sample.test_one 1 Sample.leak true tt).
Proof.
have [_ _ _ ->] :=
  @reservoir_computing_training _ _ (Sample.constant_draws 1)
    Sample.unit_spectrum Sample.activation Sample.activation Sample.transposed
    1 1 Sample.eleven_rows Sample.eleven_rows Sample.test_one Sample.test_one
    1 Sample.leak true tt _ _ _ _ isT isT (erefl _) (erefl _).
by [].
Defined.

(** C6 on eleven rows and the fraction 1. *)
Lemma gridsearch_grid_and_split_sample :
  let train := Sample.eleven_rows in
  let k := `|Num.floor (Sample.exact_product 1 (size train)%:R)|%N in
  let combinations :=
    cartesian_product
      [:: dict_values (tuned_parameters rat) "a";
          dict_values (tuned_parameters rat) "reservoir_size"] in
  Sample.search_ones "mse"
  = (res <- validation_scores (Sample.constant_draws 1) Sample.unit_spectrum
              Sample.activation Sample.activation Sample.transposed
              Sample.score_one Sample.accuracy_one (take k train)
              (take k train) (drop k train) (drop k (take (size train) train))
              true "mse" combinations tt ;;
     pair <- best_pair
               (if initial_best_error rat "mse" is Some best
                then (select_best "mse" best [::] (zip combinations res.1)).2
                else [::]) ;;
     Returned (pair.1, pair.2, res.2)).
Proof.
have prod_ge0 :
    0 <= Sample.exact_product 1 (size Sample.eleven_rows)%:R :> rat.
  by rewrite /Sample.exact_product mul1r ler0n.
have [_ _ _ eq_search _] :=
  gridsearch_grid_and_split (Sample.constant_draws 1) Sample.unit_spectrum
    Sample.activation Sample.activation Sample.transposed Sample.score_one
    Sample.accuracy_one Sample.eleven_rows true "mse" tt prod_ge0.
exact: eq_search.
Defined.

Lemma sample_split :
  py_int (Sample.exact_product 1 (size Sample.eleven_rows)%:R) = Posz 11.
Proof. by rewrite /Sample.exact_product mul1r py_int_nat. Qed.

Lemma sample_scores (mse : frame rat 1 -> frame rat 1 -> rat)
    (acc : frame rat 1 -> seq nat -> rat) (c : rat) (error : string) :
  (forall y p, mse y p = c) -> (forall y p, acc y p = c) ->
  let sp := py_int (Sample.exact_product 1 (size Sample.eleven_rows)%:R) in
  let n := Posz (size Sample.eleven_rows) in
  validation_scores (Sample.constant_draws 1) Sample.unit_spectrum
    Sample.activation Sample.activation Sample.transposed mse acc
    (iloc_rows Sample.eleven_rows 0 sp) (iloc_rows Sample.eleven_rows 0 sp)
    (iloc_rows Sample.eleven_rows sp n) (iloc_rows Sample.eleven_rows sp n)
    true error (grid rat) tt
  = Returned (nseq 6 c, tt).
Proof.
move=> mse_c acc_c sp n; rewrite /sp /n sample_split iloc_rows_upto.
rewrite iloc_rows_pos.
set train := take 11 _; set test := drop 11 _.
have gt0 : (0 < 1)%N by [].
have lt10 : (10 < size train)%N by [].
have eq_size : size train = size train by [].
have le_test : true -> (size test <= (size test).+1)%N by [].
have eig_ok (N : nat) (A : 'M[rat]_N) : Sample.unit_spectrum A != [::] by [].
have shape : all (fun comb : seq (pyval rat) =>
                    if comb is [:: _; PyInt _] then true else false)
               (grid rat) by [].
have [[scores []] eq_scores] :=
  returns_value
    (validation_scores_return (eig_abs := Sample.unit_spectrum)
       (Sample.constant_draws 1) Sample.activation Sample.activation
       Sample.transposed mse acc error tt gt0 lt10 eq_size le_test eig_ok
       shape).
by rewrite eq_scores (validation_scores_const mse_c acc_c eq_scores).
Qed.


(** C9 on accuracies that are all 0: the final indexing raises. *)
Lemma gridsearch_without_improvement_sample :
  Sample.search_zeros "accuracy" = Raised IndexError.
Proof.
have eq_scores := @sample_scores Sample.score_zero Sample.accuracy_zero 0
                    "accuracy" (fun _ _ => erefl) (fun _ _ => erefl).
have [_ raised _] :=
  gridsearch_without_improvement (Sample.constant_draws 1)
    Sample.unit_spectrum Sample.activation Sample.activation Sample.transposed
    Sample.score_zero Sample.accuracy_zero Sample.exact_product
    Sample.eleven_rows Sample.eleven_rows true "accuracy" 1 tt.
by have [] := raised _ _ eq_scores.
Defined.

(** C10 on three training rows, with the grid search. *)
Lemma reservoir_computing_short_training_sample :
  reservoir_computing (Sample.constant_draws 1) Sample.unit_spectrum
    Sample.activation Sample.activation Sample.transposed Sample.score_one
    Sample.accuracy_one Sample.exact_product Sample.three_rows
    Sample.three_rows Sample.test_one Sample.test_one (PyInt rat 100)
    (PyFloat Sample.leak) false true (7%:R / 10%:R) "accuracy" tt
  = Raised ValueError.
Proof.
have [_ _] :=
  @reservoir_computing_short_training _ _ (Sample.constant_draws 1)
    Sample.unit_spectrum Sample.activation Sample.activation Sample.transposed
    1 1 Sample.score_one Sample.accuracy_one Sample.exact_product
    Sample.three_rows Sample.three_rows Sample.test_one Sample.test_one
    (PyInt rat 100) (PyFloat Sample.leak) false true (7%:R / 10%:R)
    "accuracy" tt isT.
exact.
Defined.

(** ** The further properties on sample inputs *)

(** X2 on the tables of two rows and of one row. *)
Lemma normalize_in_range_sample :
  let: (new_train, new_test, _, _) :=
    normalize Sample.train_two Sample.test_one 0 1 in
  forall (r : 'rV[rat]_1) j,
    r \in new_train ++ new_test -> 0 <= r 0 j <= 1.
Proof.
exact: (@normalize_in_range _ _ Sample.train_two Sample.test_one 0 1 ler01).
Defined.

(** X3 on the first two rows of these tables. *)
Lemma normalize_monotone_sample :
  let: (new_train, new_test, _, _) :=
    normalize Sample.train_two Sample.test_one 0 1 in
  (row_at (new_train ++ new_test) 0 0 0 <= row_at (new_train ++ new_test) 1 0 0)
  = (row_at (Sample.train_two ++ Sample.test_one) 0 0 0
       <= row_at (Sample.train_two ++ Sample.test_one) 1 0 0).
Proof.
exact: (@normalize_monotone _ _ Sample.train_two Sample.test_one 0 1 0 1 0
          ltr01 isT isT).
Defined.

(** X4 on these tables. *)
Lemma normalize_extremes_sample :
  let: (new_train, new_test, minimum, maximum) :=
    normalize Sample.train_two Sample.test_one 0 1 in
  exists i_min i_max,
    [/\ (i_min < 3)%N /\ (i_max < 3)%N,
        row_at (Sample.train_two ++ Sample.test_one) i_min 0 0 = minimum 0 0
        /\ row_at (Sample.train_two ++ Sample.test_one) i_max 0 0
           = maximum 0 0,
        minimum 0 0 <= maximum 0 0,
        row_at (new_train ++ new_test) i_min 0 0 = 0
      & minimum 0 0 != maximum 0 0 ->
        row_at (new_train ++ new_test) i_max 0 0 = 1].
Proof.
exact: (@normalize_extremes _ _ Sample.train_two Sample.test_one 0 1 0 isT).
Defined.

(** X5 on these tables. *)
Lemma denormalize_normalize_test_sample :
  let: (_, new_test, minimum, maximum) :=
    normalize Sample.train_two Sample.test_one 0 1 in
  denormalize new_test minimum maximum 0 1 = Sample.test_one.
Proof.
apply: denormalize_normalize_test.
by move/eqP; rewrite eq_sym oner_eq0.
Defined.

(** X6 on a free run over three rows. *)
Lemma predict_shape_sample :
  exists labels Y,
    [/\ predict_values_echo_state_network Sample.activation Sample.Win
          Sample.W Sample.Wback Sample.leak Sample.Wout Sample.X_three None
          false = Returned (labels, Y),
        size Y = 3%N, size labels = 3%N
      & labels = [seq idxmax r | r <- Y]].
Proof.
have run_ok : returns (predict_values_echo_state_network Sample.activation
                         Sample.Win Sample.W Sample.Wback Sample.leak
                         Sample.Wout Sample.X_three None false) by [].
have [[labels Y] eq_run] := returns_value run_ok.
have [sizeY size_labels eq_labels] := predict_shape eq_run.
by exists labels, Y.
Defined.

(** X7 on a free run over three rows, with and without a table of true
    targets. *)
Lemma predict_free_running_sample :
  returns (predict_values_echo_state_network Sample.activation Sample.Win
             Sample.W Sample.Wback Sample.leak Sample.Wout Sample.X_three
             (Some Sample.y_first) false)
  /\ predict_values_echo_state_network Sample.activation Sample.Win
       Sample.W Sample.Wback Sample.leak Sample.Wout Sample.X_three
       (Some Sample.y_first) false
     = predict_values_echo_state_network Sample.activation Sample.Win
         Sample.W Sample.Wback Sample.leak Sample.Wout Sample.X_three None
         false.
Proof.
have [eq_run run_ok _] :=
  predict_free_running Sample.activation Sample.Win Sample.W Sample.Wback
    Sample.leak Sample.Wout Sample.X_three (Some Sample.y_first).
by split; [exact: (run_ok isT) | exact: eq_run].
Defined.

(** X8 on three rows and a table of true targets of one row: the third
    pass finds no second row of true targets. *)
Lemma predict_forced_outcome_sample :
  predict_values_echo_state_network Sample.activation Sample.Win Sample.W
    Sample.Wback Sample.leak Sample.Wout Sample.X_three (Some Sample.X_one)
    true
  = Raised IndexError.
Proof.
exact: (@predict_forced_outcome _ Sample.activation _ _ _ Sample.Win Sample.W
          Sample.Wback Sample.leak Sample.Wout Sample.X_three Sample.X_one
          isT).
Defined.

(** X9 on the first two of three rows. *)
Lemma predict_prefix_sample :
  exists labels Y,
    predict_values_echo_state_network Sample.activation Sample.Win Sample.W
      Sample.Wback Sample.leak Sample.Wout Sample.X_three None false
    = Returned (labels, Y)
    /\ predict_values_echo_state_network Sample.activation Sample.Win
         Sample.W Sample.Wback Sample.leak Sample.Wout
         (take 2 Sample.X_three) None false
       = Returned (take 2 labels, take 2 Y).
Proof.
have run_ok : returns (predict_values_echo_state_network Sample.activation
                         Sample.Win Sample.W Sample.Wback Sample.leak
                         Sample.Wout Sample.X_three None false) by [].
have [[labels Y] eq_run] := returns_value run_ok.
exists labels, Y; split; first exact: eq_run.
exact: (predict_prefix 2 eq_run).
Defined.

(** X10 on the first row of a free run. *)
Lemma predict_labels_sample :
  exists labels Y (l : 'I_1),
    [/\ predict_values_echo_state_network Sample.activation Sample.Win
          Sample.W Sample.Wback Sample.leak Sample.Wout Sample.X_three None
          false = Returned (labels, Y),
        nth 0%N labels 0 = l
      & row_at Y 0 0 0 <= row_at Y 0 0 l].
Proof.
have run_ok : returns (predict_values_echo_state_network Sample.activation
                         Sample.Win Sample.W Sample.Wback Sample.leak
                         Sample.Wout Sample.X_three None false) by [].
have [[labels Y] eq_run] := returns_value run_ok.
have lt_i : (0 < size Sample.X_three)%N by [].
have [l [eq_l le_l _]] := predict_labels 0 eq_run lt_i.
by exists labels, Y, l.
Defined.

(** X11 on a generator that always draws 0. *)
Lemma initialize_weight_bounds_sample :
  exists Win W Wback g',
    initialize_echo_state_network (Sample.constant_draws (0 : rat))
      Sample.unit_spectrum 1 1 1 tt = Returned (Win, W, Wback, g')
    /\ forall i j, - 2^-1 <= Win i j < 2^-1.
Proof.
have draws (r c : nat) (g0 : unit) i j :
    0 <= (Sample.constant_draws (0 : rat) r c g0).1 i j < 1.
  by rewrite /= mxE lexx ltr01.
have run_ok : returns (initialize_echo_state_network
                         (Sample.constant_draws (0 : rat))
                         Sample.unit_spectrum 1 1 1 tt) by [].
have [[[[Win W] Wback] g'] eq_run] := returns_value run_ok.
have [_ bounds _ _ _] := initialize_weight_bounds draws eq_run.
by exists Win, W, Wback, g'.
Defined.

(** X12 on an [eig] that always finds the eigenvalue 1. *)
Lemma initialize_outcome_sample :
  returns (initialize_echo_state_network (Sample.constant_draws (1 : rat))
             Sample.unit_eigenvalues 1 1 2 tt) = (0 < 2)%N
  /\ initialize_echo_state_network (Sample.constant_draws (1 : rat))
       Sample.unit_eigenvalues 1 1 0 tt = Raised ValueError.
Proof.
apply: initialize_outcome => N A.
by rewrite /Sample.unit_eigenvalues size_nseq.
Defined.

(** X13 on eleven training rows and one test row. *)
Lemma reservoir_computing_shapes_sample :
  exists pred_train_y pred_test_y pred_train_y_prob pred_test_y_prob g',
    [/\ reservoir_computing (Sample.constant_draws 1) Sample.unit_spectrum
          Sample.activation Sample.activation Sample.transposed
          Sample.score_one Sample.accuracy_one Sample.exact_product
          Sample.eleven_rows Sample.eleven_rows Sample.test_one
          Sample.test_one (PyInt rat 1) (PyFloat Sample.leak) true false 1
          "mse" tt
        = Returned (pred_train_y, pred_test_y, pred_train_y_prob,
                    pred_test_y_prob, g'),
        size pred_train_y = 11%N /\ size pred_train_y_prob = 11%N
      & size pred_test_y = 1%N /\ size pred_test_y_prob = 1%N].
Proof.
have gt0 : (0 < 1)%N by [].
have lt10 : (10 < size Sample.eleven_rows)%N by [].
have eq_size : size Sample.eleven_rows = size Sample.eleven_rows by [].
have le_test : true -> (size Sample.test_one <= (size Sample.test_one).+1)%N.
  by [].
have init_ok : returns (initialize_echo_state_network
                          (Sample.constant_draws (1 : rat))
                          Sample.unit_spectrum 1 1 1 tt) by [].
exact: (@reservoir_computing_shapes rat unit (Sample.constant_draws 1)
          Sample.unit_spectrum Sample.activation Sample.activation
          Sample.transposed 1 1 Sample.score_one Sample.exact_product
          Sample.accuracy_one Sample.eleven_rows Sample.eleven_rows
          Sample.test_one Sample.test_one 1 (PyFloat Sample.leak) true 1
          "mse" tt gt0 lt10 eq_size le_test init_ok).
Defined.

(** X14 on eleven training rows with ten target rows. *)
Lemma reservoir_computing_mismatched_targets_sample :
  reservoir_computing_body (Sample.constant_draws 1) Sample.unit_spectrum
    Sample.activation Sample.activation Sample.transposed Sample.eleven_rows
    Sample.ten_rows Sample.test_one Sample.test_one 1 Sample.leak true tt
  = Raised ValueError.
Proof.
have gt0 : (0 < 1)%N by [].
have lt10 : (10 < size Sample.eleven_rows)%N by [].
have neq_size : size Sample.ten_rows <> size Sample.eleven_rows by [].
have init_ok : returns (initialize_echo_state_network
                          (Sample.constant_draws (1 : rat))
                          Sample.unit_spectrum 1 1 1 tt) by [].
exact: (@reservoir_computing_mismatched_targets rat unit
          (Sample.constant_draws 1) Sample.unit_spectrum Sample.activation
          Sample.activation Sample.transposed 1 1 Sample.eleven_rows
          Sample.ten_rows Sample.test_one Sample.test_one 1 Sample.leak true
          tt gt0 lt10 neq_size init_ok).
Defined.

(** X16 on a dict of two names. *)
Lemma generate_parameter_combinations_complete_sample :
  [/\ forall c : seq nat,
        (c \in [:: [:: 1%N; 3%N]; [:: 2%N; 3%N]])
        = all2 (fun v p => v \in dict_values Sample.small_dict p) c
            [:: "a"%string; "b"%string],
      size [:: [:: 1%N; 3%N]; [:: 2%N; 3%N]]
      = (\prod_(p <- [:: "a"%string; "b"%string])
           size (dict_values Sample.small_dict p))%N
    & all (fun p => uniq (dict_values Sample.small_dict p))
        [:: "a"%string; "b"%string] ->
      uniq [:: [:: 1%N; 3%N]; [:: 2%N; 3%N]]].
Proof.
have eq_run : generate_parameter_combinations Sample.small_dict false
                [:: "a"%string; "b"%string]
              = Returned [:: [:: 1%N; 3%N]; [:: 2%N; 3%N]] by [].
exact: (generate_parameter_combinations_complete eq_run).
Defined.

(** X17 on ten rows and the fraction 0.5. *)
Lemma gridsearch_split_partition_sample :
  let s := slice_bound 10
             (py_int (Sample.exact_product (2%:R^-1) 10%:R)) in
  take s Sample.ten_rows ++ drop s Sample.ten_rows = Sample.ten_rows
  /\ (s <= 10)%N.
Proof.
have eq_size : size Sample.ten_rows = size Sample.ten_rows by [].
have [_ [eq_X _] le_s _ _] :=
  @gridsearch_split_partition rat unit (Sample.constant_draws 1)
    Sample.unit_spectrum Sample.activation Sample.activation
    Sample.transposed 1 1 Sample.score_one Sample.accuracy_one
    Sample.exact_product Sample.ten_rows Sample.ten_rows true "mse"
    (2%:R^-1) tt eq_size.
by split; [exact: eq_X | exact: le_s].
Defined.

(** X18 on ten rows and the fraction 0.5: the training part has five
    rows. *)
Lemma gridsearch_short_training_part_sample :
  gridsearch_reservoir_computing (Sample.constant_draws 1)
    Sample.unit_spectrum Sample.activation Sample.activation
    Sample.transposed Sample.score_one Sample.accuracy_one
    Sample.exact_product Sample.ten_rows Sample.ten_rows true "mse"
    (2%:R^-1) tt
  = Raised ValueError.
Proof.
have eq5 : Sample.exact_product (2%:R^-1) (size Sample.ten_rows)%:R = 5%:R.
  rewrite /Sample.exact_product [size _]/= -[10%N]/(2 * 5)%N natrM.
  by rewrite mulKf // pnatr_eq0.
have prod_ge0 :
    0 <= Sample.exact_product (2%:R^-1) (size Sample.ten_rows)%:R.
  by rewrite eq5 ler0n.
have lt10 :
    Sample.exact_product (2%:R^-1) (size Sample.ten_rows)%:R < 10%:R.
  by rewrite eq5 ltr_nat.
exact: (@gridsearch_short_training_part rat unit (Sample.constant_draws 1)
          Sample.unit_spectrum Sample.activation Sample.activation
          Sample.transposed 1 1 Sample.score_one Sample.accuracy_one
          Sample.exact_product Sample.ten_rows Sample.ten_rows true "mse"
          (2%:R^-1) tt prod_ge0 lt10).
Defined.

(** A search that returns: with the accuracy 1 for every combination, the
    first combination of the grid is kept. *)
Lemma search_ones_returns :
  Sample.search_ones "accuracy"
  = Returned (PyInt rat 400, PyFloat (6%:R / 10%:R), tt).
Proof.
rewrite /Sample.search_ones gridsearchE.
rewrite (@sample_scores Sample.score_one Sample.accuracy_one 1 "accuracy"
           (fun _ _ => erefl) (fun _ _ => erefl)).
rewrite bind_Returned.
have -> : initial_best_error rat "accuracy" = Some 0 by [].
have -> : select_best "accuracy" 0 [::] (zip (grid rat) (nseq 6 1))
          = (1, [:: PyFloat (6%:R / 10%:R); PyInt rat 400]).
  by rewrite gridE.
by [].
Qed.

(** X19 on that search. *)
Lemma gridsearch_returns_grid_member_sample :
  exists (reservoir_size a : pyval rat) (g' : unit),
    [/\ Sample.search_ones "accuracy" = Returned (reservoir_size, a, g'),
        a = PyFloat (6%:R / 10%:R) \/ a = PyFloat (8%:R / 10%:R)
      & [\/ reservoir_size = PyInt rat 400, reservoir_size = PyInt rat 700
          | reservoir_size = PyInt rat 1000]].
Proof.
have [_ a_in size_in] :=
  @gridsearch_returns_grid_member rat unit (Sample.constant_draws 1)
    Sample.unit_spectrum Sample.activation Sample.activation
    Sample.transposed 1 1 Sample.score_one Sample.accuracy_one
    Sample.exact_product Sample.eleven_rows Sample.eleven_rows true
    "accuracy" 1 tt _ _ tt search_ones_returns.
exists (PyInt rat 400), (PyFloat (6%:R / 10%:R)), tt; split.
- exact: search_ones_returns.
- exact: a_in.
exact: size_in.
Defined.

(** X20 on eleven training rows and one test row. *)
Lemma regression_reservoir_computing_result_sample :
  exists pred_train_y_val pred_test_y_val g',
    [/\ TemporalRegressionAlgorithms.reservoir_computing
          (Sample.constant_draws 1) Sample.unit_spectrum Sample.activation
          Sample.activation Sample.transposed Sample.score_one
          Sample.accuracy_one Sample.exact_product Sample.eleven_rows
          Sample.eleven_rows Sample.test_one Sample.test_one (PyInt rat 1)
          (PyFloat Sample.leak) true false 1 tt
        = Returned (pred_train_y_val, pred_test_y_val, g'),
        size pred_train_y_val = 11%N
      & size pred_test_y_val = 1%N].
Proof.
have gt0 : (0 < 1)%N by [].
have lt10 : (10 < size Sample.eleven_rows)%N by [].
have eq_size : size Sample.eleven_rows = size Sample.eleven_rows by [].
have le_test : true -> (size Sample.test_one <= (size Sample.test_one).+1)%N.
  by [].
have init_ok : returns (initialize_echo_state_network
                          (Sample.constant_draws (1 : rat))
                          Sample.unit_spectrum 1 1 1 tt) by [].
have [_ shapes] :=
  @regression_reservoir_computing_result rat unit (Sample.constant_draws 1)
    Sample.unit_spectrum Sample.activation Sample.activation
    Sample.transposed 1 1 Sample.score_one Sample.exact_product
    Sample.accuracy_one Sample.accuracy_zero Sample.eleven_rows
    Sample.eleven_rows Sample.test_one Sample.test_one 1
    (PyFloat Sample.leak) true false 1 tt gt0 lt10 eq_size le_test init_ok.
exact: shapes.
Defined.

(** X21 on a metric name that the search does not know. *)
Lemma gridsearch_time_series_unknown_metric_sample :
  gridsearch_time_series Sample.arimax_stub Sample.score_one
    Sample.exact_product Sample.ten_rows
    Sample.ten_rows "f1" 1 tt
  = Raised UnboundLocalError.
Proof.
exact: (@gridsearch_time_series_unknown_metric rat 1 unit Sample.arimax_stub
          Sample.score_one Sample.exact_product Sample.ten_rows
          Sample.ten_rows "f1" 1 tt (erefl _)).
Defined.

(** X22 on an error that is always 1. *)
Lemma gridsearch_time_series_accuracy_metric_sample :
  let sp := py_int (Sample.exact_product 1 (size Sample.ten_rows)%:R) in
  let n := Posz (size Sample.ten_rows) in
  gridsearch_time_series Sample.arimax_stub Sample.score_one
    Sample.exact_product Sample.ten_rows
    Sample.ten_rows "accuracy" 1 tt
  = (st <- for_each
             (gridsearch_time_series_step Sample.arimax_stub Sample.score_one
                (iloc_rows Sample.ten_rows 0 sp)
                (iloc_rows Sample.ten_rows 0 sp)
                (iloc_rows Sample.ten_rows sp n)
                (iloc_rows Sample.ten_rows sp n))
             (time_series_grid rat) (Some 0, [::], tt) ;;
     Raised IndexError).
Proof.
have score_ge0 (y p : frame rat 1) : 0 <= Sample.score_one y p by [].
exact: (@gridsearch_time_series_accuracy_metric rat 1 unit
          Sample.arimax_stub Sample.score_one Sample.exact_product
          Sample.ten_rows Sample.ten_rows 1 tt score_ge0).
Defined.

Lemma float_info_max_gt0 (R : archiRealFieldType) : 0 < float_info_max R.
Proof. by rewrite /float_info_max subr_gt0 ltr_eXn2l // ltr1n. Qed.

(** A search of the time series orders that returns: with the error 0 for
    every combination, the first combination is kept. *)
Lemma time_series_search_returns :
  gridsearch_time_series Sample.arimax_stub Sample.score_zero
    Sample.exact_product Sample.ten_rows Sample.ten_rows "mse" 1 tt
  = Returned (PyInt rat 0, PyInt rat 0, PyInt rat 1, tt).
Proof.
rewrite /gridsearch_time_series time_series_combinations bind_Returned.
have -> : (if "mse"%string == "mse"%string then Some (float_info_max rat)
           else if "mse"%string == "accuracy"%string then Some 0 else None)
          = Some (float_info_max rat) by [].
move: (float_info_max rat) (float_info_max_gt0 rat) => best best_gt0.
rewrite /time_series_grid for_each_cons gridsearch_time_series_stepE.
rewrite /Sample.arimax_stub bind_Returned /Sample.score_zero best_gt0.
rewrite bind_Returned.
do 3![rewrite for_each_cons gridsearch_time_series_stepE bind_Returned ltxx;
      rewrite bind_Returned].
by [].
Qed.

(** X23 on that search. *)
Lemma gridsearch_time_series_result_sample :
  exists (ar ma d : pyval rat) (s' : unit),
    [/\ gridsearch_time_series Sample.arimax_stub Sample.score_zero
          Sample.exact_product Sample.ten_rows Sample.ten_rows "mse" 1 tt
        = Returned (ar, ma, d, s'),
        ar = PyInt rat 0 \/ ar = PyInt rat 5,
        ma = PyInt rat 0 \/ ma = PyInt rat 5
      & d = PyInt rat 1].
Proof.
have [_ ar_in ma_in eq_d _] :=
  gridsearch_time_series_result time_series_search_returns.
exists (PyInt rat 0), (PyInt rat 0), (PyInt rat 1), tt; split.
- exact: time_series_search_returns.
- exact: ar_in.
- exact: ma_in.
exact: eq_d.
Defined.

(** A search of the recurrent network that returns: with the accuracy 1 for
    every combination, the first combination is kept. *)
Lemma recurrent_search_returns :
  gridsearch_recurrent_neural_network Sample.rnn_stub Sample.score_one
    Sample.accuracy_one Sample.exact_product Sample.ten_rows Sample.ten_rows "accuracy" 1 tt
  = Returned (RnnInt 50, RnnInt 250, RnnBool true, tt).
Proof. by rewrite /gridsearch_recurrent_neural_network rnn_combinations. Qed.

(** X24 on that search. *)
Lemma gridsearch_recurrent_neural_network_result_sample :
  exists (n_hidden_neurons iterations outputbias : rnn_value) (s' : unit),
    [/\ gridsearch_recurrent_neural_network Sample.rnn_stub Sample.score_one
          Sample.accuracy_one Sample.exact_product Sample.ten_rows
          Sample.ten_rows "accuracy" 1 tt
        = Returned (n_hidden_neurons, iterations, outputbias, s'),
        n_hidden_neurons = RnnInt 50 \/ n_hidden_neurons = RnnInt 100,
        iterations = RnnInt 250 \/ iterations = RnnInt 500
      & outputbias = RnnBool true].
Proof.
have [_ hidden_in iterations_in eq_bias _] :=
  gridsearch_recurrent_neural_network_result recurrent_search_returns.
exists (RnnInt 50), (RnnInt 250), (RnnBool true), tt; split.
- exact: recurrent_search_returns.
- exact: hidden_in.
- exact: iterations_in.
exact: eq_bias.
Defined.

(** X25 on a metric name that the search does not know. *)
Lemma gridsearch_recurrent_neural_network_unknown_metric_sample :
  gridsearch_recurrent_neural_network Sample.rnn_stub Sample.score_one
    Sample.accuracy_one Sample.exact_product Sample.ten_rows Sample.ten_rows "f1" 1 tt
  = Raised IndexError.
Proof.
exact: (@gridsearch_recurrent_neural_network_unknown_metric rat 1 1 unit
          Sample.rnn_stub Sample.score_one Sample.accuracy_one
          Sample.exact_product Sample.ten_rows Sample.ten_rows "f1" 1 tt
          (erefl _)).
Defined.

(** X26 on a dataset of one row. *)
Lemma evaluator_internal_needs_two_rows_sample :
  Sample.evaluate Sample.one_row = Raised UnboundLocalError.
Proof.
exact: (@evaluator_internal_needs_two_rows rat unit [:: "self.x"%string]
          Sample.model_step Sample.model_set Sample.model_set
          Sample.model_execute Sample.model_values Sample.squared_error
          Sample.evaluator_x [:: 1] Sample.one_row true tt (erefl _)
          (erefl _) (erefl _)).
Defined.

(** X27 on a dataset of two rows. *)
Lemma evaluator_internal_shape_sample :
  exists fitness y_frame self',
    [/\ Sample.evaluate Sample.two_rows = Returned (fitness, y_frame, self'),
        Dynsys.n_rows y_frame = 2%N
      & size fitness = 1%N].
Proof.
have run_ok : returns (Sample.evaluate Sample.two_rows) by [].
have [[[fitness y_frame] self'] eq_run] := returns_value run_ok.
have [_ [_ eq_rows] [_ eq_fitness] _ _] := evaluator_internal_shape eq_run.
by exists fitness, y_frame, self'.
Defined.

(** X28 on a dataset of two rows. *)
Lemma evaluator_internal_fitness_sample :
  exists fitness y_frame self',
    Sample.evaluate Sample.two_rows = Returned (fitness, y_frame, self')
    /\ fitness
       = [seq Sample.squared_error [:: p]
                [:: Dynsys.cell Sample.two_rows 1 "x"]
         | p <- last [::] (Dynsys.frame_rows y_frame)].
Proof.
have run_ok : returns (Sample.evaluate Sample.two_rows) by [].
have [[[fitness y_frame] self'] eq_run] := returns_value run_ok.
have [eq_fitness _] := evaluator_internal_fitness eq_run.
by exists fitness, y_frame, self'.
Defined.

(** X30 on a model of two parameters. *)
Lemma generator_candidate_sample :
  let candidate :=
    (Dynsys.generator [:: "self.a"%string; "self.b"%string]
       Sample.lower_bound tt).1 in
  size candidate = 2%N /\ all (fun v => - 1 <= v <= 1) candidate.
Proof.
apply: (@generator_candidate rat [:: "self.a"%string; "self.b"%string] unit
          Sample.lower_bound tt) => a b g le_ab.
by rewrite /= lexx.
Defined.
